(** * AMATS: network discovery, reconciliation and the overdue notifier

    A shallow embedding of the parts of the AMATS repository that the
    specification calls its core:

    - [network_scanner/scanner.py]: [NetworkScanner] (subnet enumeration,
      ping probe, neighbour-table lookup) and [scan_and_update_assets];
    - [asset_management/management/commands/scan_network.py]:
      [Command.handle];
    - [asset_management/tasks.py]: [check_overdue_assignments], with
      [Task.retry] of Celery as the task calls it;

    and of what surrounds it:

    - [asset_management/forms.py]: [AssetForm.clean_mac_address] and
      [NetworkScanForm.clean_subnet], with the two field classes of
      [NetworkScanForm];
    - [asset_management/views.py]: [log_audit_action], [network_scan_view]
      (the third caller of the scanner) and [qr_lookup];
    - [asset_management/models.py]: [Asset._generate_asset_tag] and the text
      of the label of [Asset.generate_qr_code].

    Python values are modelled as follows.  Strings are byte strings
    ([string]); integers are [Z]; [None]-able values are [option]s; a Django
    table is the list of its rows; an exception is a value of type [exn] and
    a call that may raise returns an [Outcome].  Code that threads effects
    (sub-processes, the database, the mail transport) is written in a small
    state-and-exception monad [M] in which the state survives a raise, as a
    Python local or a committed row does.

    The standard-library module [ipaddress] is modelled after CPython 3.11
    ([Lib/ipaddress.py]), for textual input only.  [Task.retry] is
    modelled after Celery 5 and the two field classes after Django's
    [forms/fields.py], on ASCII text; neither is code of the repository. *)

From Stdlib Require Import String Ascii ZArith List Bool Lia.
From Stdlib Require Import DecimalString HexadecimalString.
Import ListNotations.

Local Open Scope Z_scope.
Local Open Scope string_scope.

(* ================================================================== *)
(** * Python values and control flow *)
(* ================================================================== *)

Module Py.

(** The exception classes that occur in the modelled code.  All of them
    derive from [Exception]; [BaseException]s that do not (a keyboard
    interrupt, an interpreter exit) are outside the model. *)
Inductive exn_class : Type :=
| ValueError
| TimeoutExpired
| OSError
| DoesNotExist
| MultipleObjectsReturned
| MaxRetriesExceededError
| Retry
| Reject
| SMTPException
| MemoryError
| OtherException.

Record exn : Type := Exn { exn_cls : exn_class; exn_msg : string }.

(** [str(exc)] *)
Definition str_exn (e : exn) : string := exn_msg e.

Definition exn_class_eqb (a b : exn_class) : bool :=
  match a, b with
  | ValueError, ValueError | TimeoutExpired, TimeoutExpired
  | OSError, OSError | DoesNotExist, DoesNotExist
  | MultipleObjectsReturned, MultipleObjectsReturned
  | MaxRetriesExceededError, MaxRetriesExceededError
  | Retry, Retry | Reject, Reject | SMTPException, SMTPException
  | MemoryError, MemoryError
  | OtherException, OtherException => true
  | _, _ => false
  end.

(** [isinstance(e, cls)], for the classes above (none derives from
    another one of them). *)
Definition isinstance (e : exn) (c : exn_class) : bool :=
  exn_class_eqb (exn_cls e) c.

Inductive Outcome (A : Type) : Type :=
| Returned (a : A)
| Raised (e : exn).
Arguments Returned {A} a.
Arguments Raised {A} e.

(** ** The state-and-exception monad *)

Definition M (S A : Type) : Type := S -> Outcome A * S.

Definition ret {S A} (a : A) : M S A := fun s => (Returned a, s).

Definition bind {S A B} (m : M S A) (k : A -> M S B) : M S B :=
  fun s =>
    match m s with
    | (Returned a, s') => k a s'
    | (Raised e, s') => (Raised e, s')
    end.

(** [raise e] *)
Definition raise {S A} (e : exn) : M S A := fun s => (Raised e, s).

(** [try: body except Exception as e: handler(e)] *)
Definition try_except {S A} (body : M S A) (handler : exn -> M S A) : M S A :=
  fun s =>
    match body s with
    | (Returned a, s') => (Returned a, s')
    | (Raised e, s') => handler e s'
    end.

(** [try: body except cls: handler]: other exceptions pass through. *)
Definition try_except_cls {S A} (body : M S A) (c : exn_class)
           (handler : exn -> M S A) : M S A :=
  try_except body (fun e => if isinstance e c then handler e else raise e).

Definition get {S} : M S S := fun s => (Returned s, s).
Definition gets {S A} (f : S -> A) : M S A := fun s => (Returned (f s), s).
Definition modify {S} (f : S -> S) : M S unit := fun s => (Returned tt, f s).

(** A pure call that may raise. *)
Definition lift {S A} (o : Outcome A) : M S A := fun s => (o, s).

(** [if c: body] *)
Definition when {S} (c : bool) (body : M S unit) : M S unit :=
  if c then body else ret tt.

(** [for x in xs: body(x)] *)
Fixpoint for_each {S A} (xs : list A) (body : A -> M S unit) : M S unit :=
  match xs with
  | [] => ret tt
  | x :: xs' => bind (body x) (fun _ => for_each xs' body)
  end.

(** A loop that rebuilds the list it walks (the body returns the element
    as it stands after the iteration). *)
Fixpoint for_each_map {S A B} (xs : list A) (body : A -> M S B) : M S (list B) :=
  match xs with
  | [] => ret []
  | x :: xs' =>
      bind (body x) (fun y =>
      bind (for_each_map xs' body) (fun ys => ret (y :: ys)))
  end.

(** ** Strings *)

(** Truthiness of a [str]. *)
Definition truthy (s : string) : bool :=
  match s with EmptyString => false | String _ _ => true end.

(** Truthiness of an optional [str] ([None] and [''] are falsy). *)
Definition truthy_opt (o : option string) : bool :=
  match o with None => false | Some s => truthy s end.

(** [s.split(sep)] for a one-character separator. *)
Fixpoint split (sep : ascii) (s : string) : list string :=
  match s with
  | EmptyString => [EmptyString]
  | String c s' =>
      if Ascii.eqb c sep then EmptyString :: split sep s'
      else match split sep s' with
           | [] => [String c EmptyString]
           | h :: t => String c h :: t
           end
  end.

(** [c in s] *)
Fixpoint contains (c : ascii) (s : string) : bool :=
  match s with
  | EmptyString => false
  | String d s' => Ascii.eqb c d || contains c s'
  end.

(** [s.partition(sep)], as [(head, found, tail)]. *)
Fixpoint partition (sep : ascii) (s : string) : string * bool * string :=
  match s with
  | EmptyString => (EmptyString, false, EmptyString)
  | String c s' =>
      if Ascii.eqb c sep then (EmptyString, true, s')
      else let '(h, f, t) := partition sep s' in (String c h, f, t)
  end.

Fixpoint forallb_string (p : ascii -> bool) (s : string) : bool :=
  match s with
  | EmptyString => true
  | String c s' => p c && forallb_string p s'
  end.

Definition map_string (f : ascii -> ascii) : string -> string :=
  fix go s :=
    match s with
    | EmptyString => EmptyString
    | String c s' => String (f c) (go s')
    end.

Definition is_digit (c : ascii) : bool :=
  let n := nat_of_ascii c in (48 <=? n)%nat && (n <=? 57)%nat.

Definition is_lower_hex (c : ascii) : bool :=
  let n := nat_of_ascii c in
  is_digit c || ((97 <=? n)%nat && (n <=? 102)%nat).

Definition is_hex (c : ascii) : bool :=
  let n := nat_of_ascii c in
  is_lower_hex c || ((65 <=? n)%nat && (n <=? 70)%nat).

Definition upper_ascii (c : ascii) : ascii :=
  let n := nat_of_ascii c in
  if (97 <=? n)%nat && (n <=? 122)%nat then ascii_of_nat (n - 32) else c.

Definition lower_ascii (c : ascii) : ascii :=
  let n := nat_of_ascii c in
  if (65 <=? n)%nat && (n <=? 90)%nat then ascii_of_nat (n + 32) else c.

(** [s.upper()] and [s.lower()] on ASCII text. *)
Definition upper : string -> string := map_string upper_ascii.
Definition lower : string -> string := map_string lower_ascii.

(** [s.replace(a, b)] for single characters. *)
Definition replace (a b : ascii) : string -> string :=
  map_string (fun c => if Ascii.eqb c a then b else c).

(** [s.isascii() and s.isdigit()] *)
Definition isdigit (s : string) : bool := truthy s && forallb_string is_digit s.

Definition digit_value (c : ascii) : Z :=
  let n := Z.of_nat (nat_of_ascii c) in
  if is_digit c then n - 48
  else if ((97 <=? n) && (n <=? 102))%Z then n - 87
  else n - 55.

(** [int(s, base)] on a string of digits of that base. *)
Definition int_of_digits (base : Z) (s : string) : Z :=
  (fix go (acc : Z) (s : string) : Z :=
     match s with
     | EmptyString => acc
     | String c s' => go (acc * base + digit_value c) s'
     end) 0 s.

(** [str(n)] for an [int]. *)
Definition str_int (n : Z) : string :=
  DecimalString.NilZero.string_of_int (Z.to_int n).

(** ['%x' % n] for [n >= 0]. *)
Definition hex_int (n : Z) : string :=
  HexadecimalString.NilZero.string_of_uint (N.to_hex_uint (Z.to_N n)).

(** [repr(s)] for a [str]: the text between single quotes, or between
    double quotes when it holds a single quote and no double one; the
    quote character and the backslash are escaped, and so are the control
    characters.  (Characters beyond ASCII are taken to be printable.) *)
Definition repr_char (quote c : ascii) : string :=
  let n := nat_of_ascii c in
  if Ascii.eqb c quote || (n =? 92)%nat then String (ascii_of_nat 92) (String c EmptyString)
  else if (n =? 9)%nat then String (ascii_of_nat 92) "t"
  else if (n =? 10)%nat then String (ascii_of_nat 92) "n"
  else if (n =? 13)%nat then String (ascii_of_nat 92) "r"
  else if (n <? 32)%nat || (n =? 127)%nat then
    String (ascii_of_nat 92)
           ("x" ++ (if (n <? 16)%nat then "0" else "") ++ hex_int (Z.of_nat n))
  else String c EmptyString.

Definition repr_str (s : string) : string :=
  let quote : ascii :=
    if contains "'" s && negb (contains (ascii_of_nat 34) s)
    then ascii_of_nat 34 else "'"%char in
  String quote
         ((fix go (s : string) : string :=
             match s with
             | EmptyString => String quote EmptyString
             | String c s' => repr_char quote c ++ go s'
             end) s).

(** [n.bit_length()] for [n >= 0]. *)
Definition bit_length (n : Z) : Z := if (n <=? 0)%Z then 0 else Z.log2 n + 1.

(** [range(lo, hi)] *)
Definition range (lo hi : Z) : list Z :=
  map (fun i => lo + Z.of_nat i) (seq 0 (Z.to_nat (hi - lo))).

(** [list(iterable)] on an iterable that yields the [count] items of
    [items]: the whole list is built before the call returns.  [capacity]
    is the number of items that the interpreter has memory for; past it the
    call raises [MemoryError], whose text is empty.  (An interpreter that
    the operating system stops first is outside the model.) *)
Definition list_of {A : Type} (capacity count : Z) (items : list A)
  : Outcome (list A) :=
  if (count <=? capacity)%Z then Returned items
  else Raised (Exn MemoryError "").

(** [xs[i]] for [i] possibly negative (in range). *)
Definition index (xs : list string) (i : Z) : string :=
  nth (Z.to_nat (if (i <? 0)%Z then Z.of_nat (length xs) + i else i)) xs EmptyString.

End Py.

(* ================================================================== *)
(** * The [ipaddress] module (CPython 3.11), for textual input *)
(* ================================================================== *)

Module ipaddress.
Import Py.

Inductive ip_version : Type := V4 | V6.

Definition _max_prefixlen (v : ip_version) : Z :=
  match v with V4 => 32 | V6 => 128 end.

Definition _ALL_ONES (v : ip_version) : Z := 2 ^ _max_prefixlen v - 1.

(** [IPv4Address] and [IPv6Address]; only the latter can carry a scope id. *)
Record Address : Type := mkAddress {
  addr_version : ip_version;
  _ip : Z;
  _scope_id : option string
}.

(** [IPv4Network] and [IPv6Network] *)
Record Network : Type := mkNetwork {
  version : ip_version;
  network_address : Address;
  _prefixlen : Z
}.

(** The functions below return [None] where the Python code raises
    [AddressValueError] or [NetmaskValueError]; [ip_network] catches both
    alike. *)

Definition option_bind {A B} (o : option A) (k : A -> option B) : option B :=
  match o with Some a => k a | None => None end.

(** [_BaseV4._parse_octet] *)
Definition _parse_octet (octet_str : string) : option Z :=
  if negb (truthy octet_str) then None
  else if negb (isdigit octet_str) then None
  else if (3 <? Z.of_nat (String.length octet_str))%Z then None
  else if negb (String.eqb octet_str "0")
          && String.eqb (substring 0 1 octet_str) "0" then None
  else
    let octet_int := int_of_digits 10 octet_str in
    if (255 <? octet_int)%Z then None else Some octet_int.

(** [int.from_bytes(map(parse, parts), 'big')] *)
Definition from_parts (parse : string -> option Z) (radix : Z)
           (parts : list string) : option Z :=
  fold_left
    (fun acc p =>
       option_bind acc (fun a =>
       option_bind (parse p) (fun o => Some (a * radix + o))))
    parts (Some 0).

(** [_BaseV4._ip_int_from_string] *)
Definition _ip_int_from_string_v4 (ip_str : string) : option Z :=
  if negb (truthy ip_str) then None
  else
    let octets := split "." ip_str in
    if negb (Nat.eqb (List.length octets) 4) then None
    else from_parts _parse_octet 256 octets.

(** [IPv4Address(address)] for a [str] *)
Definition IPv4Address (address : string) : option Address :=
  if contains "/" address then None
  else option_bind (_ip_int_from_string_v4 address)
         (fun ip => Some (mkAddress V4 ip None)).

(** [_BaseV6._parse_hextet]; [int('', 16)] raises [ValueError]. *)
Definition _parse_hextet (hextet_str : string) : option Z :=
  if negb (forallb_string is_hex hextet_str) then None
  else if (4 <? Z.of_nat (String.length hextet_str))%Z then None
  else if negb (truthy hextet_str) then None
  else Some (int_of_digits 16 hextet_str).

(** The two loops that end [_BaseV6._ip_int_from_string]. *)
Definition _parse_hextets (parts : list string)
           (parts_hi parts_lo parts_skipped : Z) : option Z :=
  let step acc i :=
    option_bind acc (fun ip_int =>
    option_bind (_parse_hextet (index parts i)) (fun h =>
    Some (Z.lor (Z.shiftl ip_int 16) h))) in
  let hi := fold_left step (range 0 parts_hi) (Some 0) in
  let mid := option_bind hi (fun ip_int =>
               Some (Z.shiftl ip_int (16 * parts_skipped))) in
  fold_left step (range (- parts_lo) 0) mid.

(** [_BaseV6._ip_int_from_string] *)
Definition _ip_int_from_string_v6 (ip_str : string) : option Z :=
  if negb (truthy ip_str) then None
  else
    let parts := split ":" ip_str in
    if (Z.of_nat (List.length parts) <? 3)%Z then None
    else
      let suffix := last parts EmptyString in
      option_bind
        (if contains "." suffix then
           option_bind (IPv4Address suffix) (fun a =>
             let ipv4_int := _ip a in
             Some (removelast parts
                     ++ [hex_int (Z.land (Z.shiftr ipv4_int 16) 65535);
                         hex_int (Z.land ipv4_int 65535)])%list)
         else Some parts)
        (fun parts =>
           let n := Z.of_nat (List.length parts) in
           if (9 <? n)%Z then None
           else
             let empties :=
               filter (fun i => negb (truthy (index parts i)))
                      (range 1 (n - 1)) in
             match empties with
             | _ :: _ :: _ => None
             | [skip_index] =>
                 option_bind
                   (if negb (truthy (index parts 0)) then
                      if (skip_index - 1 =? 0)%Z then Some (skip_index - 1)
                      else None
                    else Some skip_index)
                   (fun parts_hi =>
                 option_bind
                   (let parts_lo := n - skip_index - 1 in
                    if negb (truthy (index parts (-1))) then
                      if (parts_lo - 1 =? 0)%Z then Some (parts_lo - 1)
                      else None
                    else Some parts_lo)
                   (fun parts_lo =>
                 let parts_skipped := 8 - (parts_hi + parts_lo) in
                 if (parts_skipped <? 1)%Z then None
                 else _parse_hextets parts parts_hi parts_lo parts_skipped))
             | [] =>
                 if negb (n =? 8)%Z then None
                 else if negb (truthy (index parts 0)) then None
                 else if negb (truthy (index parts (-1))) then None
                 else _parse_hextets parts n 0 0
             end).

(** [_BaseV6._split_scope_id] *)
Definition _split_scope_id (ip_str : string) : option (string * option string) :=
  let '(addr, sep, scope_id) := partition "%" ip_str in
  if negb sep then Some (addr, None)
  else if negb (truthy scope_id) || contains "%" scope_id then None
  else Some (addr, Some scope_id).

(** [IPv6Address(address)] for a [str] *)
Definition IPv6Address (address : string) : option Address :=
  if contains "/" address then None
  else
    option_bind (_split_scope_id address) (fun '(addr_str, scope) =>
    option_bind (_ip_int_from_string_v6 addr_str) (fun ip =>
    Some (mkAddress V6 ip scope))).

(** [_count_righthand_zero_bits] *)
Definition _count_righthand_zero_bits (number bits : Z) : Z :=
  if (number =? 0)%Z then bits
  else Z.min bits (bit_length (Z.land (Z.lnot number) (number - 1))).

(** [_ip_int_from_prefix] *)
Definition _ip_int_from_prefix (v : ip_version) (prefixlen : Z) : Z :=
  Z.lxor (_ALL_ONES v) (Z.shiftr (_ALL_ONES v) prefixlen).

(** [_prefix_from_ip_int] *)
Definition _prefix_from_ip_int (v : ip_version) (ip_int : Z) : option Z :=
  let trailing_zeroes := _count_righthand_zero_bits ip_int (_max_prefixlen v) in
  let prefixlen := _max_prefixlen v - trailing_zeroes in
  let leading_ones := Z.shiftr ip_int trailing_zeroes in
  let all_ones := Z.shiftl 1 prefixlen - 1 in
  if (leading_ones =? all_ones)%Z then Some prefixlen else None.

(** [_prefix_from_prefix_string] *)
Definition _prefix_from_prefix_string (v : ip_version) (prefixlen_str : string)
  : option Z :=
  if negb (isdigit prefixlen_str) then None
  else
    let prefixlen := int_of_digits 10 prefixlen_str in
    if (0 <=? prefixlen)%Z && (prefixlen <=? _max_prefixlen v)%Z
    then Some prefixlen else None.

(** [_prefix_from_ip_string], which only [IPv4Network] reaches *)
Definition _prefix_from_ip_string (ip_str : string) : option Z :=
  option_bind (_ip_int_from_string_v4 ip_str) (fun ip_int =>
    match _prefix_from_ip_int V4 ip_int with
    | Some p => Some p
    | None => _prefix_from_ip_int V4 (Z.lxor ip_int (_ALL_ONES V4))
    end).

(** The second component returned by [_split_addr_prefix]: the text after
    the slash, or the integer [_max_prefixlen] when there is no slash. *)
Inductive mask_arg : Type :=
| MaskInt (n : Z)
| MaskStr (s : string).

(** [_split_optional_netmask] and [_split_addr_prefix] *)
Definition _split_addr_prefix (v : ip_version) (address : string)
  : option (string * mask_arg) :=
  match split "/" address with
  | [addr] => Some (addr, MaskInt (_max_prefixlen v))
  | [addr; mask] => Some (addr, MaskStr mask)
  | _ => None
  end.

(** [_make_netmask], as the prefix length it computes (the netmask is
    [_ip_int_from_prefix] of it). *)
Definition _make_netmask (v : ip_version) (arg : mask_arg) : option Z :=
  match arg with
  | MaskInt prefixlen =>
      if (0 <=? prefixlen)%Z && (prefixlen <=? _max_prefixlen v)%Z
      then Some prefixlen else None
  | MaskStr s =>
      match v with
      | V4 =>
          match _prefix_from_prefix_string V4 s with
          | Some p => Some p
          | None => _prefix_from_ip_string s
          end
      | V6 => _prefix_from_prefix_string V6 s
      end
  end.

(** [IPv4Network(address, strict=False)] and
    [IPv6Network(address, strict=False)] *)
Definition IPNetwork (v : ip_version) (address : string) : option Network :=
  option_bind (_split_addr_prefix v address) (fun '(addr, mask) =>
  option_bind (match v with V4 => IPv4Address addr | V6 => IPv6Address addr end)
    (fun a =>
  option_bind (_make_netmask v mask) (fun prefixlen =>
    let netmask := _ip_int_from_prefix v prefixlen in
    let packed := _ip a in
    let na := if (Z.land packed netmask =? packed)%Z then a
              else mkAddress v (Z.land packed netmask) None in
    Some (mkNetwork v na prefixlen)))).

(** [ip_network(address, strict=False)]; the message quotes the text as
    [repr] does. *)
Definition ip_network (address : string) : Outcome Network :=
  match IPNetwork V4 address with
  | Some n => Returned n
  | None =>
      match IPNetwork V6 address with
      | Some n => Returned n
      | None =>
          Raised (Exn ValueError
                      (repr_str address
                         ++ " does not appear to be an IPv4 or IPv6 network"))
      end
  end.

Definition netmask (n : Network) : Z := _ip_int_from_prefix (version n) (_prefixlen n).
Definition hostmask (n : Network) : Z := Z.lxor (netmask n) (_ALL_ONES (version n)).

(** [int(network.broadcast_address)] *)
Definition broadcast_address (n : Network) : Z :=
  Z.lor (_ip (network_address n)) (hostmask n).

(** [network._address_class(x)] *)
Definition _address_class (n : Network) (x : Z) : Address :=
  mkAddress (version n) x None.

(** The addresses that [network.hosts()] yields, in order.  The
    constructors replace [hosts] on a network
    whose prefix length is the maximum or one less; on the maximum the
    single address is built from the address text again, which gives
    [network_address]. *)
Definition hosts (n : Network) : list Address :=
  let network := _ip (network_address n) in
  let broadcast := broadcast_address n in
  if (_prefixlen n =? _max_prefixlen (version n) - 1)%Z then
    map (_address_class n) (range network (broadcast + 1))
  else if (_prefixlen n =? _max_prefixlen (version n))%Z then
    [network_address n]
  else
    match version n with
    | V4 => map (_address_class n) (range (network + 1) broadcast)
    | V6 => map (_address_class n) (range (network + 1) (broadcast + 1))
    end.

(** The number of addresses that [network.hosts()] yields: the length of
    the range it walks, or of the list that replaces it (the lemma
    [num_hosts_length] below). *)
Definition num_hosts (n : Network) : Z :=
  let network := _ip (network_address n) in
  let broadcast := broadcast_address n in
  if (_prefixlen n =? _max_prefixlen (version n) - 1)%Z then
    Z.max 0 (broadcast + 1 - network)
  else if (_prefixlen n =? _max_prefixlen (version n))%Z then
    1
  else
    match version n with
    | V4 => Z.max 0 (broadcast - (network + 1))
    | V6 => Z.max 0 (broadcast + 1 - (network + 1))
    end.

(** [_BaseV6._compress_hextets] *)
Definition _compress_hextets (hextets : list string) : list string :=
  let '(best_start, best_len, _, _, _) :=
    fold_left
      (fun '(bs, bl, ds, dl, idx) hextet =>
         if String.eqb hextet "0" then
           let dl' := dl + 1 in
           let ds' := if (ds =? -1)%Z then idx else ds in
           if (bl <? dl')%Z then (ds', dl', ds', dl', idx + 1)
           else (bs, bl, ds', dl', idx + 1)
         else (bs, bl, -1, 0, idx + 1))
      hextets (-1, 0, -1, 0, 0) in
  if (1 <? best_len)%Z then
    let best_end := best_start + best_len in
    let hextets1 :=
      if (best_end =? Z.of_nat (List.length hextets))%Z
      then (hextets ++ [EmptyString])%list else hextets in
    let hextets2 :=
      (firstn (Z.to_nat best_start) hextets1
         ++ [EmptyString] ++ skipn (Z.to_nat best_end) hextets1)%list in
    if (best_start =? 0)%Z then EmptyString :: hextets2 else hextets2
  else hextets.

(** [_string_from_ip_int] of either class *)
Definition _string_from_ip_int (v : ip_version) (ip_int : Z) : string :=
  match v with
  | V4 =>
      String.concat "."
        (map (fun k => str_int (Z.land (Z.shiftr ip_int (8 * k)) 255)) [3; 2; 1; 0])
  | V6 =>
      String.concat ":"
        (_compress_hextets
           (map (fun k => hex_int (Z.land (Z.shiftr ip_int (16 * k)) 65535))
                [7; 6; 5; 4; 3; 2; 1; 0]))
  end.

(** [str(address)] *)
Definition str (a : Address) : string :=
  let ip_str := _string_from_ip_int (addr_version a) (_ip a) in
  match _scope_id a with
  | Some scope => if truthy scope then ip_str ++ "%" ++ scope else ip_str
  | None => ip_str
  end.

End ipaddress.

(* ================================================================== *)
(** * The asset registry ([asset_management/models.py]) *)
(* ================================================================== *)

Module models.
Import Py.

(** [Asset.STATUS_CHOICES] *)
Inductive Status : Type :=
| AVAILABLE | ASSIGNED | MISSING | MAINTENANCE | RETIRED.

Definition status_eqb (a b : Status) : bool :=
  match a, b with
  | AVAILABLE, AVAILABLE | ASSIGNED, ASSIGNED | MISSING, MISSING
  | MAINTENANCE, MAINTENANCE | RETIRED, RETIRED => true
  | _, _ => false
  end.

(** The columns of [Asset] that a network scan reads or writes, with the
    primary key.  [mac_address] carries no uniqueness constraint in the
    schema.  ([updated_at], which every [save] refreshes, is not among
    them.) *)
Record Asset : Type := mkAsset {
  id : Z;
  asset_tag : string;
  mac_address : option string;
  ip_address : option string;
  status : Status;
  location : string;
  network_last_seen : option Z
}.

Definition set_asset_tag (tag : string) (a : Asset) : Asset :=
  mkAsset (id a) tag (mac_address a) (ip_address a) (status a)
          (location a) (network_last_seen a).

Definition set_network_last_seen (t : Z) (a : Asset) : Asset :=
  mkAsset (id a) (asset_tag a) (mac_address a) (ip_address a) (status a)
          (location a) (Some t).

Definition set_ip_address (ip : string) (a : Asset) : Asset :=
  mkAsset (id a) (asset_tag a) (mac_address a) (Some ip) (status a)
          (location a) (network_last_seen a).

Definition set_status (st : Status) (a : Asset) : Asset :=
  mkAsset (id a) (asset_tag a) (mac_address a) (ip_address a) st
          (location a) (network_last_seen a).

Definition set_location (l : string) (a : Asset) : Asset :=
  mkAsset (id a) (asset_tag a) (mac_address a) (ip_address a) (status a)
          l (network_last_seen a).

(** The lookup [mac_address__iexact=value]: a [NULL] column matches
    nothing; letters compare without regard to case. *)
Definition iexact (column : option string) (value : string) : bool :=
  match column with
  | Some c => String.eqb (upper c) (upper value)
  | None => false
  end.

(** [Asset.objects.get(mac_address__iexact=value)] on the table [rows] *)
Definition objects_get (rows : list Asset) (value : string) : Outcome Asset :=
  match filter (fun a => iexact (mac_address a) value) rows with
  | [] => Raised (Exn DoesNotExist "Asset matching query does not exist.")
  | [a] => Returned a
  | _ :: _ :: _ =>
      Raised (Exn MultipleObjectsReturned "get() returned more than one Asset")
  end.

(** The update that [asset.save()] issues for a fetched row: it rewrites
    the row with that primary key. *)
Definition save_row (asset : Asset) (rows : list Asset) : list Asset :=
  map (fun a => if (id a =? id asset)%Z then asset else a) rows.

End models.

(* ================================================================== *)
(** * [network_scanner/scanner.py] *)
(* ================================================================== *)

Module scanner.
Import Py models.

(** What [subprocess.run] returns. *)
Record CompletedProcess : Type := mkCompleted {
  returncode : Z;
  stdout : string
}.

(** The trace of a scan.  [Subprocess] records a call of [subprocess.run]
    with its argument vector and time-out and with what the call returned
    or raised, in call order; [HostBegin] and [HostEnd] are ghost marks for
    entering and leaving [_scan_host]. *)
Inductive event : Type :=
| HostBegin (ip : string)
| Subprocess (argv : list string) (timeout : Z)
             (result : Outcome CompletedProcess)
| HostEnd (ip : string).

(** One entry of the list a scan returns (a [dict] in the source). *)
Record ScanResult : Type := mkScanResult {
  r_ip_address : string;
  r_mac_address : option string;
  r_is_alive : bool;
  r_asset_found : bool;
  r_asset_id : option Z;
  r_asset_tag : option string
}.

(** The dictionary [scan_and_update_assets] returns. *)
Record Summary : Type := mkSummary {
  scanned : Z;
  matched : Z;
  missing_found : Z;
  results : list ScanResult
}.

(** How [self.stdout.write] of a management command styles a line. *)
Inductive Style : Type := PLAIN | NOTICE | SUCCESS | WARNING.

Section WithWorld.

(** The environment: the platform name, the operating system and network
    behind [subprocess.run], the memory that [list] has for the hosts of a
    block, the clock behind [timezone.now], and the random draws of
    [Asset._generate_asset_tag]. *)
Context {World : Type}.
Variable platform_system : string.
Variable subprocess_run :
  list string -> Z -> World -> Outcome CompletedProcess * World.
Variable list_capacity : Z.
Variable timezone_now : World -> Z * World.
Variable generate_asset_tag : Asset -> World -> string * World.

(** What a scan and a reconciliation act on: the world, the trace of the
    scan, the [Asset] table, and what was written to the console by [print]
    and by a management command. *)
Record State : Type := mkState {
  world : World;
  trace : list event;
  assets : list Asset;
  printed : list string;
  cmd_stdout : list (Style * string)
}.

Definition emit (e : event) : M State unit :=
  modify (fun s => mkState (world s) (trace s ++ [e]) (assets s) (printed s)
                           (cmd_stdout s)).

(** [print(line)] *)
Definition print (line : string) : M State unit :=
  modify (fun s => mkState (world s) (trace s) (assets s) (printed s ++ [line])
                           (cmd_stdout s)).

(** [self.stdout.write(self.style.X(line))] *)
Definition stdout_write (style : Style) (line : string) : M State unit :=
  modify (fun s => mkState (world s) (trace s) (assets s) (printed s)
                           (cmd_stdout s ++ [(style, line)])).

(** [subprocess.run(argv, ..., timeout=t)] *)
Definition run (argv : list string) (t : Z) : M State CompletedProcess :=
  fun s =>
    let '(o, w) := subprocess_run argv t (world s) in
    (o, mkState w (trace s ++ [Subprocess argv t o]) (assets s) (printed s)
                (cmd_stdout s)).

(** [timezone.now()] *)
Definition now : M State Z :=
  fun s =>
    let '(t, w) := timezone_now (world s) in
    (Returned t, mkState w (trace s) (assets s) (printed s) (cmd_stdout s)).

(** [Asset.objects.get(mac_address__iexact=mac)] *)
Definition get_asset (mac : string) : M State Asset :=
  fun s => (objects_get (assets s) mac, s).

(** [Asset.save] ([models.py]) on a fetched row, returning the row as
    saved: a row without a tag is given one, then the row is written.  (A
    QR code is made only for a row that is being created.) *)
Definition save (asset : Asset) : M State Asset :=
  bind (if truthy (asset_tag asset) then ret asset
        else
          fun s =>
            let '(tag, w) := generate_asset_tag asset (world s) in
            (Returned (set_asset_tag tag asset),
             mkState w (trace s) (assets s) (printed s) (cmd_stdout s)))
       (fun asset =>
  bind (modify (fun s => mkState (world s) (trace s)
                                 (save_row asset (assets s))
                                 (printed s) (cmd_stdout s)))
       (fun _ => ret asset)).

(** ** The hardware-address patterns

    The three regular expressions of [_get_mac_address] are a literal
    prefix followed by one group of six two-digit fields joined by a
    separator, so a match at a position is unique and [re.search] returns
    the leftmost position that matches. *)

Definition mac_shaped (digit : ascii -> bool) (sep : ascii) (m : string) : bool :=
  Nat.eqb (String.length m) 17
  && forallb
       (fun i =>
          match String.get i m with
          | Some c => if Nat.eqb (i mod 3) 2 then Ascii.eqb c sep else digit c
          | None => false
          end)
       (seq 0 17).

Definition match_here (lit : string) (digit : ascii -> bool) (sep : ascii)
           (s : string) : option string :=
  if String.prefix lit s then
    let m := substring (String.length lit) 17 s in
    if mac_shaped digit sep m then Some m else None
  else None.

(** [re.search(lit + "(" + mac + ")", s)], as [group(1)] of the match *)
Fixpoint re_search (lit : string) (digit : ascii -> bool) (sep : ascii)
         (s : string) : option string :=
  match match_here lit digit sep s with
  | Some m => Some m
  | None =>
      match s with
      | EmptyString => None
      | String _ s' => re_search lit digit sep s'
      end
  end.

(** ** [class NetworkScanner] *)

Record NetworkScanner : Type := mkScanner {
  subnet : string;
  timeout : Z
}.

Definition is_windows : bool := String.eqb (lower platform_system) "windows".

(** The command line of [_ping_host] *)
Definition ping_argv (self : NetworkScanner) (ip : string) : list string :=
  let param := if is_windows then "-n" else "-c" in
  let timeout_param := if is_windows then "-w" else "-W" in
  let timeout_val :=
    if is_windows then str_int (timeout self * 1000)
    else str_int (timeout self) in
  let count := "1" in
  ["ping"; param; count; timeout_param; timeout_val; ip].

(** [NetworkScanner._ping_host] *)
Definition _ping_host (self : NetworkScanner) (ip : string) : M State bool :=
  try_except
    (bind (run (ping_argv self ip) (timeout self + 2))
          (fun result => ret (returncode result =? 0)%Z))
    (fun _ => ret false).

(** [NetworkScanner._get_mac_address] *)
Definition _get_mac_address (self : NetworkScanner) (ip : string)
  : M State (option string) :=
  try_except
    (if is_windows then
       bind (run ["arp"; "-a"; ip] 5) (fun result =>
       match re_search "" is_hex "-" (stdout result) with
       | Some g => ret (Some (upper (replace "-" ":" g)))
       | None => ret None
       end)
     else
       bind (run ["ip"; "neigh"; "show"; ip] 5) (fun result =>
       match re_search "lladdr " is_lower_hex ":" (lower (stdout result)) with
       | Some g => ret (Some (upper g))
       | None =>
           bind (run ["arp"; "-n"; ip] 5) (fun result =>
           match re_search "" is_hex ":" (stdout result) with
           | Some g => ret (Some (upper g))
           | None => ret None
           end)
       end))
    (fun e =>
       bind (print ("Error getting MAC for " ++ ip ++ ": " ++ str_exn e))
            (fun _ => ret None)).

(** [NetworkScanner._scan_host] *)
Definition _scan_host (self : NetworkScanner) (ip : string)
  : M State (option ScanResult) :=
  bind (emit (HostBegin ip)) (fun _ =>
  bind (_ping_host self ip) (fun is_alive =>
  bind (if is_alive then
          bind (_get_mac_address self ip) (fun mac =>
          ret (Some (mkScanResult ip mac true false None None)))
        else ret None) (fun result =>
  bind (emit (HostEnd ip)) (fun _ =>
  ret result)))).

(** The loop of [scan]; [results] is the list built so far. *)
Fixpoint scan_hosts (self : NetworkScanner) (hosts : list ipaddress.Address)
         (results : list ScanResult) : M State (list ScanResult) :=
  match hosts with
  | [] => ret results
  | host :: rest =>
      let ip := ipaddress.str host in
      bind (_scan_host self ip) (fun result =>
      scan_hosts self rest
        (match result with
         | Some r => results ++ [r]
         | None => results
         end)%list)
  end.

(** [NetworkScanner.scan].  In [list(network.hosts())[:254]] the list of
    every host is built first and cut afterwards. *)
Definition scan (self : NetworkScanner) : M State (list ScanResult) :=
  try_except
    (bind (lift (ipaddress.ip_network (subnet self))) (fun network =>
     bind (lift (list_of list_capacity (ipaddress.num_hosts network)
                         (ipaddress.hosts network))) (fun every_host =>
     let hosts := firstn 254 every_host in
     scan_hosts self hosts [])))
    (fun e =>
       bind (print ("Scan error: " ++ str_exn e)) (fun _ => ret [])).

(** ** [scan_and_update_assets] *)

(** One iteration of the matching loop.  [matched] and [found_missing] are
    the function's local counters; the entry of [results] is updated in
    place, so the iteration returns it as it stands afterwards. *)
Definition update_asset (result : ScanResult) (matched found_missing : Z)
  : M State (ScanResult * Z * Z) :=
  match r_mac_address result with
  | Some mac =>
      if truthy mac then
        try_except_cls
          (bind (get_asset mac) (fun asset =>
           bind now (fun t =>
           let asset := set_network_last_seen t asset in
           let '(asset, found_missing) :=
             if status_eqb (status asset) MISSING then
               (set_location ("Detected on network: " ++ r_ip_address result)
                             (set_status AVAILABLE asset),
                found_missing + 1)
             else (asset, found_missing) in
           let asset := set_ip_address (r_ip_address result) asset in
           bind (save asset) (fun asset =>
           ret (mkScanResult (r_ip_address result) (r_mac_address result)
                             (r_is_alive result) true (Some (id asset))
                             (Some (asset_tag asset)),
                matched + 1, found_missing)))))
          DoesNotExist
          (fun _ => ret (result, matched, found_missing))
      else ret (result, matched, found_missing)
  | None => ret (result, matched, found_missing)
  end.

(** The matching loop over the scan results *)
Fixpoint update_assets (results : list ScanResult) (matched found_missing : Z)
  : M State (list ScanResult * Z * Z) :=
  match results with
  | [] => ret ([], matched, found_missing)
  | result :: rest =>
      bind (update_asset result matched found_missing)
           (fun '(result', matched', found_missing') =>
      bind (update_assets rest matched' found_missing')
           (fun '(rest', m, f) => ret (result' :: rest', m, f)))
  end.

(** The part of [scan_and_update_assets] that follows the scan. *)
Definition reconcile (results : list ScanResult) : M State Summary :=
  bind (update_assets results 0 0) (fun '(results', matched, found_missing) =>
  ret (mkSummary (Z.of_nat (List.length results')) matched found_missing results')).

(** [scan_and_update_assets(subnet)] *)
Definition scan_and_update_assets (subnet : string) : M State Summary :=
  let scanner := mkScanner subnet 1 in
  bind (scan scanner) (fun results =>
  reconcile results).

End WithWorld.

Arguments State World : clear implicits.

End scanner.

(* ================================================================== *)
(** * [asset_management/management/commands/scan_network.py] *)
(* ================================================================== *)

Module scan_network.
Import Py models scanner.

Section WithWorld.

Context {World : Type}.
Variable platform_system : string.
Variable subprocess_run :
  list string -> Z -> World -> Outcome CompletedProcess * World.
Variable list_capacity : Z.
Variable timezone_now : World -> Z * World.
Variable generate_asset_tag : Asset -> World -> string * World.

(** The local counters of [Command.handle] *)
Record Counters : Type := mkCounters {
  found_count : Z;
  matched_count : Z;
  missing_found : Z
}.

(** One iteration of the loop of [Command.handle] *)
Definition handle_result (result : ScanResult) (c : Counters) : M (State World) Counters :=
  match r_mac_address result with
  | Some mac =>
      if negb (truthy mac) then ret c
      else
        try_except_cls
          (bind (get_asset mac) (fun asset =>
           bind (now timezone_now) (fun t =>
           let asset := set_network_last_seen t asset in
           let asset := set_ip_address (r_ip_address result) asset in
           bind (if status_eqb (status asset) MISSING then
                   let asset :=
                     set_location ("Auto-detected: " ++ r_ip_address result)
                                  (set_status AVAILABLE asset) in
                   bind (stdout_write SUCCESS
                           ("[FOUND MISSING] " ++ asset_tag asset ++ " at "
                              ++ r_ip_address result))
                        (fun _ => ret (asset, missing_found c + 1))
                 else
                   bind (stdout_write PLAIN
                           ("[DETECTED] " ++ asset_tag asset ++ " at "
                              ++ r_ip_address result))
                        (fun _ => ret (asset, missing_found c)))
                (fun '(asset, missing) =>
           bind (save generate_asset_tag asset) (fun _ =>
           ret (mkCounters (found_count c) (matched_count c + 1) missing))))))
          DoesNotExist
          (fun _ =>
             bind (stdout_write WARNING
                     ("[UNKNOWN] Device at " ++ r_ip_address result ++ " - " ++ mac))
                  (fun _ =>
             ret (mkCounters (found_count c + 1) (matched_count c)
                             (missing_found c))))
  | None => ret c
  end.

Fixpoint handle_results (results : list ScanResult) (c : Counters) : M (State World) Counters :=
  match results with
  | [] => ret c
  | result :: rest =>
      bind (handle_result result c) (fun c' => handle_results rest c')
  end.

(** ['-' * 50] *)
Definition rule : string :=
  "--------------------------------------------------".

(** The closing line of the command *)
Definition summary_line (hosts_up : Z) (c : Counters) : string :=
  "Scan complete: " ++ str_int hosts_up ++ " hosts up, "
    ++ str_int (matched_count c) ++ " assets matched, "
    ++ str_int (missing_found c) ++ " missing found".

(** [Command.handle] with the options [subnet] and [timeout] *)
Definition handle (subnet : string) (timeout : Z) : M (State World) unit :=
  bind (stdout_write NOTICE ("Initiating network scan on " ++ subnet ++ "..."))
       (fun _ =>
  bind (stdout_write PLAIN ("Timeout: " ++ str_int timeout ++ "s per host"))
       (fun _ =>
  bind (stdout_write PLAIN rule) (fun _ =>
  let scanner := mkScanner subnet timeout in
  bind (scan platform_system subprocess_run list_capacity scanner) (fun results =>
  bind (handle_results results (mkCounters 0 0 0)) (fun c =>
  bind (stdout_write PLAIN rule) (fun _ =>
  stdout_write SUCCESS (summary_line (Z.of_nat (List.length results)) c))))))).

End WithWorld.

End scan_network.

(* ================================================================== *)
(** * [asset_management/tasks.py] *)
(* ================================================================== *)

Module tasks.
Import Py.

(** [django.contrib.auth.models.User], as far as the task reads it *)
Record User : Type := mkUser {
  user_id : Z;
  username : string;
  email : string
}.

(** [AssetAssignment] with the columns of its asset that the task reads.
    Both user columns are [NOT NULL] foreign keys. *)
Record AssetAssignment : Type := mkAssignment {
  a_id : Z;
  asset_name : string;
  a_asset_tag : string;
  assigned_to : User;
  assigned_by : User;
  date_due : option Z;
  date_returned : option Z
}.

(** [Notification.LEVEL_CHOICES] *)
Inductive Level : Type := INFO | WARNING | ALERT.

Record Notification : Type := mkNotification {
  n_user : User;
  n_message : string;
  n_link : string;
  n_level : Level
}.

Record AuditLog : Type := mkAuditLog {
  l_user : option User;
  l_action : string;
  l_model_name : string;
  l_object_id : string;
  l_description : string
}.

(** The options of the decorator:
    [@shared_task(bind=True, max_retries=3, default_retry_delay=60)] *)
Definition max_retries : Z := 3.
Definition default_retry_delay : Z := 60.

(** The dictionary the task returns *)
Record Result : Type := mkResult {
  overdue_count : Z;
  r_notifications_created : Z;
  r_email_notifications : Z
}.

Section WithWorld.

(** The environment: the clock, the mail transport, the task queue behind
    [self.retry], the settings, and the two library calls that render a user
    and a time stamp. *)
Context {World : Type}.
Variable timezone_now : World -> Z * World.
Variable send_mail :
  string -> string -> string -> list string -> World -> Outcome Z * World.
(** the exception that the statement [raise self.retry(exc=exc)] raises *)
Variable self_retry : exn -> World -> exn * World.
Variable EMAIL_HOST : string.
Variable DEFAULT_FROM_EMAIL : string.
Variable get_full_name : User -> string.
Variable str_datetime : Z -> string.

(** The tables the task touches and its two local counters.  The counters
    are part of the state because an assignment made before a raise is kept
    when the handler runs. *)
Record State : Type := mkState {
  world : World;
  assignments : list AssetAssignment;
  notifications : list Notification;
  audit_log : list AuditLog;
  notifications_created : Z;
  email_notifications : Z
}.

(** [timezone.now()] *)
Definition now : M State Z :=
  fun s =>
    let '(t, w) := timezone_now (world s) in
    (Returned t,
     mkState w (assignments s) (notifications s) (audit_log s)
             (notifications_created s) (email_notifications s)).

(** [Notification.objects.create(...)] *)
Definition create_notification (n : Notification) : M State unit :=
  modify (fun s =>
    mkState (world s) (assignments s) (notifications s ++ [n]) (audit_log s)
            (notifications_created s) (email_notifications s)).

(** [AuditLog.objects.create(user=None, action='EXPORT',
    model_name='AssetAssignment', object_id=str(assignment.id), ...)] *)
Definition create_audit_log (assignment : AssetAssignment) (description : string)
  : M State unit :=
  modify (fun s =>
    mkState (world s) (assignments s) (notifications s)
            (audit_log s
               ++ [mkAuditLog None "EXPORT" "AssetAssignment"
                              (str_int (a_id assignment)) description])
            (notifications_created s) (email_notifications s)).

(** [notifications_created += 1] *)
Definition incr_notifications_created : M State unit :=
  modify (fun s =>
    mkState (world s) (assignments s) (notifications s) (audit_log s)
            (notifications_created s + 1) (email_notifications s)).

(** [email_notifications += 1] *)
Definition incr_email_notifications : M State unit :=
  modify (fun s =>
    mkState (world s) (assignments s) (notifications s) (audit_log s)
            (notifications_created s) (email_notifications s + 1)).

(** [send_mail(subject, message, settings.DEFAULT_FROM_EMAIL, recipients,
    fail_silently=False)] *)
Definition do_send_mail (subject message : string) (recipients : list string)
  : M State Z :=
  fun s =>
    let '(o, w) := send_mail subject message DEFAULT_FROM_EMAIL recipients (world s) in
    (o, mkState w (assignments s) (notifications s) (audit_log s)
                (notifications_created s) (email_notifications s)).

(** [raise self.retry(exc=exc)] *)
Definition raise_retry {A} (exc : exn) : M State A :=
  fun s =>
    let '(e, w) := self_retry exc (world s) in
    (Raised e, mkState w (assignments s) (notifications s) (audit_log s)
                       (notifications_created s) (email_notifications s)).

(** Truthiness of a model instance: the class defines neither [__bool__]
    nor [__len__]. *)
Definition instance_truthy (u : User) : bool := true.

Definition subject_of (assignment : AssetAssignment) : string :=
  "Overdue Asset Alert: " ++ a_asset_tag assignment.

Definition LF : string := String (ascii_of_nat 10) EmptyString.

Definition message_of (assignment : AssetAssignment) : string :=
  let full_name := get_full_name (assigned_to assignment) in
  "Asset " ++ asset_name assignment ++ " (" ++ a_asset_tag assignment
    ++ ") is overdue." ++ LF
    ++ "Assigned to: "
    ++ (if truthy full_name then full_name else username (assigned_to assignment))
    ++ LF
    ++ "Due date: "
    ++ match date_due assignment with
       | Some d => str_datetime d
       | None => "None"
       end
    ++ LF
    ++ "Please follow up.".

Definition link_of (assignment : AssetAssignment) : string :=
  "/assignments/" ++ str_int (a_id assignment) ++ "/".

(** [if recipients and getattr(settings, 'EMAIL_HOST', '')] *)
Definition mail_configured (recipients : list string) : bool :=
  match recipients with
  | [] => false
  | _ :: _ => truthy EMAIL_HOST
  end.

(** The [try] block of the loop body *)
Definition notify (assignment : AssetAssignment) : M State unit :=
  let subject := subject_of assignment in
  let message := message_of assignment in
  let recipients : list string := [] in
  bind (if instance_truthy (assigned_by assignment) then
          bind (create_notification
                  (mkNotification (assigned_by assignment) message
                                  (link_of assignment) ALERT)) (fun _ =>
          bind incr_notifications_created (fun _ =>
          ret (if truthy (email (assigned_by assignment))
               then recipients ++ [email (assigned_by assignment)]
               else recipients)%list))
        else ret recipients) (fun recipients =>
  bind (if instance_truthy (assigned_to assignment) then
          bind (create_notification
                  (mkNotification (assigned_to assignment) message
                                  (link_of assignment) WARNING)) (fun _ =>
          bind incr_notifications_created (fun _ =>
          ret (if truthy (email (assigned_to assignment))
               then recipients ++ [email (assigned_to assignment)]
               else recipients)%list))
        else ret recipients) (fun recipients =>
  bind (when (mail_configured recipients)
          (try_except
             (bind (do_send_mail subject message recipients) (fun _ =>
              incr_email_notifications))
             (fun exc =>
                try_except_cls
                  (raise_retry exc)
                  MaxRetriesExceededError
                  (fun _ =>
                     create_audit_log assignment
                       ("Failed to send overdue email after retries: "
                          ++ str_exn exc))))) (fun _ =>
  bind (gets notifications_created) (fun n =>
  create_audit_log assignment
    ("Created " ++ str_int n ++ " notifications for overdue assignment "
       ++ str_int (a_id assignment)))))).

(** The loop body: the [try] block with its [except Exception] handler *)
Definition process_assignment (assignment : AssetAssignment) : M State unit :=
  try_except
    (notify assignment)
    (fun e =>
       create_audit_log assignment
         ("Unexpected error in overdue task: " ++ str_exn e)).

(** [date_due__lt=now, date_returned__isnull=True] *)
Definition is_overdue (t : Z) (a : AssetAssignment) : bool :=
  match date_due a, date_returned a with
  | Some due, None => (due <? t)%Z
  | _, _ => false
  end.

(** [check_overdue_assignments(self)].  The query set is evaluated when the
    loop starts, and [overdue.count()] after the loop is the length of the
    rows it cached. *)
Definition check_overdue_assignments : M State Result :=
  bind now (fun t =>
  bind (gets assignments) (fun rows =>
  let overdue := filter (is_overdue t) rows in
  bind (modify (fun s =>
          mkState (world s) (assignments s) (notifications s) (audit_log s)
                  0 0)) (fun _ =>
  bind (for_each overdue process_assignment) (fun _ =>
  bind (gets notifications_created) (fun n =>
  bind (gets email_notifications) (fun m =>
  ret (mkResult (Z.of_nat (List.length overdue)) n m))))))).

End WithWorld.

Arguments State World : clear implicits.

End tasks.

(* ================================================================== *)
(** * [Task.retry] of Celery 5, as [tasks.py] calls it *)
(* ================================================================== *)

Module celery.
Import Py.

(** What [retry] reads of [self.request]: whether the task function was
    called as a plain function, the number of retries made so far, and
    whether the task runs eagerly. *)
Record Request : Type := mkRequest {
  called_directly : bool;
  retries : Z;
  is_eager : bool
}.

Section WithWorld.

(** The environment: the broker behind [apply_async], and [repr] of an
    exception. *)
Context {World : Type}.
Variable apply_async : World -> Outcome unit * World.
Variable repr_exn : exn -> string.

(** [self.retry(exc=exc)] in a task declared with [max_retries] and
    [default_retry_delay], as the exception that the statement
    [raise self.retry(exc=exc)] raises; the call raises it itself, since
    [throw] is left at its default.  The call is given an exception, and an
    exception is truthy: called directly or with the retries used up it
    raises [exc] again ([MaxRetriesExceededError] is for a call without
    [exc]); otherwise it sends the retry to the broker and raises [Retry],
    or [Reject] when the broker refuses. *)
Definition retry (max_retries default_retry_delay : Z) (request : Request)
           (exc : exn) (w : World) : exn * World :=
  if called_directly request then (exc, w)
  else if (max_retries <? retries request + 1)%Z then (exc, w)
  else
    let ret :=
      Exn Retry ("Retry in " ++ str_int default_retry_delay ++ "s: "
                   ++ repr_exn exc) in
    if is_eager request then (ret, w)
    else
      match apply_async w with
      | (Returned _, w') => (ret, w')
      | (Raised e, w') => (Exn Reject ("(" ++ repr_exn e ++ ", False)"), w')
      end.

End WithWorld.

End celery.

(* ================================================================== *)
(** * Observations on traces, tables and networks *)
(* ================================================================== *)

Module obs.
Import Py models scanner.

(** ** Traces of a scan *)

(** The addresses whose probe was started, in order. *)
Definition begun (tr : list event) : list string :=
  flat_map (fun e => match e with HostBegin ip => [ip] | _ => [] end) tr.

Definition is_subprocess (e : event) : bool :=
  match e with Subprocess _ _ _ => true | _ => false end.

(** A trace is strictly sequential when every probe ends before the next
    one begins and every sub-process runs inside a probe; [open] is the
    probe in progress. *)
Fixpoint sequential_from (open : option string) (tr : list event) : bool :=
  match tr with
  | [] => match open with None => true | Some _ => false end
  | HostBegin ip :: tr' =>
      match open with
      | None => sequential_from (Some ip) tr'
      | Some _ => false
      end
  | Subprocess _ _ _ :: tr' =>
      match open with
      | Some _ => sequential_from open tr'
      | None => false
      end
  | HostEnd ip :: tr' =>
      match open with
      | Some ip' => String.eqb ip ip' && sequential_from None tr'
      | None => false
      end
  end.

Definition strictly_sequential (tr : list event) : bool :=
  sequential_from None tr.

(** The largest number of probes in progress at one time. *)
Fixpoint in_flight (cur best : nat) (tr : list event) : nat :=
  match tr with
  | [] => best
  | HostBegin _ :: tr' => in_flight (S cur) (Nat.max best (S cur)) tr'
  | Subprocess _ _ _ :: tr' => in_flight cur best tr'
  | HostEnd _ :: tr' => in_flight (Nat.pred cur) best tr'
  end.

Definition max_in_flight (tr : list event) : nat := in_flight 0 0 tr.

(** ** The usable hosts of a block, in the words of the specification *)

(** Every address of the block, ascending. *)
Definition block_addresses (n : ipaddress.Network) : list Z :=
  let first := ipaddress._ip (ipaddress.network_address n) in
  range first
        (first + 2 ^ (ipaddress._max_prefixlen (ipaddress.version n)
                      - ipaddress._prefixlen n)).

(** The block without its network address (the first) and its broadcast
    address (the last). *)
Definition usable_host_addresses (n : ipaddress.Network) : list Z :=
  let first := ipaddress._ip (ipaddress.network_address n) in
  let last :=
    first + 2 ^ (ipaddress._max_prefixlen (ipaddress.version n)
                 - ipaddress._prefixlen n) - 1 in
  filter (fun x => negb (x =? first)%Z && negb (x =? last)%Z)
         (block_addresses n).

(** ** Scan results against the registry *)

(** The result carries a hardware address and the row's column equals it
    up to case: the row is what [objects.get] looks for. *)
Definition matches (r : ScanResult) (a : Asset) : bool :=
  match r_mac_address r with
  | Some mac => truthy mac && iexact (mac_address a) mac
  | None => false
  end.

Definition is_missing (a : Asset) : bool := status_eqb (status a) MISSING.

(** The result carries a hardware address that no row has. *)
Definition unmatched (rows : list Asset) (r : ScanResult) : bool :=
  truthy_opt (r_mac_address r) && negb (existsb (matches r) rows).

(** What parsing guarantees of a network: a prefix length in range and no
    host bit set in the network address. *)
Definition well_formed (n : ipaddress.Network) : Prop :=
  0 <= ipaddress._prefixlen n <= ipaddress._max_prefixlen (ipaddress.version n)
  /\ Z.land (ipaddress._ip (ipaddress.network_address n)) (ipaddress.netmask n)
     = ipaddress._ip (ipaddress.network_address n).

(** The row as one iteration of [scan_and_update_assets] leaves it after a
    match seen at address [ip] at time [t]. *)
Definition touched (t : Z) (ip : string) (a : Asset) : Asset :=
  set_ip_address ip
    (if is_missing a then
       set_location ("Detected on network: " ++ ip)
                    (set_status AVAILABLE (set_network_last_seen t a))
     else set_network_last_seen t a).

(** The same for one iteration of the [scan_network] command. *)
Definition touched_by_command (t : Z) (ip : string) (a : Asset) : Asset :=
  let a1 := set_ip_address ip (set_network_last_seen t a) in
  if is_missing a then
    set_location ("Auto-detected: " ++ ip) (set_status AVAILABLE a1)
  else a1.

(** The entry of [results] as an iteration that matched [a] leaves it. *)
Definition marked (r : ScanResult) (a : Asset) : ScanResult :=
  mkScanResult (r_ip_address r) (r_mac_address r) (r_is_alive r) true
               (Some (id a)) (Some (asset_tag a)).

(** Some result of the pass matches the row. *)
Definition hit (results : list ScanResult) (a : Asset) : bool :=
  existsb (fun r => matches r a) results.

(** The address at which the first, and the last, matching result of the
    pass saw the row. *)
Fixpoint first_match_ip (results : list ScanResult) (a : Asset) : option string :=
  match results with
  | [] => None
  | r :: rest =>
      if matches r a then Some (r_ip_address r) else first_match_ip rest a
  end.

Fixpoint last_match_ip (results : list ScanResult) (a : Asset) : option string :=
  match results with
  | [] => None
  | r :: rest =>
      match last_match_ip rest a with
      | Some ip => Some ip
      | None => if matches r a then Some (r_ip_address r) else None
      end
  end.

(** How a row [a'] after a pass over [results] relates to the row [a]
    before it. *)
Definition row_after (results : list ScanResult) (a a' : Asset) : Prop :=
  id a' = id a /\ asset_tag a' = asset_tag a /\ mac_address a' = mac_address a
  /\ match first_match_ip results a with
     | None => a' = a
     | Some ip =>
         status a' = (if is_missing a then AVAILABLE else status a)
         /\ location a' =
            (if is_missing a then "Detected on network: " ++ ip else location a)
         /\ ip_address a' = last_match_ip results a
         /\ exists t, network_last_seen a' = Some t
     end.

(** The rows that were [MISSING] before the pass and that it matches. *)
Definition recovered (results : list ScanResult) (rows : list Asset) : Z :=
  Z.of_nat (List.length (filter (fun a => is_missing a && hit results a) rows)).

(** The results of the pass that match a row. *)
Definition matched_results (results : list ScanResult) (rows : list Asset) : Z :=
  Z.of_nat (List.length (filter (fun r => existsb (matches r) rows) results)).

(** Two rows that differ in [network_last_seen] at most. *)
Definition same_but_last_seen (a a' : Asset) : Prop :=
  id a' = id a /\ asset_tag a' = asset_tag a /\ mac_address a' = mac_address a
  /\ ip_address a' = ip_address a /\ status a' = status a
  /\ location a' = location a.

(** The table after an iteration for [r] that read the clock as [t]. *)
Definition step_rows (t : Z) (r : ScanResult) (rows : list Asset) : list Asset :=
  map (fun a => if matches r a then touched t (r_ip_address r) a else a) rows.

(** Every row has a tag, as [Asset.save] sees to when a row is made. *)
Definition tagged (rows : list Asset) : Prop :=
  Forall (fun a => truthy (asset_tag a) = true) rows.

(** What the schema and [Asset.save] guarantee of the table: distinct
    primary keys and a tag on every row. *)
Definition registry_ok (rows : list Asset) : Prop :=
  NoDup (map id rows) /\ tagged rows.

(** The row that [save] writes for [asset] in the world [w], and the
    world it leaves. *)
Definition saved_as {World : Type}
           (generate_asset_tag : Asset -> World -> string * World)
           (asset : Asset) (w : World) : Asset :=
  if truthy (asset_tag asset) then asset
  else set_asset_tag (fst (generate_asset_tag asset w)) asset.

Definition world_after_save {World : Type}
           (generate_asset_tag : Asset -> World -> string * World)
           (asset : Asset) (w : World) : World :=
  if truthy (asset_tag asset) then w else snd (generate_asset_tag asset w).

(** Two results that report the same address and hardware address. *)
Definition same_observation (r r' : ScanResult) : Prop :=
  r_mac_address r' = r_mac_address r /\ r_ip_address r' = r_ip_address r.

(** The result matches one row at most, so [objects.get] does not find
    several. *)
Definition unambiguous (rows : list Asset) (r : ScanResult) : Prop :=
  (List.length (filter (matches r) rows) <= 1)%nat.

(** A row that the pass over [results] has dealt with: if some result
    matches it, it is not [MISSING] and carries the address of the last
    match. *)
Definition settled (results : list ScanResult) (a : Asset) : Prop :=
  hit results a = true ->
  is_missing a = false /\ ip_address a = last_match_ip results a.

(** [s] occurs in [t]. *)
Definition occurs_in (s t : string) : Prop :=
  exists pre post, t = pre ++ s ++ post.

End obs.

(* ================================================================== *)
(** * Observations on the overdue notifier *)
(* ================================================================== *)

Module notifier.
Import Py tasks.

(** The addresses [notify] collects: that of the assigning user, then that
    of the holding user, each if it is set. *)
Definition recipients_of (a : AssetAssignment) : list string :=
  ((if truthy (email (assigned_by a)) then [email (assigned_by a)] else [])
     ++ (if truthy (email (assigned_to a)) then [email (assigned_to a)] else []))%list.

(** An open assignment whose due time is in the past at time [t], in the
    words of the specification: no return time is set, and a due time is
    set that is before [t]. *)
Definition open_and_past_due (t : Z) (a : AssetAssignment) : bool :=
  match date_returned a with
  | Some _ => false
  | None =>
      match date_due a with
      | Some due => (due <? t)%Z
      | None => false
      end
  end.

(** The two notifications of an overdue assignment with text [message]. *)
Definition notifications_for (message : string) (a : AssetAssignment)
  : list Notification :=
  [mkNotification (assigned_by a) message (link_of a) ALERT;
   mkNotification (assigned_to a) message (link_of a) WARNING].

(** An audit record as the task writes them. *)
Definition audit_entry (a : AssetAssignment) (description : string) : AuditLog :=
  mkAuditLog None "EXPORT" "AssetAssignment" (str_int (a_id a)) description.

(** The record says that the retries of an email were used up. *)
Definition describes_exhausted_retries (l : AuditLog) : bool :=
  String.prefix "Failed to send overdue email after retries" (l_description l).

End notifier.

(* ================================================================== *)
(** * [asset_management/forms.py]: the validators *)
(* ================================================================== *)

Module forms.
Import Py.

(** How the cleaning of a field ends when it ends as the form expects: it
    returns the cleaned value or raises [forms.ValidationError] with one
    message or more. *)
Inductive Cleaned (A : Type) : Type :=
| Clean (value : A)
| ValidationError (messages : list string).
Arguments Clean {A} value.
Arguments ValidationError {A} messages.

(** Six pairs of hexadecimal digits, each pair but the last followed by a
    colon or a dash: what [([0-9A-Fa-f]{2}[:-]){5}([0-9A-Fa-f]{2})]
    matches. *)
Definition six_pairs (m : string) : bool :=
  Nat.eqb (String.length m) 17
  && forallb
       (fun i =>
          match String.get i m with
          | Some c =>
              if Nat.eqb (i mod 3) 2
              then Ascii.eqb c ":" || Ascii.eqb c "-"
              else is_hex c
          | None => false
          end)
       (seq 0 17).

Definition LF : string := String (ascii_of_nat 10) EmptyString.

(** [re.match(r'^([0-9A-Fa-f]{2}[:-]){5}([0-9A-Fa-f]{2})$', mac)]: the
    pattern must match at the start, and [$] matches at the end of the text
    or before a line feed that ends it. *)
Definition re_match_mac (mac : string) : bool :=
  six_pairs (substring 0 17 mac)
  && (let rest := substring 17 (String.length mac - 17) mac in
      String.eqb rest "" || String.eqb rest LF).

(** [AssetForm.clean_mac_address], on the value of
    [cleaned_data.get('mac_address')] *)
Definition clean_mac_address (mac : option string) : Cleaned (option string) :=
  if truthy_opt mac then
    match mac with
    | Some m =>
        if negb (re_match_mac m)
        then ValidationError
               ["Invalid MAC address format. Use XX:XX:XX:XX:XX:XX"]
        else Clean mac
    | None => Clean mac
    end
  else Clean mac.

(** [NetworkScanForm.clean_subnet], on the value of
    [cleaned_data['subnet']]; an exception other than [ValueError] would
    pass through. *)
Definition clean_subnet (subnet : string) : Outcome (Cleaned string) :=
  match ipaddress.ip_network subnet with
  | Returned _ => Returned (Clean subnet)
  | Raised e =>
      if isinstance e ValueError
      then Returned
             (ValidationError
                ["Invalid subnet format. Use CIDR notation (e.g., 192.168.1.0/24)"])
      else Raised e
  end.

(** A [NetworkScanForm] as a view sees it: not bound to data, bound and
    with errors (field name and message), or bound and valid with its
    cleaned [subnet] and [timeout]. *)
Inductive NetworkScanForm : Type :=
| Unbound
| Invalid (errors : list (string * string))
| Valid (subnet : string) (timeout : Z).

Section Fields.

(** The checks that Django's field classes make before a [clean_<field>]
    method runs: [CharField(max_length=18).clean] and
    [IntegerField(min_value=1, max_value=10).clean], on the posted text.
    The form is modelled for any such checks; [fields] below has the two
    of Django. *)
Variable subnet_field_clean : option string -> Cleaned string.
Variable timeout_field_clean : option string -> Cleaned Z.

(** The entries that [add_error] makes of a [ValidationError] *)
Definition errors_of {A} (name : string) (c : Cleaned A) : list (string * string) :=
  match c with
  | ValidationError messages => map (fun message => (name, message)) messages
  | Clean _ => []
  end.

(** [NetworkScanForm(data).is_valid()], as the form it leaves: the fields
    are cleaned in the order of their declaration, [subnet] by its field
    and then by [clean_subnet]. *)
Definition full_clean (data : string -> option string) : Outcome NetworkScanForm :=
  match
    match subnet_field_clean (data "subnet") with
    | Clean value => clean_subnet value
    | ValidationError messages => Returned (ValidationError messages)
    end
  with
  | Raised e => Raised e
  | Returned subnet =>
      let timeout := timeout_field_clean (data "timeout") in
      match subnet, timeout with
      | Clean s, Clean t => Returned (Valid s t)
      | _, _ =>
          Returned (Invalid (errors_of "subnet" subnet
                               ++ errors_of "timeout" timeout)%list)
      end
  end.

End Fields.

End forms.

(* ================================================================== *)
(** * The two field classes of [django.forms.fields], on ASCII text *)
(* ================================================================== *)

Module fields.
Import Py forms.

(** [c.isspace()] *)
Definition is_space (c : ascii) : bool :=
  let n := nat_of_ascii c in
  ((9 <=? n)%nat && (n <=? 13)%nat) || ((28 <=? n)%nat && (n <=? 32)%nat).

(** [s.lstrip()], [s.rstrip()] and [s.strip()] *)
Fixpoint lstrip (s : string) : string :=
  match s with
  | EmptyString => EmptyString
  | String c s' => if is_space c then lstrip s' else s
  end.

Fixpoint rstrip (s : string) : string :=
  match s with
  | EmptyString => EmptyString
  | String c s' =>
      match rstrip s' with
      | EmptyString => if is_space c then EmptyString else String c EmptyString
      | kept => String c kept
      end
  end.

Definition strip (s : string) : string := rstrip (lstrip s).

(** [CharField(max_length=max_length).clean(raw)]: the text is stripped; an
    empty text is refused, the field being required; then the validators
    of the length and of null characters run, and the messages of both are
    raised together. *)
Definition CharField_clean (max_length : nat) (raw : option string)
  : Cleaned string :=
  let value := match raw with Some text => strip text | None => "" end in
  if negb (truthy value) then ValidationError ["This field is required."]
  else
    let too_long :=
      if (max_length <? String.length value)%nat
      then ["Ensure this value has at most "
              ++ str_int (Z.of_nat max_length)
              ++ (if (max_length =? 1)%nat then " character" else " characters")
              ++ " (it has "
              ++ str_int (Z.of_nat (String.length value)) ++ ")."]
      else [] in
    let null :=
      if contains (ascii_of_nat 0) value
      then ["Null characters are not allowed."] else [] in
    match (too_long ++ null)%list with
    | [] => Clean value
    | messages => ValidationError messages
    end.

(** [s.rstrip('0')] *)
Fixpoint rstrip_zeros (s : string) : string :=
  match s with
  | EmptyString => EmptyString
  | String c s' =>
      match rstrip_zeros s' with
      | EmptyString => if Ascii.eqb c "0" then EmptyString else String c EmptyString
      | kept => String c kept
      end
  end.

(** [s[:-1]] when [s] ends with a full stop *)
Fixpoint without_final_stop (s : string) : option string :=
  match s with
  | EmptyString => None
  | String c EmptyString => if Ascii.eqb c "." then Some EmptyString else None
  | String c s' => option_map (String c) (without_final_stop s')
  end.

(** [IntegerField.re_decimal.sub('', s)], the pattern being
    [\.0*\s*$]: a full stop with nothing after it but zeros and then
    white space is cut off with what follows it. *)
Definition re_decimal_sub (s : string) : string :=
  match without_final_stop (rstrip_zeros (rstrip s)) with
  | Some kept => kept
  | None => s
  end.

(** The digits of a decimal literal, in which single underscores may stand
    between digits; [acc] is the value of the digits read, [after_digit]
    says that the last character read was a digit. *)
Fixpoint decimal_digits (acc : Z) (after_digit : bool) (s : string) : option Z :=
  match s with
  | EmptyString => if after_digit then Some acc else None
  | String c s' =>
      if is_digit c then decimal_digits (acc * 10 + digit_value c) true s'
      else if Ascii.eqb c "_" && after_digit then
        match s' with
        | String d _ => if is_digit d then decimal_digits acc false s' else None
        | EmptyString => None
        end
      else None
  end.

(** The white space that [int] skips at both ends of an ASCII text *)
Definition is_c_space (c : ascii) : bool :=
  let n := nat_of_ascii c in
  ((9 <=? n)%nat && (n <=? 13)%nat) || (n =? 32)%nat.

Fixpoint skip_c_space (s : string) : string :=
  match s with
  | EmptyString => EmptyString
  | String c s' => if is_c_space c then skip_c_space s' else s
  end.

Fixpoint drop_c_space (s : string) : string :=
  match s with
  | EmptyString => EmptyString
  | String c s' =>
      match drop_c_space s' with
      | EmptyString => if is_c_space c then EmptyString else String c EmptyString
      | kept => String c kept
      end
  end.

(** The number of digits in a text *)
Fixpoint digit_count (s : string) : nat :=
  match s with
  | EmptyString => 0
  | String c s' => if is_digit c then S (digit_count s') else digit_count s'
  end.

(** [int(s)] of CPython 3.11, or [None] where it raises [ValueError]; a
    literal of more than 4300 digits is refused. *)
Definition int_of_text (s : string) : option Z :=
  if (4300 <? digit_count s)%nat then None
  else
    match drop_c_space (skip_c_space s) with
    | String "+" digits => decimal_digits 0 false digits
    | String "-" digits => option_map Z.opp (decimal_digits 0 false digits)
    | digits => decimal_digits 0 false digits
    end.

(** [IntegerField(min_value=min_value, max_value=max_value).clean(raw)]:
    an empty text is refused, the field being required; the text is read
    as a whole number; then the validators of the largest and of the
    smallest value run. *)
Definition IntegerField_clean (min_value max_value : Z) (raw : option string)
  : Cleaned Z :=
  match raw with
  | None | Some EmptyString => ValidationError ["This field is required."]
  | Some text =>
      match int_of_text (re_decimal_sub text) with
      | None => ValidationError ["Enter a whole number."]
      | Some value =>
          let too_large :=
            if (max_value <? value)%Z
            then ["Ensure this value is less than or equal to "
                    ++ str_int max_value ++ "."]
            else [] in
          let too_small :=
            if (value <? min_value)%Z
            then ["Ensure this value is greater than or equal to "
                    ++ str_int min_value ++ "."]
            else [] in
          match (too_large ++ too_small)%list with
          | [] => Clean value
          | messages => ValidationError messages
          end
      end
  end.

End fields.

(* ================================================================== *)
(** * [asset_management/views.py]: the manual network scan *)
(* ================================================================== *)

Module views.
Import Py models scanner forms.

(** [UserProfile], as far as the view reads it *)
Record UserProfile : Type := mkProfile { role : string }.

(** [UserProfile.is_admin] *)
Definition is_admin (self : UserProfile) : bool := String.eqb (role self) "ADMIN".

(** The request of a logged-in user ([login_required] lets no other
    through): the method, the user with the profile row if there is one,
    the peer address and the posted fields. *)
Record HttpRequest : Type := mkRequest {
  method : string;
  user : tasks.User;
  profile : option UserProfile;
  REMOTE_ADDR : option string;
  POST : string -> option string
}.

(** The levels of [django.contrib.messages] that the view uses *)
Inductive Level : Type := error | warning | success.

(** A row of [AuditLog] as [log_audit_action] writes it *)
Record AuditLog : Type := mkAuditLog {
  log_user : tasks.User;
  log_action : string;
  log_description : string;
  log_model_name : option string;
  log_object_id : option string;
  log_ip_address : option string
}.

(** What a view answers: [redirect(to)] or [redirect(to, pk=pk)], or the
    page of the manual scan rendered with its form and results. *)
Inductive HttpResponse : Type :=
| redirect (to : string) (pk : option Z)
| render (template_name : string) (form : NetworkScanForm)
         (scan_results : option (list ScanResult)).

(** [Asset.objects.get(asset_tag=asset_tag)] on the table [rows] *)
Definition get_by_tag (rows : list Asset) (tag : string) : Outcome Asset :=
  match filter (fun a => String.eqb (asset_tag a) tag) rows with
  | [] => Raised (Exn DoesNotExist "Asset matching query does not exist.")
  | [a] => Returned a
  | _ :: _ :: _ =>
      Raised (Exn MultipleObjectsReturned "get() returned more than one Asset")
  end.

Section WithWorld.

Context {World : Type}.
Variable platform_system : string.
Variable subprocess_run :
  list string -> Z -> World -> Outcome CompletedProcess * World.
Variable list_capacity : Z.
Variable timezone_now : World -> Z * World.
Variable generate_asset_tag : Asset -> World -> string * World.
Variable subnet_field_clean : option string -> Cleaned string.
Variable timeout_field_clean : option string -> Cleaned Z.

(** What the view acts on: what a scan acts on, the messages queued for
    the user, and the audit log. *)
Record State : Type := mkState {
  net : scanner.State World;
  messages : list (Level * string);
  audit_log : list AuditLog
}.

(** A step of the scanner, run on the state of the view *)
Definition on_net {A} (m : M (scanner.State World) A) : M State A :=
  fun v =>
    let '(o, s) := m (net v) in
    (o, mkState s (messages v) (audit_log v)).

(** [messages.error], [messages.warning], [messages.success] *)
Definition add_message (level : Level) (text : string) : M State unit :=
  modify (fun v => mkState (net v) (messages v ++ [(level, text)]) (audit_log v)).

(** [log_audit_action(user, action, description, model_name, object_id,
    request)] *)
Definition log_audit_action (user : tasks.User) (action description : string)
           (model_name : option string) (object_id : option Z)
           (request : option HttpRequest) : M State unit :=
  let ip :=
    match request with
    | Some request => REMOTE_ADDR request
    | None => None
    end in
  modify (fun v =>
    mkState (net v) (messages v)
            (audit_log v
               ++ [mkAuditLog user action description model_name
                     match object_id with
                     | Some n => if (n =? 0)%Z then None else Some (str_int n)
                     | None => None
                     end
                     ip])).

(** One iteration of the loop of [network_scan_view] *)
Definition note_result (result : ScanResult) : M State unit :=
  match r_mac_address result with
  | Some mac =>
      if truthy mac then
        try_except_cls
          (bind (on_net (get_asset mac)) (fun asset =>
           bind (on_net (now timezone_now)) (fun t =>
           let asset := set_network_last_seen t asset in
           let asset := set_ip_address (r_ip_address result) asset in
           bind (if status_eqb (status asset) MISSING then
                   let asset := set_status AVAILABLE asset in
                   bind (add_message warning
                           ("Found missing asset " ++ asset_tag asset
                              ++ " on network!"))
                        (fun _ => ret asset)
                 else ret asset) (fun asset =>
           bind (on_net (save generate_asset_tag asset)) (fun _ =>
           ret tt)))))
          DoesNotExist
          (fun _ => ret tt)
      else ret tt
  | None => ret tt
  end.

(** [network_scan_view(request)] *)
Definition network_scan_view (request : HttpRequest) : M State HttpResponse :=
  bind (match profile request with
        | Some profile => ret profile
        | None => raise (Exn DoesNotExist "User has no profile.")
        end) (fun profile =>
  if negb (is_admin profile) then
    bind (add_message error "Permission denied. Admin access required.")
         (fun _ =>
    ret (redirect "dashboard" None))
  else
    bind (if String.eqb (method request) "POST" then
            bind (lift (full_clean subnet_field_clean timeout_field_clean
                                   (POST request))) (fun form =>
            match form with
            | Valid subnet timeout =>
                let scanner := mkScanner subnet timeout in
                bind (on_net (scan platform_system subprocess_run list_capacity scanner))
                     (fun scan_results =>
                bind (for_each scan_results note_result) (fun _ =>
                let found := str_int (Z.of_nat (List.length scan_results)) in
                bind (log_audit_action (user request) "SCAN"
                        ("Network scan performed on " ++ subnet ++ ". Found "
                           ++ found ++ " devices.")
                        None None (Some request)) (fun _ =>
                bind (add_message success
                        ("Network scan completed. Found " ++ found
                           ++ " devices.")) (fun _ =>
                ret (form, Some scan_results)))))
            | _ => ret (form, None)
            end)
          else ret (Unbound, None)) (fun '(form, scan_results) =>
    ret (render "asset_management/network_scan.html" form scan_results))).

(** [qr_lookup(request)].  A [return] inside the [try] block is the
    response that the block hands on; the closing [redirect] answers when
    there is none. *)
Definition qr_lookup (request : HttpRequest) : M State HttpResponse :=
  bind (if String.eqb (method request) "POST" then
          let qr_data :=
            match POST request "qr_data" with
            | Some text => text
            | None => ""
            end in
          try_except
            (let parts := split "|" qr_data in
             if (2 <=? List.length parts)%nat then
               let asset_tag := nth 1 parts "" in
               try_except_cls
                 (bind (on_net (fun s => (get_by_tag (assets s) asset_tag, s)))
                       (fun asset =>
                  ret (Some (redirect "asset_detail" (Some (id asset))))))
                 DoesNotExist
                 (fun _ =>
                    bind (add_message error ("Asset " ++ asset_tag ++ " not found"))
                         (fun _ => ret None))
             else
               bind (add_message error "Invalid QR code format")
                    (fun _ => ret None))
            (fun _ =>
               bind (add_message error "Error reading QR code")
                    (fun _ => ret None))
        else ret None) (fun answered =>
  match answered with
  | Some response => ret response
  | None => ret (redirect "qr_scanner" None)
  end).

End WithWorld.

Arguments State World : clear implicits.

End views.

(* ================================================================== *)
(** * The QR label of an asset ([Asset.generate_qr_code], [models.py]) *)
(* ================================================================== *)

Module label.
Import Py.

(** The text that [generate_qr_code] encodes for an asset with this tag
    and serial number:
    [f"AMATS|{self.asset_tag}|{self.serial_number or 'N/A'}"] *)
Definition qr_data (asset_tag : string) (serial_number : option string) : string :=
  "AMATS|" ++ asset_tag ++ "|"
    ++ match serial_number with
       | Some serial => if truthy serial then serial else "N/A"
       | None => "N/A"
       end.

End label.

(* ================================================================== *)
(** * [Asset._generate_asset_tag] ([models.py]) *)
(* ================================================================== *)

Module tagging.
Import Py models.

(** [s[:n]] *)
Definition take (n : nat) (s : string) : string := substring 0 n s.

(** [s.zfill(width)] for a text without a sign *)
Definition zfill (width : nat) (s : string) : string :=
  (fix zeros (k : nat) : string :=
     match k with
     | O => s
     | S k' => String "0" (zeros k')
     end) (width - String.length s)%nat.

(** [f"{n:04d}"]: the sign counts in the width. *)
Definition format_04d (n : Z) : string :=
  if (n <? 0)%Z then "-" ++ zfill 3 (str_int (- n)) else zfill 4 (str_int n).

(** [Asset.objects.filter(asset_tag=candidate).exists()] *)
Definition in_use (rows : list Asset) (candidate : string) : bool :=
  existsb (fun a => String.eqb (asset_tag a) candidate) rows.

Section WithWorld.

(** The environment: [django.utils.text.slugify], the generator behind
    [random.randint] and the one behind [uuid.uuid4().hex]. *)
Context {World : Type}.
Variable slugify : string -> string.
Variable random_randint : Z -> Z -> World -> Z * World.
Variable uuid4_hex : World -> string * World.

(** The abbreviation of the category: [category] is the name of the
    category of the asset, if it has one. *)
Definition cat_abbrev (category : option string) : string :=
  match category with
  | Some name => if truthy name then take 3 (upper (slugify name)) else "OTH"
  | None => "OTH"
  end.

(** The loop [for _ in range(n)], which returns the first candidate that
    no row carries. *)
Fixpoint draw (n : nat) (prefix abbrev : string) (rows : list Asset)
  : M World (option string) :=
  match n with
  | O => ret None
  | S n' =>
      fun w =>
        let '(k, w1) := random_randint 0 9999 w in
        let seq := format_04d k in
        let candidate := prefix ++ "-" ++ abbrev ++ "-" ++ seq in
        if negb (in_use rows candidate) then (Returned (Some candidate), w1)
        else draw n' prefix abbrev rows w1
  end.

(** [Asset._generate_asset_tag(self)] on the table [rows] *)
Definition _generate_asset_tag (category : option string) (rows : list Asset)
  : M World string :=
  let prefix := "UTV" in
  let abbrev := cat_abbrev category in
  bind (draw 10 prefix abbrev rows) (fun found =>
  match found with
  | Some candidate => ret candidate
  | None =>
      fun w =>
        let '(hex, w1) := uuid4_hex w in
        (Returned (prefix ++ "-" ++ abbrev ++ "-" ++ upper (take 6 hex)), w1)
  end).

(** The candidates of the first [n] draws from the world [w], and the
    world after them. *)
Fixpoint candidates (n : nat) (abbrev : string) (w : World) : list string * World :=
  match n with
  | O => ([], w)
  | S n' =>
      let '(k, w1) := random_randint 0 9999 w in
      let '(rest, w2) := candidates n' abbrev w1 in
      (("UTV" ++ "-" ++ abbrev ++ "-" ++ format_04d k) :: rest, w2)
  end.

End WithWorld.

End tagging.

(* ================================================================== *)
(** * The shape of what a scan reports *)
(* ================================================================== *)

Module shape.
Import Py models scanner obs.

(** An upper-case hexadecimal digit *)
Definition is_upper_hex (c : ascii) : bool :=
  let n := nat_of_ascii c in
  is_digit c || ((65 <=? n)%nat && (n <=? 70)%nat).

(** A hardware address written as six pairs of upper-case hexadecimal
    digits joined by colons. *)
Definition canonical (mac : string) : bool := mac_shaped is_upper_hex ":" mac.

(** An entry as [_scan_host] makes it: the host answered, no asset is
    recorded yet, and the hardware address, if one was found, is
    canonical. *)
Definition fresh_entry (r : ScanResult) : Prop :=
  r_is_alive r = true /\ r_asset_found r = false
  /\ r_asset_id r = None /\ r_asset_tag r = None
  /\ match r_mac_address r with
     | Some mac => canonical mac = true
     | None => True
     end.

(** [xs] is [ys] with some elements left out. *)
Fixpoint subsequence (xs ys : list string) : bool :=
  match xs, ys with
  | [], _ => true
  | _ :: _, [] => false
  | x :: xs', y :: ys' =>
      if String.eqb x y then subsequence xs' ys' else subsequence xs ys'
  end.

(** The number of calls of [subprocess.run] in a trace *)
Definition subprocesses (tr : list event) : nat :=
  List.length (filter is_subprocess tr).

(** The call returned, with exit code 0. *)
Definition succeeded (result : Outcome CompletedProcess) : bool :=
  match result with
  | Returned completed => (returncode completed =? 0)%Z
  | Raised _ => false
  end.

(** The addresses that answered: those whose [ping] returned with exit
    code 0, in the order of the trace.  The address is the last argument of
    the command line of [_ping_host]. *)
Definition answered (tr : list event) : list string :=
  flat_map (fun e =>
              match e with
              | Subprocess argv _ result =>
                  if String.eqb (hd "" argv) "ping" && succeeded result
                  then [last argv ""] else []
              | _ => []
              end) tr.

(** The neighbour-table lookups for the address [ip]: on Windows one call
    of [arp -a]; elsewhere one call of [ip neigh show], followed by one of
    [arp -n] when the first returned and its output holds no address. *)
Definition lookups (windows : bool) (ip : string) (tr : list event) : Prop :=
  if windows then
    exists result, tr = [Subprocess ["arp"; "-a"; ip] 5 result]
  else
    exists first,
      match first with
      | Returned completed =>
          match re_search "lladdr " is_lower_hex ":" (lower (stdout completed)) with
          | Some _ => tr = [Subprocess ["ip"; "neigh"; "show"; ip] 5 first]
          | None =>
              exists second,
                tr = [Subprocess ["ip"; "neigh"; "show"; ip] 5 first;
                      Subprocess ["arp"; "-n"; ip] 5 second]
          end
      | Raised _ => tr = [Subprocess ["ip"; "neigh"; "show"; ip] 5 first]
      end.

(** What the probe of the address [ip] adds to the trace: one [ping] and,
    when it returned with exit code 0 and only then, the lookups. *)
Definition probe (platform_system : string) (self : NetworkScanner)
           (ip : string) (tr : list event) : Prop :=
  exists ping rest,
    tr = (HostBegin ip
            :: Subprocess (ping_argv platform_system self ip) (timeout self + 2) ping
            :: rest ++ [HostEnd ip])%list
    /\ if succeeded ping
       then lookups (is_windows platform_system) ip rest
       else rest = [].

(** The character occurs in the optional text. *)
Definition contains_opt (c : ascii) (o : option string) : bool :=
  match o with Some s => contains c s | None => false end.

End shape.

(* ================================================================== *)
(** * What a pass may do to a row *)
(* ================================================================== *)

Module registry.
Import Py models scanner obs.

(** The most a reconciliation pass does to a row: the primary key and the
    hardware address stay, a tag is given only to a row that has none, and
    the status stays or goes from [MISSING] to [AVAILABLE]. *)
Definition only_recovered (a a' : Asset) : Prop :=
  id a' = id a /\ mac_address a' = mac_address a
  /\ (asset_tag a' = asset_tag a \/ truthy (asset_tag a) = false)
  /\ (status a' = status a \/ (status a = MISSING /\ status a' = AVAILABLE)).

(** Two rows that differ in [location] at most. *)
Definition same_but_location (a a' : Asset) : Prop :=
  id a' = id a /\ asset_tag a' = asset_tag a /\ mac_address a' = mac_address a
  /\ ip_address a' = ip_address a /\ status a' = status a
  /\ network_last_seen a' = network_last_seen a.

(** The row as one iteration of [network_scan_view] leaves it after a match
    seen at address [ip] at time [t]. *)
Definition touched_by_view (t : Z) (ip : string) (a : Asset) : Asset :=
  let a1 := set_ip_address ip (set_network_last_seen t a) in
  if is_missing a then set_status AVAILABLE a1 else a1.

(** The number of results that carry a hardware address *)
Definition with_address (results : list ScanResult) : Z :=
  Z.of_nat (List.length
              (filter (fun r => truthy_opt (r_mac_address r)) results)).

(** The error of [objects.get] on a hardware address that several rows
    carry. *)
Definition several_rows : exn :=
  Exn MultipleObjectsReturned "get() returned more than one Asset".

End registry.

(* ================================================================== *)
(** * The entries of a summary *)
(* ================================================================== *)

Module flags.
Import Py models scanner.

(** What an entry of the summary says about the registry [rows]: an entry
    flagged [asset_found] names a primary key of the registry and a tag; an
    entry that is not flagged names neither. *)
Definition well_flagged (rows : list Asset) (r : ScanResult) : Prop :=
  if r_asset_found r then
    (exists i, r_asset_id r = Some i /\ In i (map id rows))
    /\ (exists tag, r_asset_tag r = Some tag)
  else r_asset_id r = None /\ r_asset_tag r = None.

(** The number of entries flagged [asset_found] *)
Definition flagged (results : list ScanResult) : Z :=
  Z.of_nat (List.length (filter r_asset_found results)).

End flags.

(* ================================================================== *)
(** * The output of the [scan_network] command *)
(* ================================================================== *)

Module console.
Import Py scanner.

(** A line that the [scan_network] command writes for a host: a recovered
    asset, a detected asset or an unknown device, each in its style. *)
Definition device_line (l : Style * string) : bool :=
  match fst l with
  | SUCCESS => String.prefix "[FOUND MISSING] " (snd l)
  | PLAIN => String.prefix "[DETECTED] " (snd l)
  | WARNING => String.prefix "[UNKNOWN] Device at " (snd l)
  | NOTICE => false
  end.

(** The three lines that open the output of the command *)
Definition header (subnet : string) (timeout : Z) : list (Style * string) :=
  [(NOTICE, "Initiating network scan on " ++ subnet ++ "...");
   (PLAIN, "Timeout: " ++ str_int timeout ++ "s per host");
   (PLAIN, scan_network.rule)].

End console.

(* ================================================================== *)
(** * The audit trail of the overdue notifier *)
(* ================================================================== *)

Module ledger.
Import Py tasks notifier.

(** The record that closes the [try] block of an assignment, when
    [notifications_created] stands at [n]. *)
Definition created_entry (n : Z) (a : AssetAssignment) : AuditLog :=
  audit_entry a ("Created " ++ str_int n
                   ++ " notifications for overdue assignment "
                   ++ str_int (a_id a)).

(** Those records for the assignments [l] in turn, [n] notifications
    having been counted before the first. *)
Fixpoint created_entries (n : Z) (l : list AssetAssignment) : list AuditLog :=
  match l with
  | [] => []
  | a :: l' => created_entry (n + 2) a :: created_entries (n + 2) l'
  end.

(** An audit record of the task about the assignment [a] *)
Definition about (a : AssetAssignment) (l : AuditLog) : Prop :=
  l_user l = None /\ l_action l = "EXPORT"
  /\ l_model_name l = "AssetAssignment" /\ l_object_id l = str_int (a_id a).

(** One of the two users of the assignment has an email address. *)
Definition has_recipient (a : AssetAssignment) : bool :=
  match recipients_of a with [] => false | _ :: _ => true end.

End ledger.

(* ================================================================== *)
(** * A simulated site *)
(* ================================================================== *)

(** A small concrete environment: a Linux host on 192.168.1.0/30 whose two
    neighbours answer a ping, a clock that advances by one at every
    reading, a registry of three assets, and a mail transport that refuses
    every message while the task is at its last retry. *)
Module site.
Import Py models scanner.

Definition World : Type := Z.

Definition platform_system : string := "Linux".

(** The scanning host has memory for a hundred million addresses. *)
Definition list_capacity : Z := 100000000.

Definition timezone_now (w : World) : Z * World := (w, w + 1).

Definition generate_asset_tag (a : Asset) (w : World) : string * World :=
  ("UTV-OTH-0001", w + 1).

Definition neighbours : list (string * string) :=
  [("192.168.1.1", "00:1a:2b:3c:4d:5e"); ("192.168.1.2", "de:ad:be:ef:00:01")].

Definition lookup (ip : string) : option string :=
  option_map snd (find (fun p => String.eqb (fst p) ip) neighbours).

Definition subprocess_run (argv : list string) (t : Z) (w : World)
  : Outcome CompletedProcess * World :=
  match argv with
  | ["ping"; _; _; _; _; ip] =>
      (Returned (mkCompleted match lookup ip with Some _ => 0 | None => 1 end ""),
       w + 1)
  | ["ip"; "neigh"; "show"; ip] =>
      (Returned
         (mkCompleted 0
            match lookup ip with
            | Some mac => ip ++ " dev eth0 lladdr " ++ mac ++ " REACHABLE"
            | None => ""
            end), w + 1)
  | _ => (Raised (Exn OSError "No such file or directory"), w)
  end.

Definition laptop : Asset :=
  mkAsset 1 "UTV-LAP-001" (Some "00:1A:2B:3C:4D:5E") None MISSING
          "Main Server Room" None.

Definition server : Asset :=
  mkAsset 2 "UTV-SRV-001" (Some "de:ad:be:ef:00:01") (Some "10.0.0.9")
          MAINTENANCE "Rack 2" (Some 5).

Definition switch : Asset :=
  mkAsset 3 "UTV-NET-001" None None AVAILABLE "Main Server Room" None.

Definition registry : list Asset := [laptop; server; switch].

Definition initial : State World := mkState 100 [] registry [] [].

Definition empty_registry : State World := mkState 100 [] [] [] [].

(** Hosts as a scan reports them *)
Definition seen_laptop : ScanResult :=
  mkScanResult "192.168.1.1" (Some "00:1A:2B:3C:4D:5E") true false None None.

Definition seen_server : ScanResult :=
  mkScanResult "192.168.1.2" (Some "DE:AD:BE:EF:00:01") true false None None.

Definition seen_stranger : ScanResult :=
  mkScanResult "192.168.1.7" (Some "02:00:00:00:00:07") true false None None.

Definition seen_without_mac : ScanResult :=
  mkScanResult "192.168.1.7" None true false None None.

(** The overdue notifier *)

Definition send_mail (subject message sender : string) (recipients : list string)
           (w : World) : Outcome Z * World :=
  (Raised (Exn SMTPException "Connection refused"), w + 1).

(** The broker takes every message. *)
Definition apply_async (w : World) : Outcome unit * World :=
  (Returned tt, w + 1).

Definition repr_exn (e : exn) : string :=
  "SMTPException('" ++ exn_msg e ++ "')".

(** The request of the fourth run of the task: three retries were made. *)
Definition last_attempt : celery.Request := celery.mkRequest false 3 false.

Definition self_retry : exn -> World -> exn * World :=
  celery.retry apply_async repr_exn tasks.max_retries tasks.default_retry_delay
               last_attempt.

Definition EMAIL_HOST : string := "smtp.utv.gh".
Definition DEFAULT_FROM_EMAIL : string := "amats@utv.gh".
Definition get_full_name (u : tasks.User) : string := "".
Definition str_datetime (t : Z) : string := str_int t.

Definition admin : tasks.User := tasks.mkUser 1 "admin" "admin@utv.gh".
Definition technician : tasks.User := tasks.mkUser 2 "technician" "".

Definition loan : tasks.AssetAssignment :=
  tasks.mkAssignment 7 "Broadcast Laptop 1" "UTV-LAP-001" technician admin
                     (Some 50) None.

Definition returned_loan : tasks.AssetAssignment :=
  tasks.mkAssignment 8 "Studio Camera A" "UTV-CAM-001" technician admin
                     (Some 50) (Some 60).

Definition office : tasks.State World :=
  tasks.mkState 100 [loan; returned_loan] [] [] 0 0.

(** What the mail transport answers at the office *)
Definition refused : exn := Exn SMTPException "Connection refused".

(** The networks 192.168.1.0/30 and 192.168.1.0/31 *)
Definition lan : ipaddress.Network :=
  ipaddress.mkNetwork ipaddress.V4
                      (ipaddress.mkAddress ipaddress.V4 3232235776 None) 30.

Definition point_to_point : ipaddress.Network :=
  ipaddress.mkNetwork ipaddress.V4
                      (ipaddress.mkAddress ipaddress.V4 3232235776 None) 31.

(** The network fd00::/64 *)
Definition unique_local : ipaddress.Network :=
  ipaddress.mkNetwork ipaddress.V6
                      (ipaddress.mkAddress ipaddress.V6 336294682933583715844663186250927177728 None) 64.

(** The error of [ip_network("not-a-subnet")] *)
Definition not_a_subnet : exn :=
  Exn ValueError "'not-a-subnet' does not appear to be an IPv4 or IPv6 network".

(** A pass over three hosts, and what it returns at the site *)
Definition pass : list ScanResult := [seen_laptop; seen_server; seen_stranger].

Definition first_summary : Summary :=
  Eval vm_compute in
    match fst (reconcile timezone_now generate_asset_tag pass initial) with
    | Returned summary => summary
    | Raised _ => mkSummary 0 0 0 []
    end.

Definition after_first_pass : State World :=
  Eval vm_compute in snd (reconcile timezone_now generate_asset_tag pass initial).

End site.

(* ================================================================== *)
(** * The simulated site, continued *)
(* ================================================================== *)

(** More of the site: two cameras that were registered with the same
    hardware address, a mixer registered with a dashed one, the web desk of
    the administrator, and a mail transport that accepts every message. *)
Module studio.
Import Py models scanner forms views.

Definition camera_a : Asset :=
  mkAsset 5 "UTV-CAM-001" (Some "AA:BB:CC:00:00:01") None AVAILABLE "Studio A" None.

Definition camera_b : Asset :=
  mkAsset 6 "UTV-CAM-002" (Some "aa:bb:cc:00:00:01") None MISSING "Studio A" None.

Definition mixer : Asset :=
  mkAsset 4 "UTV-AUD-001" (Some "00-1A-2B-3C-4D-5E") None AVAILABLE "Studio B" None.

Definition seen_camera : ScanResult :=
  mkScanResult "192.168.1.9" (Some "AA:BB:CC:00:00:01") true false None None.

(** The network 16.0.0.0/4, whose hosts are more than the scanning host
    has memory for. *)
Definition wide : ipaddress.Network :=
  ipaddress.mkNetwork ipaddress.V4
                      (ipaddress.mkAddress ipaddress.V4 268435456 None) 4.

(** The registry with the two cameras *)
Definition crowded : scanner.State site.World :=
  scanner.mkState 100 [] [site.laptop; camera_a; camera_b] [] [].

(** Two recorders that were registered with the same hardware address,
    one of them under maintenance, and the workshop that holds them *)
Definition recorder_a : Asset :=
  mkAsset 7 "UTV-REC-001" (Some "AA:BB:CC:00:00:02") (Some "10.0.0.5")
          MAINTENANCE "Workshop" (Some 5).

Definition recorder_b : Asset :=
  mkAsset 8 "UTV-REC-002" (Some "AA:BB:CC:00:00:02") None AVAILABLE
          "Studio B" None.

Definition seen_recorder : ScanResult :=
  mkScanResult "192.168.1.10" (Some "AA:BB:CC:00:00:02") true false None None.

Definition workshop : scanner.State site.World :=
  scanner.mkState 100 [] [recorder_a; recorder_b] [] [].

(** What the two loops have done on [crowded] once they are past the
    laptop *)
Definition past_laptop : list ScanResult * Z * Z :=
  Eval vm_compute in
    match fst (update_assets site.timezone_now site.generate_asset_tag
                             [site.seen_laptop] 0 0 crowded) with
    | Returned out => out
    | Raised _ => ([], 0, 0)
    end.

Definition crowded_past_laptop : scanner.State site.World :=
  Eval vm_compute in
    snd (update_assets site.timezone_now site.generate_asset_tag
                       [site.seen_laptop] 0 0 crowded).

Definition command_past_laptop : scan_network.Counters :=
  Eval vm_compute in
    match fst (scan_network.handle_results
                 site.timezone_now site.generate_asset_tag
                 [site.seen_laptop] (scan_network.mkCounters 0 0 0) crowded) with
    | Returned c => c
    | Raised _ => scan_network.mkCounters 0 0 0
    end.

Definition crowded_past_laptop_by_command : scanner.State site.World :=
  Eval vm_compute in
    snd (scan_network.handle_results
           site.timezone_now site.generate_asset_tag
           [site.seen_laptop] (scan_network.mkCounters 0 0 0) crowded).

(** A scan of 192.168.1.0/30 with reconciliation, at the site *)
Definition lan_summary : Summary :=
  Eval vm_compute in
    match fst (scan_and_update_assets site.platform_system site.subprocess_run site.list_capacity
                 site.timezone_now site.generate_asset_tag
                 "192.168.1.0/30" site.initial) with
    | Returned summary => summary
    | Raised _ => mkSummary 0 0 0 []
    end.

Definition after_lan_scan : scanner.State site.World :=
  Eval vm_compute in
    snd (scan_and_update_assets site.platform_system site.subprocess_run site.list_capacity
           site.timezone_now site.generate_asset_tag
           "192.168.1.0/30" site.initial).

(** ** The web desk *)

(** The two fields of [NetworkScanForm] *)
Definition subnet_field_clean : option string -> Cleaned string :=
  fields.CharField_clean 18.

Definition timeout_field_clean : option string -> Cleaned Z :=
  fields.IntegerField_clean 1 10.

(** The data of a posted form *)
Definition posted (subnet timeout : string) (name : string) : option string :=
  if String.eqb name "subnet" then Some subnet
  else if String.eqb name "timeout" then Some timeout
  else None.

Definition by_technician : HttpRequest :=
  mkRequest "POST" site.technician (Some (mkProfile "TECH")) (Some "10.0.0.7")
            (posted "192.168.1.0/30" "1").

(** A form whose subnet is no subnet, posted with blanks around it *)
Definition bad_subnet : HttpRequest :=
  mkRequest "POST" site.admin (Some (mkProfile "ADMIN")) (Some "10.0.0.2")
            (posted "  not-a-subnet " "1").

Definition scan_lan : HttpRequest :=
  mkRequest "POST" site.admin (Some (mkProfile "ADMIN")) (Some "10.0.0.2")
            (posted "192.168.1.0/30" "1").

Definition desk : views.State site.World := views.mkState site.initial [] [].

(** A label read by the scanner of the browser, and a text that is no
    label of the system *)
Definition laptop_label : HttpRequest :=
  mkRequest "POST" site.technician (Some (mkProfile "TECH")) None
            (fun name =>
               if String.eqb name "qr_data"
               then Some (label.qr_data "UTV-LAP-001" (Some "SN-0042"))
               else None).

Definition foreign_label : HttpRequest :=
  mkRequest "POST" site.technician (Some (mkProfile "TECH")) None
            (fun name =>
               if String.eqb name "qr_data"
               then Some "WIFI|UTV-SRV-001|anything|else"
               else None).

(** ** The mail transport and the task queue on a good day *)

Definition accepting_mail (subject message sender : string)
           (recipients : list string) (w : site.World)
  : Outcome Z * site.World :=
  (Returned 1, w + 1).

(** The first run of the task, whose retry the broker takes: [self.retry]
    raises [Retry]. *)
Definition first_attempt : celery.Request := celery.mkRequest false 0 false.

Definition queued_retry : exn -> site.World -> exn * site.World :=
  celery.retry site.apply_async site.repr_exn tasks.max_retries
               tasks.default_retry_delay first_attempt.

Definition queued : exn :=
  Exn Retry "Retry in 60s: SMTPException('Connection refused')".

End studio.

(** From here on integer notations take precedence over string ones. *)
Local Close Scope Z_scope.
Local Open Scope Z_scope.

(* ================================================================== *)
(** * Facts about [ipaddress] *)
(* ================================================================== *)

Section NetworkFacts.
Import Py ipaddress obs.

Lemma range_cons (lo hi : Z) : lo < hi -> range lo hi = lo :: range (lo + 1) hi.
Proof.
  intros H. unfold range.
  replace (Z.to_nat (hi - lo)) with (S (Z.to_nat (hi - (lo + 1)))) by lia.
  cbn [seq map]. rewrite <- seq_shift, map_map. f_equal; [lia|].
  apply map_ext. intros i. lia.
Qed.

Lemma range_snoc (lo hi : Z) :
  lo < hi -> range lo hi = (range lo (hi - 1) ++ [hi - 1])%list.
Proof.
  intros H. unfold range.
  replace (Z.to_nat (hi - lo)) with (S (Z.to_nat (hi - 1 - lo))) by lia.
  rewrite seq_S, map_app. cbn. do 2 f_equal. lia.
Qed.

Lemma range_nil (lo hi : Z) : hi <= lo -> range lo hi = [].
Proof.
  intros H. unfold range. now replace (Z.to_nat (hi - lo)) with 0%nat by lia.
Qed.

Lemma In_range (lo hi x : Z) : In x (range lo hi) <-> lo <= x < hi.
Proof.
  unfold range. rewrite in_map_iff. split.
  - intros (i & <- & Hi). apply in_seq in Hi. lia.
  - intros H. exists (Z.to_nat (x - lo)). split; [lia|]. apply in_seq. lia.
Qed.

Lemma filter_all {A} (p : A -> bool) (l : list A) :
  (forall x, In x l -> p x = true) -> filter p l = l.
Proof.
  induction l as [| a l IH]; cbn; intros H; [reflexivity|].
  rewrite (H a) by auto. f_equal. apply IH. auto.
Qed.

(** Dropping the two ends of a range, as the specification words it. *)
Lemma range_without_ends (lo hi : Z) :
  lo + 1 < hi ->
  filter (fun x => negb (x =? lo) && negb (x =? hi - 1)) (range lo hi)
  = range (lo + 1) (hi - 1).
Proof.
  intros H. rewrite (range_cons lo hi) by lia.
  rewrite (range_snoc (lo + 1) hi) by lia.
  cbn [filter]. rewrite Z.eqb_refl. cbn [negb andb].
  rewrite filter_app. cbn [filter]. rewrite (Z.eqb_refl (hi - 1)), andb_false_r.
  rewrite app_nil_r. apply filter_all. intros x Hx. apply In_range in Hx.
  apply andb_true_iff. split; apply negb_true_iff, Z.eqb_neq; lia.
Qed.

Lemma _max_prefixlen_pos (v : ip_version) : 0 < _max_prefixlen v.
Proof. destruct v; reflexivity. Qed.

Lemma _ALL_ONES_ones (v : ip_version) : _ALL_ONES v = Z.ones (_max_prefixlen v).
Proof. unfold _ALL_ONES. rewrite Z.ones_equiv. lia. Qed.

Lemma hostmask_ones (n : Network) :
  0 <= _prefixlen n <= _max_prefixlen (version n) ->
  hostmask n = Z.ones (_max_prefixlen (version n) - _prefixlen n).
Proof.
  intros H. unfold hostmask, netmask, _ip_int_from_prefix.
  rewrite Z.lxor_assoc, (Z.lxor_comm (Z.shiftr _ _)), <- Z.lxor_assoc.
  rewrite Z.lxor_nilpotent, Z.lxor_0_l.
  rewrite _ALL_ONES_ones, Z.shiftr_div_pow2 by lia.
  now apply Z.ones_div_pow2.
Qed.

Lemma netmask_hostmask (n : Network) :
  netmask n = Z.lxor (_ALL_ONES (version n)) (hostmask n).
Proof.
  unfold hostmask. rewrite Z.lxor_comm, Z.lxor_assoc, Z.lxor_nilpotent.
  now rewrite Z.lxor_0_r.
Qed.

Lemma land_hostmask (n : Network) :
  well_formed n -> Z.land (_ip (network_address n)) (hostmask n) = 0.
Proof.
  intros [Hp Hm]. apply Z.bits_inj'. intros i Hi.
  rewrite Z.bits_0, Z.land_spec.
  destruct (Z.testbit (hostmask n) i) eqn:Hh; [| apply andb_false_r].
  rewrite andb_true_r. rewrite <- Hm, Z.land_spec.
  rewrite netmask_hostmask, Z.lxor_spec, Hh.
  rewrite hostmask_ones in Hh by exact Hp.
  rewrite Z.testbit_ones_nonneg in Hh by lia.
  rewrite _ALL_ONES_ones, Z.testbit_ones_nonneg by lia.
  apply Z.ltb_lt in Hh.
  replace (i <? _max_prefixlen (version n)) with true
    by (symmetry; apply Z.ltb_lt; lia).
  apply andb_false_r.
Qed.

Lemma broadcast_address_eq (n : Network) :
  well_formed n ->
  broadcast_address n
  = _ip (network_address n) + 2 ^ (_max_prefixlen (version n) - _prefixlen n) - 1.
Proof.
  intros H. unfold broadcast_address.
  rewrite <- Z.lxor_lor, <- Z.add_nocarry_lxor by now apply land_hostmask.
  rewrite hostmask_ones by apply H. rewrite Z.ones_equiv. lia.
Qed.

Lemma bit_length_nonneg (x : Z) : 0 <= bit_length x.
Proof.
  unfold bit_length. destruct (x <=? 0); [lia|].
  pose proof (Z.log2_nonneg x). lia.
Qed.

Lemma _prefix_from_ip_int_range (v : ip_version) (x p : Z) :
  _prefix_from_ip_int v x = Some p -> 0 <= p <= _max_prefixlen v.
Proof.
  unfold _prefix_from_ip_int, _count_righthand_zero_bits.
  pose proof (_max_prefixlen_pos v).
  destruct (_ =? _); [| discriminate]. intros [= <-].
  destruct (x =? 0); [lia|].
  pose proof (bit_length_nonneg (Z.land (Z.lnot x) (x - 1))). lia.
Qed.

Lemma _prefix_from_prefix_string_range (v : ip_version) (s : string) (p : Z) :
  _prefix_from_prefix_string v s = Some p -> 0 <= p <= _max_prefixlen v.
Proof.
  unfold _prefix_from_prefix_string.
  destruct (isdigit s); cbn; [| discriminate].
  destruct (_ && _) eqn:H; [| discriminate]. intros [= <-].
  apply andb_true_iff in H. lia.
Qed.

Lemma _make_netmask_range (v : ip_version) (arg : mask_arg) (p : Z) :
  _make_netmask v arg = Some p -> 0 <= p <= _max_prefixlen v.
Proof.
  destruct arg as [k | s]; cbn.
  - destruct (_ && _) eqn:H; [| discriminate]. intros [= <-].
    apply andb_true_iff in H. lia.
  - destruct v.
    + destruct (_prefix_from_prefix_string V4 s) eqn:H1.
      * intros [= <-]. now apply _prefix_from_prefix_string_range in H1.
      * unfold _prefix_from_ip_string, option_bind.
        destruct (_ip_int_from_string_v4 s); [| discriminate].
        destruct (_prefix_from_ip_int V4 z) eqn:H2.
        -- intros [= <-]. now apply _prefix_from_ip_int_range in H2.
        -- apply _prefix_from_ip_int_range.
    + apply _prefix_from_prefix_string_range.
Qed.

Lemma IPNetwork_well_formed (v : ip_version) (s : string) (n : Network) :
  IPNetwork v s = Some n -> well_formed n.
Proof.
  unfold IPNetwork, option_bind.
  destruct (_split_addr_prefix v s) as [[addr mask] |]; [| discriminate].
  destruct (match v with V4 => _ | V6 => _ end) as [a |]; [| discriminate].
  destruct (_make_netmask v mask) as [p |] eqn:Hp; [| discriminate].
  intros [= <-]. apply _make_netmask_range in Hp.
  split; cbn; [exact Hp|]. unfold netmask; cbn.
  destruct (_ =? _) eqn:E.
  - now apply Z.eqb_eq in E.
  - cbn. now rewrite <- Z.land_assoc, Z.land_diag.
Qed.

Lemma ip_network_well_formed (s : string) (n : Network) :
  ip_network s = Returned n -> well_formed n.
Proof.
  unfold ip_network.
  destruct (IPNetwork V4 s) eqn:H4.
  - intros [= <-]. now apply IPNetwork_well_formed in H4.
  - destruct (IPNetwork V6 s) eqn:H6; [| discriminate].
    intros [= <-]. now apply IPNetwork_well_formed in H6.
Qed.

Lemma map__ip__address_class (n : Network) (l : list Z) :
  map _ip (map (_address_class n) l) = l.
Proof. rewrite map_map. cbn. apply map_id. Qed.

(** On an IPv4 block of prefix length at most 30, [hosts] yields the
    usable hosts of the specification. *)
Lemma hosts_v4_usable (n : Network) :
  well_formed n -> version n = V4 -> _prefixlen n <= 30 ->
  map _ip (hosts n) = usable_host_addresses n.
Proof.
  intros H Hv Hp. unfold hosts, usable_host_addresses, block_addresses.
  rewrite broadcast_address_eq by exact H. rewrite Hv. cbn [_max_prefixlen].
  replace (_prefixlen n =? 32 - 1) with false by (symmetry; apply Z.eqb_neq; lia).
  replace (_prefixlen n =? 32) with false by (symmetry; apply Z.eqb_neq; lia).
  rewrite map__ip__address_class.
  destruct H as [[Hp0 _] _].
  set (first := _ip (network_address n)).
  assert (4 <= 2 ^ (32 - _prefixlen n)).
  { change 4 with (2 ^ 2). apply Z.pow_le_mono_r; lia. }
  rewrite range_without_ends by lia. reflexivity.
Qed.

(** On a block with a single host bit, [hosts] yields both addresses. *)
Lemma hosts_point_to_point (n : Network) :
  well_formed n -> _prefixlen n = _max_prefixlen (version n) - 1 ->
  map _ip (hosts n) = block_addresses n.
Proof.
  intros H Hp. unfold hosts, block_addresses.
  rewrite broadcast_address_eq by exact H. rewrite Hp, Z.eqb_refl.
  rewrite map__ip__address_class. f_equal. lia.
Qed.

(** On a block without host bits, [hosts] yields its one address. *)
Lemma hosts_single (n : Network) :
  _prefixlen n = _max_prefixlen (version n) -> hosts n = [network_address n].
Proof.
  intros Hp. unfold hosts. rewrite Hp, Z.eqb_refl.
  now replace (_ =? _) with false by (symmetry; apply Z.eqb_neq; lia).
Qed.

(** On an IPv6 block of prefix length at most 126, [hosts] leaves out the
    first address only. *)
Lemma hosts_v6_all_but_first (n : Network) :
  well_formed n -> version n = V6 -> _prefixlen n <= 126 ->
  map _ip (hosts n) = tl (block_addresses n).
Proof.
  intros H Hv Hp. unfold hosts, block_addresses.
  rewrite broadcast_address_eq by exact H. rewrite Hv. cbn [_max_prefixlen].
  replace (_prefixlen n =? 128 - 1) with false by (symmetry; apply Z.eqb_neq; lia).
  replace (_prefixlen n =? 128) with false by (symmetry; apply Z.eqb_neq; lia).
  rewrite map__ip__address_class.
  assert (0 < 2 ^ (128 - _prefixlen n)) by (apply Z.pow_pos_nonneg; lia).
  rewrite (range_cons (_ip (network_address n))) by lia. cbn [tl].
  f_equal. lia.
Qed.

End NetworkFacts.

(* ================================================================== *)
(** * Facts about reconciliation *)
(* ================================================================== *)

Section ReconcileFacts.
Import Py models scanner obs.

Context {World : Type}.
Variable timezone_now : World -> Z * World.
Variable generate_asset_tag : Asset -> World -> string * World.

Lemma scanner_now_eq (s : State World) :
  now timezone_now s =
  (Returned (fst (timezone_now (world s))),
   mkState (snd (timezone_now (world s))) (trace s) (assets s) (printed s)
           (cmd_stdout s)).
Proof. unfold now. destruct (timezone_now (world s)); reflexivity. Qed.

Lemma filter_none {A} (p : A -> bool) (l : list A) :
  (forall x, In x l -> p x = false) -> filter p l = [].
Proof.
  induction l as [| a l IH]; cbn; intros H; [reflexivity|].
  rewrite (H a) by auto. apply IH. auto.
Qed.

Lemma filter_matches (r : ScanResult) (mac : string) (rows : list Asset) :
  r_mac_address r = Some mac -> truthy mac = true ->
  filter (fun a => iexact (mac_address a) mac) rows = filter (matches r) rows.
Proof.
  intros Hm Ht. apply filter_ext. intros a. unfold matches. now rewrite Hm, Ht.
Qed.

Lemma matches_no_mac (r : ScanResult) (a : Asset) :
  truthy_opt (r_mac_address r) = false -> matches r a = false.
Proof.
  unfold matches, truthy_opt. destruct (r_mac_address r); [| reflexivity].
  now intros ->.
Qed.

Lemma save_eq (asset : Asset) (s : State World) :
  save generate_asset_tag asset s =
  (Returned (saved_as generate_asset_tag asset (world s)),
   mkState (world_after_save generate_asset_tag asset (world s)) (trace s)
           (save_row (saved_as generate_asset_tag asset (world s)) (assets s))
           (printed s) (cmd_stdout s)).
Proof.
  unfold save, saved_as, world_after_save, bind, modify, ret.
  destruct (truthy (asset_tag asset)); [reflexivity|].
  destruct (generate_asset_tag asset (world s)); reflexivity.
Qed.

(** One iteration, by the number of rows the result matches. *)
Lemma update_asset_general (result : ScanResult) (m f : Z) (s : State World) :
  update_asset timezone_now generate_asset_tag result m f s =
  match filter (matches result) (assets s) with
  | [] => (Returned (result, m, f), s)
  | [asset] =>
      (Returned
         (marked result
                 (saved_as generate_asset_tag
                           (touched (fst (timezone_now (world s)))
                                    (r_ip_address result) asset)
                           (snd (timezone_now (world s)))),
          m + 1,
          if is_missing asset then f + 1 else f),
       mkState (world_after_save generate_asset_tag
                                 (touched (fst (timezone_now (world s)))
                                          (r_ip_address result) asset)
                                 (snd (timezone_now (world s))))
               (trace s)
               (save_row (saved_as generate_asset_tag
                                   (touched (fst (timezone_now (world s)))
                                            (r_ip_address result) asset)
                                   (snd (timezone_now (world s))))
                         (assets s))
               (printed s) (cmd_stdout s))
  | _ :: _ :: _ =>
      (Raised (Exn MultipleObjectsReturned "get() returned more than one Asset"),
       s)
  end.
Proof.
  unfold update_asset, marked.
  destruct (r_mac_address result) as [mac |] eqn:Hm.
  - destruct (truthy mac) eqn:Ht.
    + unfold try_except_cls, try_except, bind at 1, get_asset, objects_get.
      rewrite (filter_matches result mac (assets s) Hm Ht).
      destruct (filter (matches result) (assets s)) as [| a [| b l]].
      * reflexivity.
      * unfold bind at 1. rewrite scanner_now_eq.
        cbn [status set_network_last_seen].
        unfold touched, is_missing.
        destruct (status_eqb (status a) MISSING);
          unfold bind; rewrite save_eq; reflexivity.
      * reflexivity.
    + rewrite (filter_none (matches result)); [reflexivity|].
      intros a _. unfold matches. now rewrite Hm, Ht.
  - rewrite (filter_none (matches result)); [reflexivity|].
    intros a _. unfold matches. now rewrite Hm.
Qed.

Lemma touched_keys (t : Z) (ip : string) (a : Asset) :
  id (touched t ip a) = id a
  /\ asset_tag (touched t ip a) = asset_tag a
  /\ mac_address (touched t ip a) = mac_address a.
Proof. unfold touched. destruct (is_missing a); auto. Qed.

Lemma filter_singleton_In {A} (p : A -> bool) (l : list A) (a : A) :
  filter p l = [a] -> In a l /\ p a = true.
Proof.
  intros H. apply filter_In. rewrite H. now left.
Qed.

Lemma saved_as_tagged (asset : Asset) (w : World) :
  truthy (asset_tag asset) = true ->
  saved_as generate_asset_tag asset w = asset
  /\ world_after_save generate_asset_tag asset w = w.
Proof. unfold saved_as, world_after_save. now intros ->. Qed.

(** The same on a table whose rows all have a tag. *)
Lemma update_asset_eq (result : ScanResult) (m f : Z) (s : State World) :
  tagged (assets s) ->
  update_asset timezone_now generate_asset_tag result m f s =
  match filter (matches result) (assets s) with
  | [] => (Returned (result, m, f), s)
  | [asset] =>
      (Returned (marked result
                        (touched (fst (timezone_now (world s)))
                                 (r_ip_address result) asset),
                 m + 1,
                 if is_missing asset then f + 1 else f),
       mkState (snd (timezone_now (world s))) (trace s)
               (save_row (touched (fst (timezone_now (world s)))
                                  (r_ip_address result) asset)
                         (assets s))
               (printed s) (cmd_stdout s))
  | _ :: _ :: _ =>
      (Raised (Exn MultipleObjectsReturned "get() returned more than one Asset"),
       s)
  end.
Proof.
  intros Htag. rewrite update_asset_general.
  destruct (filter (matches result) (assets s)) as [| a [| b l]] eqn:Hf;
    try reflexivity.
  destruct (filter_singleton_In _ _ _ Hf) as [Hin _].
  unfold tagged in Htag. rewrite Forall_forall in Htag.
  destruct (saved_as_tagged
              (touched (fst (timezone_now (world s))) (r_ip_address result) a)
              (snd (timezone_now (world s)))) as [-> ->]; [| reflexivity].
  destruct (touched_keys (fst (timezone_now (world s))) (r_ip_address result) a)
    as (_ & -> & _).
  now apply Htag.
Qed.

Lemma NoDup_map_inj {A B} (f : A -> B) (l : list A) (a b : A) :
  NoDup (map f l) -> In a l -> In b l -> f a = f b -> a = b.
Proof.
  induction l as [| x l IH]; cbn; [now intros _ [] |].
  intros H Ha Hb E. inversion H as [| ? ? Hx Hl]; subst.
  destruct Ha as [-> | Ha], Hb as [-> | Hb]; auto.
  - exfalso. apply Hx. rewrite E. now apply in_map.
  - exfalso. apply Hx. rewrite <- E. now apply in_map.
Qed.

Lemma filter_nil_inv {A} (p : A -> bool) (l : list A) (x : A) :
  filter p l = [] -> In x l -> p x = false.
Proof.
  intros H Hx. destruct (p x) eqn:E; [| reflexivity].
  assert (In x (filter p l)) by (apply filter_In; auto).
  rewrite H in *. contradiction.
Qed.

Lemma filter_singleton_inv {A} (p : A -> bool) (l : list A) (a x : A) :
  filter p l = [a] -> In x l -> p x = true -> x = a.
Proof.
  intros H Hx E.
  assert (Hin : In x (filter p l)) by (apply filter_In; auto).
  rewrite H in Hin. destruct Hin as [<- | []]. reflexivity.
Qed.

Lemma save_row_step (t : Z) (r : ScanResult) (rows : list Asset) (asset : Asset) :
  NoDup (map id rows) ->
  filter (matches r) rows = [asset] ->
  save_row (touched t (r_ip_address r) asset) rows = step_rows t r rows.
Proof.
  intros Hnd Hf. unfold save_row, step_rows. apply map_ext_in. intros a Ha.
  destruct (filter_singleton_In _ _ _ Hf) as [Hin Hp].
  replace (id (touched t (r_ip_address r) asset)) with (id asset)
    by (unfold touched; destruct (is_missing asset); reflexivity).
  destruct (matches r a) eqn:E.
  - rewrite (filter_singleton_inv _ _ _ _ Hf Ha E). now rewrite Z.eqb_refl.
  - destruct (id a =? id asset) eqn:Ei; [| reflexivity].
    apply Z.eqb_eq in Ei.
    rewrite (NoDup_map_inj id rows a asset Hnd Ha Hin Ei) in E. congruence.
Qed.

Lemma step_rows_unmatched (t : Z) (r : ScanResult) (rows : list Asset) :
  filter (matches r) rows = [] -> step_rows t r rows = rows.
Proof.
  intros Hf. unfold step_rows. rewrite <- (map_id rows) at 2.
  apply map_ext_in. intros a Ha. now rewrite (filter_nil_inv _ _ _ Hf Ha).
Qed.

Lemma matches_touched (r : ScanResult) (t : Z) (ip : string) (a : Asset) :
  matches r (touched t ip a) = matches r a.
Proof.
  unfold matches. now destruct (touched_keys t ip a) as (_ & _ & ->).
Qed.

Lemma map_id_step_rows (t : Z) (r : ScanResult) (rows : list Asset) :
  map id (step_rows t r rows) = map id rows.
Proof.
  unfold step_rows. rewrite map_map. apply map_ext. intros a.
  destruct (matches r a); [| reflexivity]. apply touched_keys.
Qed.

Lemma filter_step_rows (t : Z) (r r' : ScanResult) (rows : list Asset) :
  List.length (filter (matches r') (step_rows t r rows))
  = List.length (filter (matches r') rows).
Proof.
  unfold step_rows. induction rows as [| a rows IH]; cbn; [reflexivity|].
  replace (matches r' (if matches r a then touched t (r_ip_address r) a else a))
    with (matches r' a)
    by (destruct (matches r a); [now rewrite matches_touched | reflexivity]).
  destruct (matches r' a); cbn; now rewrite IH.
Qed.

Lemma registry_ok_step_rows (t : Z) (r : ScanResult) (rows : list Asset) :
  registry_ok rows -> registry_ok (step_rows t r rows).
Proof.
  intros [Hnd Htag]. split; [now rewrite map_id_step_rows|].
  unfold tagged, step_rows in *. rewrite Forall_map.
  eapply Forall_impl; [| exact Htag]. intros a Ha.
  destruct (matches r a); [| exact Ha].
  now destruct (touched_keys t (r_ip_address r) a) as (_ & -> & _).
Qed.

(** One iteration that does not raise, uniformly. *)
Lemma update_asset_step (r : ScanResult) (m f : Z) (s : State World) :
  registry_ok (assets s) ->
  (List.length (filter (matches r) (assets s)) <= 1)%nat ->
  exists r' w',
    update_asset timezone_now generate_asset_tag r m f s =
    (Returned
       (r',
        m + Z.of_nat (List.length (filter (matches r) (assets s))),
        f + Z.of_nat (List.length
                        (filter is_missing (filter (matches r) (assets s))))),
     mkState w' (trace s)
             (step_rows (fst (timezone_now (world s))) r (assets s))
             (printed s) (cmd_stdout s))
    /\ r_mac_address r' = r_mac_address r
    /\ r_ip_address r' = r_ip_address r.
Proof.
  intros [Hnd Htag] Hle. rewrite update_asset_eq by exact Htag.
  destruct (filter (matches r) (assets s)) as [| a [| b l]] eqn:Hf.
  - exists r, (world s). rewrite step_rows_unmatched by exact Hf.
    cbn. rewrite !Z.add_0_r. destruct s; auto.
  - eexists _, _. rewrite (save_row_step _ r _ a Hnd Hf). cbn.
    destruct (is_missing a); cbn; rewrite ?Z.add_0_r; auto.
  - cbn in Hle. lia.
Qed.

(** One iteration raises exactly when the result matches several rows. *)
Lemma update_asset_returned (r : ScanResult) (m f : Z) (s : State World) out s' :
  update_asset timezone_now generate_asset_tag r m f s = (Returned out, s') ->
  (List.length (filter (matches r) (assets s)) <= 1)%nat.
Proof.
  rewrite update_asset_general.
  destruct (filter (matches r) (assets s)) as [| a [| b l]]; cbn;
    [lia | lia | discriminate].
Qed.


Lemma is_missing_touched (t : Z) (ip : string) (a : Asset) :
  is_missing (touched t ip a) = false.
Proof.
  unfold touched, is_missing. destruct (status_eqb (status a) MISSING) eqn:E; cbn.
  - reflexivity.
  - exact E.
Qed.

Lemma first_match_ip_keys (results : list ScanResult) (a b : Asset) :
  mac_address b = mac_address a ->
  first_match_ip results b = first_match_ip results a.
Proof.
  intros H. induction results as [| r rest IH]; cbn; [reflexivity|].
  unfold matches. now rewrite H, IH.
Qed.

Lemma last_match_ip_keys (results : list ScanResult) (a b : Asset) :
  mac_address b = mac_address a ->
  last_match_ip results b = last_match_ip results a.
Proof.
  intros H. induction results as [| r rest IH]; cbn; [reflexivity|].
  unfold matches. now rewrite H, IH.
Qed.

Lemma hit_keys (results : list ScanResult) (a b : Asset) :
  mac_address b = mac_address a -> hit results b = hit results a.
Proof.
  intros H. unfold hit. induction results as [| r rest IH]; cbn; [reflexivity|].
  unfold matches at 1 3. now rewrite H, IH.
Qed.

Lemma first_match_ip_hit (results : list ScanResult) (a : Asset) :
  hit results a = match first_match_ip results a with Some _ => true | None => false end.
Proof.
  unfold hit. induction results as [| r rest IH]; cbn; [reflexivity|].
  destruct (matches r a); [reflexivity | exact IH].
Qed.

Lemma last_match_ip_hit (results : list ScanResult) (a : Asset) :
  hit results a = match last_match_ip results a with Some _ => true | None => false end.
Proof.
  unfold hit. induction results as [| r rest IH]; cbn; [reflexivity|].
  rewrite IH. destruct (last_match_ip rest a); [apply orb_true_r|].
  rewrite orb_false_r. now destruct (matches r a).
Qed.

(** A row after the iteration for [r] and then the pass over [rest] is a
    row after the pass over [r :: rest]. *)
Lemma row_after_cons (t : Z) (r : ScanResult) (rest : list ScanResult)
      (a a' : Asset) :
  row_after rest (if matches r a then touched t (r_ip_address r) a else a) a' ->
  row_after (r :: rest) a a'.
Proof.
  unfold row_after. cbn [first_match_ip last_match_ip].
  destruct (matches r a) eqn:Hm; [| destruct (last_match_ip rest a); tauto].
  destruct (touched_keys t (r_ip_address r) a) as (Ki & Kt & Km).
  rewrite (first_match_ip_keys rest a _ Km), (last_match_ip_keys rest a _ Km).
  rewrite is_missing_touched.
  pose proof (first_match_ip_hit rest a) as Hf.
  pose proof (last_match_ip_hit rest a) as Hl.
  intros (Hi & Hta & Hma & H). rewrite Hi, Hta, Hma.
  repeat split; try assumption.
  - destruct (first_match_ip rest a).
    + destruct H as (-> & _). unfold touched.
      destruct (is_missing a); reflexivity.
    + subst a'. unfold touched. destruct (is_missing a); reflexivity.
  - destruct (first_match_ip rest a).
    + destruct H as (_ & -> & _). unfold touched.
      destruct (is_missing a); reflexivity.
    + subst a'. unfold touched. destruct (is_missing a); reflexivity.
  - destruct (first_match_ip rest a).
    + destruct H as (_ & _ & -> & _).
      destruct (last_match_ip rest a); [reflexivity | congruence].
    + subst a'. destruct (last_match_ip rest a); [congruence|].
      unfold touched. destruct (is_missing a); reflexivity.
  - destruct (first_match_ip rest a).
    + apply H.
    + subst a'. exists t. unfold touched. destruct (is_missing a); reflexivity.
Qed.

Lemma Forall2_same {A} (R : A -> A -> Prop) (l : list A) :
  (forall a, R a a) -> Forall2 R l l.
Proof. intros H. induction l; constructor; auto. Qed.

Lemma Forall2_map_l {A B C} (R : B -> C -> Prop) (g : A -> B) (l : list A) (l' : list C) :
  Forall2 R (map g l) l' -> Forall2 (fun a c => R (g a) c) l l'.
Proof.
  revert l'. induction l as [| a l IH]; cbn; intros l' H; inversion H; subst;
    constructor; auto.
Qed.

Lemma recovered_cons (t : Z) (r : ScanResult) (rest : list ScanResult)
      (rows : list Asset) :
  recovered (r :: rest) rows
  = Z.of_nat (List.length (filter is_missing (filter (matches r) rows)))
    + recovered rest (step_rows t r rows).
Proof.
  unfold recovered, step_rows, hit. cbn [existsb].
  induction rows as [| a rows IH]; cbn [filter map List.length]; [reflexivity|].
  destruct (matches r a) eqn:Hm; cbn [filter orb].
  - rewrite is_missing_touched. cbn [andb].
    destruct (is_missing a); cbn [andb filter List.length]; lia.
  - destruct (is_missing a && existsb (fun r0 => matches r0 a) rest);
      cbn [List.length]; lia.
Qed.

Lemma existsb_step_rows (t : Z) (r r' : ScanResult) (rows : list Asset) :
  existsb (matches r') (step_rows t r rows) = existsb (matches r') rows.
Proof.
  unfold step_rows. induction rows as [| a rows IH]; cbn; [reflexivity|].
  rewrite IH. f_equal. destruct (matches r a); [apply matches_touched | reflexivity].
Qed.

Lemma length_filter_existsb {A} (p : A -> bool) (l : list A) :
  (List.length (filter p l) <= 1)%nat ->
  Z.of_nat (List.length (filter p l)) = if existsb p l then 1 else 0.
Proof.
  induction l as [| a l IH]; cbn; [reflexivity|].
  destruct (p a) eqn:E; cbn.
  - intros H. destruct (filter p l); cbn in *; [reflexivity | lia].
  - exact IH.
Qed.

Lemma matched_results_cons (t : Z) (r : ScanResult) (rest : list ScanResult)
      (rows : list Asset) :
  (List.length (filter (matches r) rows) <= 1)%nat ->
  matched_results (r :: rest) rows
  = Z.of_nat (List.length (filter (matches r) rows))
    + matched_results rest (step_rows t r rows).
Proof.
  intros H. unfold matched_results. cbn [filter].
  rewrite (length_filter_existsb _ _ H).
  rewrite (filter_ext (fun r0 => existsb (matches r0) (step_rows t r rows))
                      (fun r0 => existsb (matches r0) rows))
    by (intros r0; apply existsb_step_rows).
  destruct (existsb (matches r) rows); cbn [List.length]; lia.
Qed.

(** A pass that returns: the table, the counters and the rest of the state
    afterwards. *)
Lemma update_assets_spec (results : list ScanResult) :
  forall (m f : Z) (s : State World) results' m' f' s',
    registry_ok (assets s) ->
    update_assets timezone_now generate_asset_tag results m f s
    = (Returned (results', m', f'), s') ->
    Forall2 (row_after results) (assets s) (assets s')
    /\ f' = f + recovered results (assets s)
    /\ m' = m + matched_results results (assets s)
    /\ Forall2 same_observation results results'
    /\ trace s' = trace s /\ printed s' = printed s
    /\ cmd_stdout s' = cmd_stdout s.
Proof.
  induction results as [| r rest IH]; intros m f s results' m' f' s' Hnd H.
  - cbn in H. injection H as <- <- <- <-.
    unfold recovered, matched_results. cbn.
    rewrite (filter_none (fun a => is_missing a && false))
      by (intros; apply andb_false_r).
    cbn. rewrite !Z.add_0_r. repeat split; try reflexivity; [| constructor].
    apply Forall2_same. intros a. unfold row_after. cbn. auto.
  - cbn [update_assets] in H. unfold bind at 1 in H.
    destruct (update_asset timezone_now generate_asset_tag r m f s)
      as [[[[r1 m1] f1] | e] s1] eqn:E1; [| discriminate].
    pose proof (update_asset_returned _ _ _ _ _ _ E1) as Hle.
    destruct (update_asset_step r m f s Hnd Hle) as (r1' & w' & E1' & Hmac & Hip).
    rewrite E1' in E1. injection E1 as -> <- <- <-.
    unfold bind at 1 in H.
    match type of H with
    | context [update_assets _ _ rest ?m1 ?f1 ?s1] =>
        destruct (update_assets timezone_now generate_asset_tag rest m1 f1 s1)
          as [[[[rest' m2] f2] | e] s2] eqn:E2; [| discriminate]
    end.
    cbn in H. injection H as <- <- <- <-.
    apply IH in E2; [| cbn; now apply registry_ok_step_rows].
    cbn [assets trace printed cmd_stdout] in E2.
    destruct E2 as (HF & Hf & Hm & Hrs & Ht & Hp & Hc).
    repeat split; try assumption.
    + apply Forall2_map_l in HF.
      eapply Forall2_impl; [| exact HF]. intros a a'. apply row_after_cons.
    + rewrite Hf, (recovered_cons (fst (timezone_now (world s)))). lia.
    + rewrite Hm, (matched_results_cons (fst (timezone_now (world s)))) by exact Hle.
      lia.
    + constructor; [split; congruence | exact Hrs].
Qed.


Lemma update_assets_unambiguous (results : list ScanResult) :
  forall (m f : Z) (s : State World) out s',
    registry_ok (assets s) ->
    update_assets timezone_now generate_asset_tag results m f s = (Returned out, s') ->
    Forall (unambiguous (assets s)) results.
Proof.
  induction results as [| r rest IH]; intros m f s out s' Hnd H; constructor.
  - cbn [update_assets] in H. unfold bind at 1 in H.
    destruct (update_asset timezone_now generate_asset_tag r m f s)
      as [[o | e] s1] eqn:E1; [| discriminate].
    exact (update_asset_returned _ _ _ _ _ _ E1).
  - cbn [update_assets] in H. unfold bind at 1 in H.
    destruct (update_asset timezone_now generate_asset_tag r m f s)
      as [[[[r1 m1] f1] | e] s1] eqn:E1; [| discriminate].
    pose proof (update_asset_returned _ _ _ _ _ _ E1) as Hle.
    destruct (update_asset_step r m f s Hnd Hle) as (r1' & w' & E1' & _).
    rewrite E1' in E1. injection E1 as -> <- <- <-.
    unfold bind at 1 in H.
    match type of H with
    | context [update_assets _ _ rest ?m1 ?f1 ?s1] =>
        destruct (update_assets timezone_now generate_asset_tag rest m1 f1 s1)
          as [[o2 | e] s2] eqn:E2; [| discriminate]
    end.
    apply IH in E2; [| cbn; now apply registry_ok_step_rows].
    cbn [assets] in E2. eapply Forall_impl; [| exact E2].
    intros r0. unfold unambiguous. now rewrite filter_step_rows.
Qed.

Lemma update_assets_total (results : list ScanResult) :
  forall (m f : Z) (s : State World),
    registry_ok (assets s) ->
    Forall (unambiguous (assets s)) results ->
    exists out s',
      update_assets timezone_now generate_asset_tag results m f s
      = (Returned out, s').
Proof.
  induction results as [| r rest IH]; intros m f s Hnd H.
  - now exists ([], m, f), s.
  - inversion H as [| ? ? Hr Hrest]; subst. cbn [update_assets].
    destruct (update_asset_step r m f s Hnd Hr) as (r1 & w' & E1 & _).
    unfold bind at 1. rewrite E1. cbv beta iota. unfold bind.
    match goal with
    | |- context [update_assets _ _ rest ?m1 ?f1 ?s1] =>
        destruct (IH m1 f1 s1) as ([[rest' m2] f2] & s2 & E2)
    end.
    + cbn. now apply registry_ok_step_rows.
    + cbn. eapply Forall_impl; [| exact Hrest].
      intros r0. unfold unambiguous. now rewrite filter_step_rows.
    + rewrite E2. now eexists _, _.
Qed.


Lemma existsb_ext {A} (p q : A -> bool) (l : list A) :
  (forall a, p a = q a) -> existsb p l = existsb q l.
Proof. intros H. induction l as [| a l IH]; cbn; [reflexivity|]. now rewrite H, IH. Qed.

Lemma matches_observation (r r' : ScanResult) (a : Asset) :
  same_observation r r' -> matches r' a = matches r a.
Proof. intros [Hm _]. unfold matches. now rewrite Hm. Qed.

Lemma first_match_ip_observation (rs rs' : list ScanResult) (a : Asset) :
  Forall2 same_observation rs rs' -> first_match_ip rs' a = first_match_ip rs a.
Proof.
  induction 1 as [| r r' rs rs' Hr _ IH]; cbn; [reflexivity|].
  rewrite (matches_observation r r' a Hr), IH. now destruct Hr as [_ ->].
Qed.

Lemma last_match_ip_observation (rs rs' : list ScanResult) (a : Asset) :
  Forall2 same_observation rs rs' -> last_match_ip rs' a = last_match_ip rs a.
Proof.
  induction 1 as [| r r' rs rs' Hr _ IH]; cbn; [reflexivity|].
  rewrite (matches_observation r r' a Hr), IH. now destruct Hr as [_ ->].
Qed.

Lemma hit_observation (rs rs' : list ScanResult) (a : Asset) :
  Forall2 same_observation rs rs' -> hit rs' a = hit rs a.
Proof.
  intros H. rewrite !first_match_ip_hit.
  now rewrite (first_match_ip_observation rs rs' a H).
Qed.

Lemma matched_results_observation (rs rs' : list ScanResult) (rows : list Asset) :
  Forall2 same_observation rs rs' ->
  matched_results rs' rows = matched_results rs rows.
Proof.
  unfold matched_results. induction 1 as [| r r' rs rs' Hr _ IH]; cbn; [reflexivity|].
  rewrite (existsb_ext (matches r') (matches r))
    by (intros a; now apply matches_observation).
  destruct (existsb (matches r) rows); cbn; lia.
Qed.

Lemma unambiguous_observation (rs rs' : list ScanResult) (rows : list Asset) :
  Forall2 same_observation rs rs' ->
  Forall (unambiguous rows) rs -> Forall (unambiguous rows) rs'.
Proof.
  induction 1 as [| r r' rs rs' Hr _ IH]; intros H; constructor;
    inversion H; subst; auto.
  unfold unambiguous in *.
  rewrite (filter_ext (matches r') (matches r))
    by (intros a; now apply matches_observation).
  assumption.
Qed.

Lemma row_after_map_id (results : list ScanResult) (rows rows' : list Asset) :
  Forall2 (row_after results) rows rows' -> map id rows' = map id rows.
Proof.
  induction 1 as [| a a' l l' (Hi & _) _ IH]; cbn; [reflexivity|].
  now rewrite Hi, IH.
Qed.

Lemma row_after_registry_ok (results : list ScanResult) (rows rows' : list Asset) :
  Forall2 (row_after results) rows rows' -> registry_ok rows -> registry_ok rows'.
Proof.
  intros HF [Hnd Htag]. split; [now rewrite (row_after_map_id _ _ _ HF)|].
  unfold tagged in *. clear Hnd.
  induction HF as [| a a' l l' (_ & Ht & _) _ IH]; constructor;
    inversion Htag; subst; auto.
  now rewrite Ht.
Qed.

Lemma row_after_filter_length (results : list ScanResult) (r : ScanResult)
      (rows rows' : list Asset) :
  Forall2 (row_after results) rows rows' ->
  List.length (filter (matches r) rows') = List.length (filter (matches r) rows).
Proof.
  induction 1 as [| a a' l l' (_ & _ & Hm & _) _ IH]; cbn; [reflexivity|].
  replace (matches r a') with (matches r a) by (unfold matches; now rewrite Hm).
  destruct (matches r a); cbn; now rewrite IH.
Qed.

Lemma row_after_existsb (results : list ScanResult) (r : ScanResult)
      (rows rows' : list Asset) :
  Forall2 (row_after results) rows rows' ->
  existsb (matches r) rows' = existsb (matches r) rows.
Proof.
  induction 1 as [| a a' l l' (_ & _ & Hm & _) _ IH]; cbn; [reflexivity|].
  replace (matches r a') with (matches r a) by (unfold matches; now rewrite Hm).
  now rewrite IH.
Qed.

(** After a pass every row is settled with respect to it. *)
Lemma row_after_settled (results : list ScanResult) (a a' : Asset) :
  row_after results a a' -> settled results a'.
Proof.
  intros (_ & _ & Hm & H) Hhit.
  rewrite (hit_keys results a a' Hm) in Hhit.
  rewrite (last_match_ip_keys results a a' Hm).
  rewrite first_match_ip_hit in Hhit.
  destruct (first_match_ip results a); [| discriminate].
  destruct H as (Hs & _ & Hip & _). split; [| exact Hip].
  unfold is_missing in *. rewrite Hs.
  destruct (status_eqb (status a) MISSING) eqn:E; [reflexivity | exact E].
Qed.

(** A pass over settled rows changes [network_last_seen] at most. *)
Lemma row_after_of_settled (results : list ScanResult) (a a' : Asset) :
  settled results a -> row_after results a a' -> same_but_last_seen a a'.
Proof.
  intros Hs (Hi & Ht & Hm & H). unfold same_but_last_seen.
  unfold settled in Hs. rewrite first_match_ip_hit in Hs.
  destruct (first_match_ip results a).
  - destruct (Hs eq_refl) as [Hmiss Hip]. rewrite Hmiss in H.
    destruct H as (-> & -> & -> & _). auto 10.
  - subst a'. auto 10.
Qed.

Lemma Forall2_Forall_r {A B} (R : A -> B -> Prop) (P : B -> Prop) l l' :
  (forall a b, R a b -> P b) -> Forall2 R l l' -> Forall P l'.
Proof. intros H. induction 1; constructor; eauto. Qed.

Lemma Forall2_impl_Forall_l {A B} (R R' : A -> B -> Prop) (P : A -> Prop) l l' :
  (forall a b, P a -> R a b -> R' a b) ->
  Forall P l -> Forall2 R l l' -> Forall2 R' l l'.
Proof.
  intros H HP HR. induction HR; constructor; inversion HP; subst; eauto.
Qed.

Lemma settled_observation (rs rs' : list ScanResult) (a : Asset) :
  Forall2 same_observation rs rs' -> settled rs a -> settled rs' a.
Proof.
  intros H. unfold settled.
  now rewrite (hit_observation rs rs' a H), (last_match_ip_observation rs rs' a H).
Qed.

Lemma recovered_settled (results : list ScanResult) (rows : list Asset) :
  Forall (settled results) rows -> recovered results rows = 0.
Proof.
  intros H. unfold recovered. rewrite filter_none; [reflexivity|].
  intros a Ha. rewrite Forall_forall in H. specialize (H a Ha).
  unfold settled in H.
  destruct (hit results a); [| apply andb_false_r].
  now destruct (H eq_refl) as [-> _].
Qed.

Lemma same_but_last_seen_status (rows rows' : list Asset) :
  Forall2 same_but_last_seen rows rows' -> map status rows' = map status rows.
Proof.
  induction 1 as [| a a' l l' (_ & _ & _ & _ & Hs & _) _ IH]; cbn; [reflexivity|].
  now rewrite Hs, IH.
Qed.

Lemma Forall2_length_eq {A B} (R : A -> B -> Prop) l l' :
  Forall2 R l l' -> List.length l' = List.length l.
Proof. induction 1; cbn; congruence. Qed.

(** Applying the same scan results again: nothing is recovered a second
    time and every row keeps all but its last-seen time stamp. *)
Lemma reconcile_again (results again : list ScanResult) (s s1 : State World)
      (first : Summary) :
  registry_ok (assets s) ->
  reconcile timezone_now generate_asset_tag results s = (Returned first, s1) ->
  Forall2 same_observation results again ->
  exists second s2,
    reconcile timezone_now generate_asset_tag again s1 = (Returned second, s2)
    /\ missing_found second = 0
    /\ matched second = matched first
    /\ scanned second = scanned first
    /\ map status (assets s2) = map status (assets s1)
    /\ Forall2 same_but_last_seen (assets s1) (assets s2).
Proof.
  intros Hnd H Hobs. unfold reconcile, bind in H.
  destruct (update_assets timezone_now generate_asset_tag results 0 0 s)
    as [[[[res1 m1] f1] | e] s1'] eqn:E1; [| discriminate].
  cbn in H. injection H as <- <-.
  pose proof (update_assets_unambiguous _ _ _ _ _ _ Hnd E1) as Hun.
  destruct (update_assets_spec _ _ _ _ _ _ _ _ Hnd E1)
    as (HF & Hf1 & Hm1 & Hres1 & _).
  assert (Hnd1 : registry_ok (assets s1'))
    by exact (row_after_registry_ok _ _ _ HF Hnd).
  assert (Hun1 : Forall (unambiguous (assets s1')) again).
  { apply (unambiguous_observation results again _ Hobs).
    eapply Forall_impl; [| exact Hun]. intros r. unfold unambiguous.
    now rewrite (row_after_filter_length _ r _ _ HF). }
  destruct (update_assets_total again 0 0 s1' Hnd1 Hun1)
    as ([[res2 m2] f2] & s2 & E2).
  destruct (update_assets_spec _ _ _ _ _ _ _ _ Hnd1 E2)
    as (HF2 & Hf2 & Hm2 & Hres2 & _).
  assert (Hset : Forall (settled again) (assets s1')).
  { eapply Forall_impl; [intros a; apply (settled_observation results again a Hobs) |].
    eapply Forall2_Forall_r; [| exact HF]. intros a b. apply row_after_settled. }
  assert (Hsame : Forall2 same_but_last_seen (assets s1') (assets s2)).
  { eapply Forall2_impl_Forall_l; [| exact Hset | exact HF2].
    intros a b. apply row_after_of_settled. }
  exists (mkSummary (Z.of_nat (List.length res2)) m2 f2 res2), s2.
  unfold reconcile, bind. rewrite E2. cbn. repeat split.
  - rewrite Hf2, (recovered_settled again _ Hset). reflexivity.
  - rewrite Hm2, Hm1, (matched_results_observation results again _ Hobs).
    unfold matched_results. do 3 f_equal. apply filter_ext. intros r.
    apply (row_after_existsb _ r _ _ HF).
  - f_equal. rewrite (Forall2_length_eq _ _ _ Hres2), (Forall2_length_eq _ _ _ Hobs).
    now rewrite (Forall2_length_eq _ _ _ Hres1).
  - now apply same_but_last_seen_status.
  - exact Hsame.
Qed.


Lemma stdout_write_eq (style : Style) (line : string) (s : State World) :
  stdout_write style line s =
  (Returned tt,
   mkState (world s) (trace s) (assets s) (printed s)
           (cmd_stdout s ++ [(style, line)])).
Proof. reflexivity. Qed.

(** One iteration of the command, by the number of rows the result
    matches. *)
Lemma handle_result_general (result : ScanResult) (c : scan_network.Counters)
      (s : State World) :
  scan_network.handle_result timezone_now generate_asset_tag result c s =
  match filter (matches result) (assets s) with
  | [] =>
      if truthy_opt (r_mac_address result) then
        (Returned (scan_network.mkCounters
                     (scan_network.found_count c + 1)
                     (scan_network.matched_count c)
                     (scan_network.missing_found c)),
         mkState (world s) (trace s) (assets s) (printed s)
                 (cmd_stdout s
                    ++ [(WARNING,
                         "[UNKNOWN] Device at " ++ r_ip_address result ++ " - "
                           ++ match r_mac_address result with
                              | Some mac => mac
                              | None => ""
                              end)]))
      else (Returned c, s)
  | [asset] =>
      (Returned (scan_network.mkCounters
                   (scan_network.found_count c)
                   (scan_network.matched_count c + 1)
                   (if is_missing asset then scan_network.missing_found c + 1
                    else scan_network.missing_found c)),
       mkState (world_after_save generate_asset_tag
                  (touched_by_command (fst (timezone_now (world s)))
                                      (r_ip_address result) asset)
                  (snd (timezone_now (world s))))
               (trace s)
               (save_row (saved_as generate_asset_tag
                            (touched_by_command (fst (timezone_now (world s)))
                                                (r_ip_address result) asset)
                            (snd (timezone_now (world s))))
                         (assets s))
               (printed s)
               (cmd_stdout s
                  ++ [if is_missing asset then
                        (SUCCESS,
                         "[FOUND MISSING] " ++ asset_tag asset ++ " at "
                           ++ r_ip_address result)
                      else
                        (PLAIN,
                         "[DETECTED] " ++ asset_tag asset ++ " at "
                           ++ r_ip_address result)]))
  | _ :: _ :: _ =>
      (Raised (Exn MultipleObjectsReturned "get() returned more than one Asset"),
       s)
  end.
Proof.
  unfold scan_network.handle_result.
  destruct (r_mac_address result) as [mac |] eqn:Hm.
  - destruct (truthy mac) eqn:Ht; cbn [negb truthy_opt].
    + rewrite Ht.
      unfold try_except_cls, try_except, bind at 1, get_asset, objects_get.
      rewrite (filter_matches result mac (assets s) Hm Ht).
      destruct (filter (matches result) (assets s)) as [| a [| b l]].
      * reflexivity.
      * unfold bind at 1. rewrite scanner_now_eq.
        cbn [status set_network_last_seen set_ip_address].
        unfold touched_by_command, is_missing.
        destruct (status_eqb (status a) MISSING);
          unfold bind at 1; unfold bind at 1; rewrite stdout_write_eq;
          unfold ret at 1; unfold bind; rewrite save_eq; reflexivity.
      * reflexivity.
    + rewrite Ht. rewrite (filter_none (matches result)); [reflexivity|].
      intros a _. unfold matches. now rewrite Hm, Ht.
  - rewrite (filter_none (matches result)); [reflexivity|].
    intros a _. unfold matches. now rewrite Hm.
Qed.

(** The same on a table whose rows all have a tag. *)
Lemma handle_result_eq (result : ScanResult) (c : scan_network.Counters)
      (s : State World) :
  tagged (assets s) ->
  scan_network.handle_result timezone_now generate_asset_tag result c s =
  match filter (matches result) (assets s) with
  | [] =>
      if truthy_opt (r_mac_address result) then
        (Returned (scan_network.mkCounters
                     (scan_network.found_count c + 1)
                     (scan_network.matched_count c)
                     (scan_network.missing_found c)),
         mkState (world s) (trace s) (assets s) (printed s)
                 (cmd_stdout s
                    ++ [(WARNING,
                         "[UNKNOWN] Device at " ++ r_ip_address result ++ " - "
                           ++ match r_mac_address result with
                              | Some mac => mac
                              | None => ""
                              end)]))
      else (Returned c, s)
  | [asset] =>
      (Returned (scan_network.mkCounters
                   (scan_network.found_count c)
                   (scan_network.matched_count c + 1)
                   (if is_missing asset then scan_network.missing_found c + 1
                    else scan_network.missing_found c)),
       mkState (snd (timezone_now (world s))) (trace s)
               (save_row (touched_by_command (fst (timezone_now (world s)))
                                             (r_ip_address result) asset)
                         (assets s))
               (printed s)
               (cmd_stdout s
                  ++ [if is_missing asset then
                        (SUCCESS,
                         "[FOUND MISSING] " ++ asset_tag asset ++ " at "
                           ++ r_ip_address result)
                      else
                        (PLAIN,
                         "[DETECTED] " ++ asset_tag asset ++ " at "
                           ++ r_ip_address result)]))
  | _ :: _ :: _ =>
      (Raised (Exn MultipleObjectsReturned "get() returned more than one Asset"),
       s)
  end.
Proof.
  intros Htag. rewrite handle_result_general.
  destruct (filter (matches result) (assets s)) as [| a [| b l]] eqn:Hf;
    try reflexivity.
  destruct (filter_singleton_In _ _ _ Hf) as [Hin _].
  unfold tagged in Htag. rewrite Forall_forall in Htag.
  destruct (saved_as_tagged
              (touched_by_command (fst (timezone_now (world s)))
                                  (r_ip_address result) a)
              (snd (timezone_now (world s)))) as [-> ->]; [| reflexivity].
  replace (asset_tag (touched_by_command (fst (timezone_now (world s)))
                                         (r_ip_address result) a))
    with (asset_tag a)
    by (unfold touched_by_command; destruct (is_missing a); reflexivity).
  now apply Htag.
Qed.

Lemma objects_get_matches (result : ScanResult) (mac : string) (rows : list Asset)
      (asset : Asset) :
  r_mac_address result = Some mac -> truthy mac = true ->
  objects_get rows mac = Returned asset ->
  filter (matches result) rows = [asset].
Proof.
  intros Hm Ht. unfold objects_get. rewrite (filter_matches result mac rows Hm Ht).
  destruct (filter (matches result) rows) as [| a [| b l]]; try discriminate.
  now intros [= ->].
Qed.

Lemma filter_step_rows_eq (t : Z) (r : ScanResult) (rows : list Asset) :
  filter (matches r) (step_rows t r rows)
  = map (touched t (r_ip_address r)) (filter (matches r) rows).
Proof.
  unfold step_rows. induction rows as [| a rows IH]; cbn; [reflexivity|].
  destruct (matches r a) eqn:E.
  - rewrite matches_touched, E. cbn. now rewrite IH.
  - rewrite E. exact IH.
Qed.

Lemma status_touched (t : Z) (ip : string) (a : Asset) :
  status (touched t ip a) = if is_missing a then AVAILABLE else status a.
Proof. unfold touched. destruct (is_missing a); reflexivity. Qed.

(** An iteration whose result matches a single row that is not [MISSING]
    counts a match, recovers nothing and changes no status. *)
Lemma update_asset_present (result : ScanResult) (asset : Asset) (m f : Z)
      (s : State World) :
  registry_ok (assets s) ->
  filter (matches result) (assets s) = [asset] ->
  is_missing asset = false ->
  exists result' s',
    update_asset timezone_now generate_asset_tag result m f s = (Returned (result', m + 1, f), s')
    /\ assets s'
       = save_row (set_ip_address (r_ip_address result)
                     (set_network_last_seen (fst (timezone_now (world s))) asset))
                  (assets s)
    /\ map status (assets s') = map status (assets s).
Proof.
  intros [Hnd Htag] Hf Hmiss. rewrite update_asset_eq, Hf, Hmiss by exact Htag.
  eexists _, _. split; [reflexivity|]. cbn [assets].
  unfold touched at 1. rewrite Hmiss. split; [reflexivity|].
  rewrite (save_row_step _ result _ asset Hnd Hf). unfold step_rows.
  rewrite map_map. apply map_ext_in. intros a Ha.
  destruct (matches result a) eqn:E; [| reflexivity].
  rewrite (filter_singleton_inv _ _ _ _ Hf Ha E), status_touched.
  now rewrite Hmiss.
Qed.


Lemma occurs_in_suffix (pre s : string) : occurs_in s (pre ++ s)%string.
Proof.
  exists pre, EmptyString. f_equal.
  induction s as [| c s IH]; cbn; [reflexivity | now rewrite <- IH].
Qed.

(** C4, as the code has it.  A scan result whose hardware address one
    row carries and no other, so that [objects.get] resolves it, to an
    asset that is [MISSING]: the iteration of [scan_and_update_assets]
    saves the asset as [AVAILABLE] with a location that ends in the observed
    address, and adds one to [found_missing] (and to [matched]).  The asset
    being [AVAILABLE] afterwards, the same result applied again finds it,
    counts a match, and leaves [found_missing] and every status as they are:
    the transition happens once.  The iteration of the [scan_network]
    command does the same with its own location text and counters. *)
Theorem missing_asset_is_recovered_once
        (result : ScanResult) (mac : string) (asset : Asset) (s : State World)
        (m f : Z) (c : scan_network.Counters) :
  r_mac_address result = Some mac ->
  truthy mac = true ->
  objects_get (assets s) mac = Returned asset ->
  status asset = MISSING ->
  registry_ok (assets s) ->
  let t := fst (timezone_now (world s)) in
  let ip := r_ip_address result in
  let found :=
    mkAsset (id asset) (asset_tag asset) (mac_address asset) (Some ip) AVAILABLE
            ("Detected on network: " ++ ip) (Some t) in
  let found_by_command :=
    mkAsset (id asset) (asset_tag asset) (mac_address asset) (Some ip) AVAILABLE
            ("Auto-detected: " ++ ip) (Some t) in
  (exists result' s',
      update_asset timezone_now generate_asset_tag result m f s = (Returned (result', m + 1, f + 1), s')
      /\ assets s' = save_row found (assets s)
      /\ objects_get (assets s') mac = Returned found
      /\ occurs_in ip (location found)
      /\ forall m2 f2, exists result2 s2,
           update_asset timezone_now generate_asset_tag result m2 f2 s'
           = (Returned (result2, m2 + 1, f2), s2)
           /\ map status (assets s2) = map status (assets s'))
  /\ (exists s',
        scan_network.handle_result timezone_now generate_asset_tag result c s
        = (Returned (scan_network.mkCounters
                       (scan_network.found_count c)
                       (scan_network.matched_count c + 1)
                       (scan_network.missing_found c + 1)), s')
        /\ assets s' = save_row found_by_command (assets s)
        /\ occurs_in ip (location found_by_command)).
Proof.
  intros Hm Ht Hget Hst [Hnd Htag] t ip found found_by_command.
  pose proof (objects_get_matches result mac _ asset Hm Ht Hget) as Hf.
  assert (Hmiss : is_missing asset = true)
    by (unfold is_missing; now rewrite Hst).
  assert (Htouched : touched t ip asset = found)
    by (unfold touched; now rewrite Hmiss).
  split.
  - rewrite update_asset_eq, Hf, Hmiss by exact Htag. fold t ip.
    rewrite Htouched.
    eexists _, _. split; [reflexivity|]. cbn [assets].
    assert (Hf' : filter (matches result) (save_row found (assets s)) = [found]).
    { rewrite <- Htouched. unfold ip.
      rewrite (save_row_step t result _ asset Hnd Hf), filter_step_rows_eq.
      now rewrite Hf. }
    repeat split.
    + unfold objects_get.
      now rewrite (filter_matches result mac _ Hm Ht), Hf'.
    + apply occurs_in_suffix.
    + intros m2 f2.
      match goal with
      | |- context [update_asset _ _ result m2 f2 ?s1] =>
          destruct (update_asset_present result found m2 f2 s1)
            as (result2 & s2 & E & _ & Hs)
      end; cbn [assets]; try assumption.
      * rewrite <- Htouched. unfold ip.
        rewrite (save_row_step t result _ asset Hnd Hf).
        now apply registry_ok_step_rows.
      * reflexivity.
      * now exists result2, s2.
  - rewrite handle_result_eq, Hf, Hmiss by exact Htag. fold t ip.
    eexists. split; [reflexivity|]. cbn [assets]. split.
    + unfold touched_by_command. now rewrite Hmiss.
    + apply occurs_in_suffix.
Qed.

(** C8, as the code has it.  A scan result whose hardware address one
    row carries and no other, so that [objects.get] resolves it, to an
    asset in [MAINTENANCE] or [RETIRED]: the iteration saves the asset with
    the time of the scan as [network_last_seen] and the observed address as
    [ip_address], and with its status and location as they were; no status
    in the registry changes and [found_missing] stays.  The iteration of the
    [scan_network] command saves the same row. *)
Theorem maintenance_and_retired_keep_status
        (result : ScanResult) (mac : string) (asset : Asset) (s : State World)
        (m f : Z) (c : scan_network.Counters) :
  r_mac_address result = Some mac ->
  truthy mac = true ->
  objects_get (assets s) mac = Returned asset ->
  status asset = MAINTENANCE \/ status asset = RETIRED ->
  registry_ok (assets s) ->
  let seen :=
    mkAsset (id asset) (asset_tag asset) (mac_address asset)
            (Some (r_ip_address result)) (status asset) (location asset)
            (Some (fst (timezone_now (world s)))) in
  (exists result' s',
      update_asset timezone_now generate_asset_tag result m f s = (Returned (result', m + 1, f), s')
      /\ assets s' = save_row seen (assets s)
      /\ objects_get (assets s') mac = Returned seen
      /\ map status (assets s') = map status (assets s))
  /\ (exists s',
        scan_network.handle_result timezone_now generate_asset_tag result c s
        = (Returned (scan_network.mkCounters
                       (scan_network.found_count c)
                       (scan_network.matched_count c + 1)
                       (scan_network.missing_found c)), s')
        /\ assets s' = save_row seen (assets s)).
Proof.
  intros Hm Ht Hget Hst Hok seen. pose proof Hok as [Hnd Htag].
  pose proof (objects_get_matches result mac _ asset Hm Ht Hget) as Hf.
  assert (Hmiss : is_missing asset = false)
    by (unfold is_missing; destruct Hst as [-> | ->]; reflexivity).
  split.
  - destruct (update_asset_present result asset m f s Hok Hf Hmiss)
      as (result' & s' & E & Ha & Hs).
    exists result', s'. repeat split; try assumption.
    rewrite Ha. unfold objects_get. rewrite (filter_matches result mac _ Hm Ht).
    change (set_ip_address _ _) with seen.
    replace seen with (touched (fst (timezone_now (world s))) (r_ip_address result) asset)
      by (unfold touched; now rewrite Hmiss).
    rewrite (save_row_step _ result _ asset Hnd Hf), filter_step_rows_eq.
    now rewrite Hf.
  - rewrite handle_result_eq, Hf, Hmiss by exact Htag.
    eexists. split; [reflexivity|]. cbn [assets].
    unfold touched_by_command. now rewrite Hmiss.
Qed.


Lemma reconcile_results_observation (results : list ScanResult) (s s1 : State World)
      (first : Summary) :
  registry_ok (assets s) ->
  reconcile timezone_now generate_asset_tag results s = (Returned first, s1) ->
  Forall2 same_observation results (scanner.results first).
Proof.
  intros Hnd H. unfold reconcile, bind in H.
  destruct (update_assets timezone_now generate_asset_tag results 0 0 s)
    as [[[[res1 m1] f1] | e] s1'] eqn:E1; [| discriminate].
  cbn in H. injection H as <- <-. cbn.
  now destruct (update_assets_spec _ _ _ _ _ _ _ _ Hnd E1) as (_ & _ & _ & H & _).
Qed.

(** A pass that returned, in full: the counters of the summary and the
    rows of the table afterwards. *)
Lemma reconcile_summary (results : list ScanResult) (s s' : State World)
      (summary : Summary) :
  registry_ok (assets s) ->
  reconcile timezone_now generate_asset_tag results s = (Returned summary, s') ->
  scanned summary = Z.of_nat (List.length results)
  /\ matched summary = matched_results results (assets s)
  /\ missing_found summary = recovered results (assets s)
  /\ Forall2 same_observation results (scanner.results summary)
  /\ Forall2 (row_after results) (assets s) (assets s').
Proof.
  intros Hok H. unfold reconcile, bind in H.
  destruct (update_assets timezone_now generate_asset_tag results 0 0 s)
    as [[[[res1 m1] f1] | e] s1] eqn:E1; [| discriminate].
  cbn in H. injection H as <- <-. cbn.
  destruct (update_assets_spec _ _ _ _ _ _ _ _ Hok E1)
    as (HF & -> & -> & Hres & _).
  repeat split; try assumption; try lia.
  f_equal. exact (Forall2_length_eq _ _ _ Hres).
Qed.

(** C3.  A reconciliation pass that returned, followed by a second pass
    over the same scan results (the list as it was, or as the first pass
    left it): the second pass returns as well, reports no recovered asset,
    reports the same numbers of hosts and of matches, and leaves every row
    of the registry as the first pass left it except for
    [network_last_seen]; in particular no status changes. *)
Theorem reconcile_is_idempotent
        (results : list ScanResult) (s s1 : State World) (first : Summary) :
  registry_ok (assets s) ->
  reconcile timezone_now generate_asset_tag results s = (Returned first, s1) ->
  forall again : list ScanResult,
    again = results \/ again = scanner.results first ->
    exists second s2,
      reconcile timezone_now generate_asset_tag again s1 = (Returned second, s2)
      /\ missing_found second = 0
      /\ matched second = matched first
      /\ scanned second = scanned first
      /\ map status (assets s2) = map status (assets s1)
      /\ Forall2 same_but_last_seen (assets s1) (assets s2).
Proof.
  intros Hnd H again [-> | ->].
  - apply (reconcile_again results results s s1 first Hnd H).
    apply Forall2_same. now split.
  - apply (reconcile_again results _ s s1 first Hnd H).
    exact (reconcile_results_observation results s s1 first Hnd H).
Qed.

(** C5, as the code has it.  A scan result whose hardware address no asset
    carries: the iteration of [scan_and_update_assets] returns the result,
    both counters and the whole state as they were, so a pass over that one
    result reports one host scanned, none matched and none recovered; the
    summary has no count of unmatched hosts.  The iteration of the
    [scan_network] command adds one to its local [found_count], writes an
    [UNKNOWN] line and leaves the registry as it was. *)
Theorem unknown_device_changes_no_asset
        (result : ScanResult) (mac : string) (s : State World) (m f : Z)
        (c : scan_network.Counters) :
  r_mac_address result = Some mac ->
  truthy mac = true ->
  (forall a, In a (assets s) -> iexact (mac_address a) mac = false) ->
  update_asset timezone_now generate_asset_tag result m f s = (Returned (result, m, f), s)
  /\ reconcile timezone_now generate_asset_tag [result] s = (Returned (mkSummary 1 0 0 [result]), s)
  /\ scan_network.handle_result timezone_now generate_asset_tag result c s
     = (Returned (scan_network.mkCounters
                    (scan_network.found_count c + 1)
                    (scan_network.matched_count c)
                    (scan_network.missing_found c)),
        mkState (world s) (trace s) (assets s) (printed s)
                (cmd_stdout s
                   ++ [(WARNING,
                        "[UNKNOWN] Device at " ++ r_ip_address result ++ " - "
                          ++ mac)])).
Proof.
  intros Hm Ht Hno.
  assert (Hf : filter (matches result) (assets s) = []).
  { apply filter_none. intros a Ha. unfold matches. rewrite Hm, Ht. now apply Hno. }
  assert (E : update_asset timezone_now generate_asset_tag result m f s = (Returned (result, m, f), s))
    by now rewrite update_asset_general, Hf.
  split; [exact E|]. split.
  - unfold reconcile. cbn [update_assets]. unfold bind.
    now rewrite update_asset_general, Hf.
  - rewrite handle_result_general, Hf, Hm. cbn [truthy_opt]. now rewrite Ht.
Qed.

End ReconcileFacts.

(* ================================================================== *)
(** * Facts about the scanner *)
(* ================================================================== *)

Section ScannerFacts.
Import Py models scanner obs.

Context {World : Type}.
Variable platform_system : string.
Variable subprocess_run : list string -> Z -> World -> Outcome CompletedProcess * World.
Variable list_capacity : Z.
Variable timezone_now : World -> Z * World.
Variable generate_asset_tag : Asset -> World -> string * World.

Lemma run_eq (argv : list string) (t : Z) (s : State World) :
  run subprocess_run argv t s =
  (fst (subprocess_run argv t (world s)),
   mkState (snd (subprocess_run argv t (world s)))
           (trace s ++ [Subprocess argv t (fst (subprocess_run argv t (world s)))])
           (assets s) (printed s) (cmd_stdout s)).
Proof.
  unfold run. destruct (subprocess_run argv t (world s)); reflexivity.
Qed.

Lemma _ping_host_eq (self : NetworkScanner) (ip : string) (s : State World) :
  _ping_host platform_system subprocess_run self ip s =
  (Returned
     match fst (subprocess_run (ping_argv platform_system self ip)
                               (timeout self + 2) (world s)) with
     | Returned result => (returncode result =? 0)%Z
     | Raised _ => false
     end,
   mkState (snd (subprocess_run (ping_argv platform_system self ip)
                                (timeout self + 2) (world s)))
           (trace s ++ [Subprocess (ping_argv platform_system self ip)
                                   (timeout self + 2)
                                   (fst (subprocess_run
                                           (ping_argv platform_system self ip)
                                           (timeout self + 2) (world s)))])
           (assets s) (printed s) (cmd_stdout s)).
Proof.
  unfold _ping_host, try_except, bind. rewrite run_eq.
  destruct (subprocess_run _ _ (world s)) as [[r | e] w]; reflexivity.
Qed.

Lemma _get_mac_address_returns (self : NetworkScanner) (ip : string)
      (s : State World) :
  exists mac s' tr,
    _get_mac_address platform_system subprocess_run self ip s = (Returned mac, s')
    /\ trace s' = (trace s ++ tr)%list
    /\ forallb is_subprocess tr = true
    /\ assets s' = assets s
    /\ cmd_stdout s' = cmd_stdout s.
Proof.
  unfold _get_mac_address, try_except, bind.
  destruct (is_windows platform_system).
  - rewrite run_eq.
    destruct (subprocess_run _ _ (world s)) as [[r | e] w]; cbn.
    + destruct (re_search _ _ _ _); cbn; do 3 eexists; repeat split.
    + do 3 eexists; repeat split.
  - rewrite run_eq.
    destruct (subprocess_run _ _ (world s)) as [[r | e] w]; cbn.
    + destruct (re_search _ _ _ _); cbn.
      * do 3 eexists; repeat split.
      * rewrite run_eq; cbn.
        destruct (subprocess_run _ _ w) as [[r2 | e2] w2]; cbn.
        -- destruct (re_search _ _ _ _); cbn; do 3 eexists;
             (split; [reflexivity|]); cbn; rewrite <- app_assoc;
             repeat split.
        -- do 3 eexists; (split; [reflexivity|]); cbn; rewrite <- app_assoc;
             repeat split.
    + do 3 eexists; repeat split.
Qed.


Lemma sequential_from_block (ip : string) (tr rest : list event) :
  forallb is_subprocess tr = true ->
  sequential_from (Some ip) (tr ++ HostEnd ip :: rest) = sequential_from None rest.
Proof.
  induction tr as [| e tr IH]; cbn; intros H.
  - now rewrite String.eqb_refl.
  - destruct e; cbn in H; try discriminate. now apply IH.
Qed.

Lemma begun_subprocesses (tr : list event) :
  forallb is_subprocess tr = true -> begun tr = [].
Proof.
  induction tr as [| e tr IH]; cbn; intros H; [reflexivity|].
  destruct e; cbn in H; try discriminate. now apply IH.
Qed.

Lemma begun_app (a b : list event) : begun (a ++ b) = (begun a ++ begun b)%list.
Proof. unfold begun. now rewrite flat_map_app. Qed.

Lemma sequential_in_flight (tr : list event) :
  forall (open : option string) (best : nat),
    sequential_from open tr = true ->
    (in_flight (match open with Some _ => 1 | None => 0 end) best tr
     <= Nat.max best 1)%nat.
Proof.
  induction tr as [| e tr IH]; intros open best H; cbn.
  - lia.
  - destruct e, open; cbn in H; try discriminate.
    + specialize (IH (Some ip) (Nat.max best 1) H); cbn in IH. lia.
    + exact (IH (Some s) best H).
    + apply andb_true_iff in H as [_ H].
      exact (IH None best H).
Qed.


Lemma _scan_host_returns (self : NetworkScanner) (ip : string) (s : State World) :
  exists result s' tr,
    _scan_host platform_system subprocess_run self ip s = (Returned result, s')
    /\ trace s' = (trace s ++ HostBegin ip :: tr ++ [HostEnd ip])%list
    /\ forallb is_subprocess tr = true
    /\ assets s' = assets s
    /\ cmd_stdout s' = cmd_stdout s.
Proof.
  unfold _scan_host, bind at 1, emit, modify.
  unfold bind at 1. rewrite _ping_host_eq.
  set (o := fst (subprocess_run _ _ _)). set (w := snd (subprocess_run _ _ _)).
  cbn [world trace assets printed cmd_stdout].
  destruct (match o with Returned r => _ | Raised _ => false end).
  - unfold bind at 1. unfold bind at 1.
    match goal with
    | |- context [_get_mac_address _ _ self ip ?st] =>
        destruct (_get_mac_address_returns self ip st)
          as (mac & s1 & tr & E & Htr & Hsub & Has & Hout)
    end.
    rewrite E. cbn in Htr, Has, Hout |- *.
    eexists _, _, (_ :: tr). split; [reflexivity|]. cbn.
    rewrite Htr, Has, Hout, Hsub. rewrite <- !app_assoc. cbn.
    split; [reflexivity|]. cbn. auto.
  - unfold bind, ret. cbn. eexists _, _, [_]. split; [reflexivity|]. cbn.
    rewrite <- !app_assoc. cbn. split; [reflexivity|]. cbn. auto.
Qed.

Lemma scan_hosts_returns (self : NetworkScanner) (hosts : list ipaddress.Address) :
  forall (results : list ScanResult) (s : State World),
  exists out s' tr,
    scan_hosts platform_system subprocess_run self hosts results s
    = (Returned out, s')
    /\ trace s' = (trace s ++ tr)%list
    /\ strictly_sequential tr = true
    /\ begun tr = map ipaddress.str hosts
    /\ assets s' = assets s
    /\ cmd_stdout s' = cmd_stdout s.
Proof.
  induction hosts as [| host rest IH]; intros results s; cbn [scan_hosts].
  - exists results, s, []. cbn. rewrite app_nil_r. repeat split.
  - unfold bind.
    destruct (_scan_host_returns self (ipaddress.str host) s)
      as (r & s1 & tr1 & E & Htr1 & Hsub & Has & Hout).
    rewrite E.
    match goal with
    | |- context [scan_hosts _ _ self rest ?acc s1] =>
        destruct (IH acc s1) as (out & s2 & tr2 & E2 & Htr2 & Hseq & Hb & Has2 & Hout2)
    end.
    rewrite E2.
    exists out, s2, ((HostBegin (ipaddress.str host) :: tr1 ++ [HostEnd (ipaddress.str host)]) ++ tr2)%list.
    split; [reflexivity|]. repeat split.
    + rewrite Htr2, Htr1. now rewrite <- !app_assoc.
    + unfold strictly_sequential. cbn. rewrite <- app_assoc. cbn.
      now rewrite sequential_from_block.
    + rewrite begun_app. cbn. rewrite begun_app, (begun_subprocesses tr1 Hsub).
      cbn. now rewrite Hb.
    + congruence.
    + congruence.
Qed.


Lemma scan_malformed (self : NetworkScanner) (s : State World) (e : exn) :
  ipaddress.ip_network (subnet self) = Raised e ->
  scan platform_system subprocess_run list_capacity self s =
  (Returned [],
   mkState (world s) (trace s) (assets s)
           (printed s ++ ["Scan error: " ++ str_exn e]) (cmd_stdout s)).
Proof.
  intros H. unfold scan, try_except, bind, lift. now rewrite H.
Qed.

Lemma scan_valid (self : NetworkScanner) (s : State World) (n : ipaddress.Network) :
  ipaddress.ip_network (subnet self) = Returned n ->
  ipaddress.num_hosts n <= list_capacity ->
  exists out s' tr,
    scan platform_system subprocess_run list_capacity self s = (Returned out, s')
    /\ trace s' = (trace s ++ tr)%list
    /\ strictly_sequential tr = true
    /\ begun tr = map ipaddress.str (firstn 254 (ipaddress.hosts n))
    /\ assets s' = assets s
    /\ cmd_stdout s' = cmd_stdout s.
Proof.
  intros H Hfit. unfold scan, try_except, bind at 1, lift. rewrite H.
  unfold bind at 1, list_of. apply Z.leb_le in Hfit. rewrite Hfit.
  destruct (scan_hosts_returns self (firstn 254 (ipaddress.hosts n)) [] s)
    as (out & s' & tr & E & R).
  rewrite E. now exists out, s', tr.
Qed.

(** A block with more hosts than [list] has memory for: the error of
    [list] is taken by the handler of [scan] before any host is probed. *)
Lemma scan_too_large (self : NetworkScanner) (s : State World) (n : ipaddress.Network) :
  ipaddress.ip_network (subnet self) = Returned n ->
  list_capacity < ipaddress.num_hosts n ->
  scan platform_system subprocess_run list_capacity self s =
  (Returned [],
   mkState (world s) (trace s) (assets s)
           (printed s ++ ["Scan error: "]) (cmd_stdout s)).
Proof.
  intros H Hlarge. unfold scan, try_except, bind at 1, lift. rewrite H.
  unfold bind at 1, list_of. apply Z.leb_gt in Hlarge. now rewrite Hlarge.
Qed.

Lemma scan_returns (self : NetworkScanner) (s : State World) :
  exists out s' tr,
    scan platform_system subprocess_run list_capacity self s = (Returned out, s')
    /\ trace s' = (trace s ++ tr)%list
    /\ strictly_sequential tr = true
    /\ assets s' = assets s
    /\ cmd_stdout s' = cmd_stdout s
    /\ match ipaddress.ip_network (subnet self) with
       | Returned n =>
           if ipaddress.num_hosts n <=? list_capacity
           then begun tr = map ipaddress.str (firstn 254 (ipaddress.hosts n))
           else out = [] /\ tr = []
       | Raised _ => out = [] /\ tr = []
       end.
Proof.
  destruct (ipaddress.ip_network (subnet self)) as [n | e] eqn:H.
  - destruct (ipaddress.num_hosts n <=? list_capacity) eqn:Hfit.
    + apply Z.leb_le in Hfit.
      destruct (scan_valid self s n H Hfit)
        as (out & s' & tr & E & ? & ? & ? & ? & ?).
      exists out, s', tr. auto 10.
    + apply Z.leb_gt in Hfit. rewrite (scan_too_large self s n H Hfit).
      eexists _, _, []. cbn. rewrite app_nil_r. auto 10.
  - rewrite (scan_malformed self s e H).
    eexists _, _, []. cbn. rewrite app_nil_r. auto 10.
Qed.


(** A sub-process of [_get_mac_address] that raises: the function prints
    the error and returns [None]. *)
Lemma _get_mac_address_raised (self : NetworkScanner) (ip : string)
      (s : State World) :
  match subprocess_run (if is_windows platform_system then ["arp"; "-a"; ip]
                        else ["ip"; "neigh"; "show"; ip]) 5 (world s) with
  | (Raised e, w) =>
      _get_mac_address platform_system subprocess_run self ip s =
      (Returned None,
       mkState w
               (trace s ++ [Subprocess (if is_windows platform_system
                                        then ["arp"; "-a"; ip]
                                        else ["ip"; "neigh"; "show"; ip]) 5
                                       (Raised e)])
               (assets s)
               (printed s ++ ["Error getting MAC for " ++ ip ++ ": " ++ str_exn e])
               (cmd_stdout s))
  | (Returned result, w) =>
      if is_windows platform_system then True
      else
        match re_search "lladdr " is_lower_hex ":" (lower (stdout result)) with
        | Some _ => True
        | None =>
            match subprocess_run ["arp"; "-n"; ip] 5 w with
            | (Raised e, w') =>
                _get_mac_address platform_system subprocess_run self ip s =
                (Returned None,
                 mkState w'
                         (trace s ++ [Subprocess ["ip"; "neigh"; "show"; ip] 5
                                                 (Returned result);
                                      Subprocess ["arp"; "-n"; ip] 5 (Raised e)])
                         (assets s)
                         (printed s ++ ["Error getting MAC for " ++ ip ++ ": "
                                          ++ str_exn e])
                         (cmd_stdout s))
            | (Returned _, _) => True
            end
        end
  end.
Proof.
  unfold _get_mac_address, try_except, bind.
  destruct (is_windows platform_system).
  - rewrite run_eq.
    destruct (subprocess_run _ _ (world s)) as [[r | e] w]; cbn; [exact I | reflexivity].
  - rewrite run_eq.
    destruct (subprocess_run _ _ (world s)) as [[r | e] w]; cbn; [| reflexivity].
    destruct (re_search _ _ _ _); [exact I|].
    rewrite run_eq. cbn.
    destruct (subprocess_run _ _ w) as [[r2 | e2] w2]; cbn; [exact I|].
    now rewrite <- app_assoc.
Qed.

(** C10.  For every subnet text, every host address and every behaviour
    of the sub-processes: [scan] returns a list, and the empty list when
    parsing the subnet raises; [_ping_host] returns a truth value, [False]
    when its sub-process raises; [_get_mac_address] returns an optional
    address, [None] when one of its sub-processes raises. *)
Theorem scan_never_raises (self : NetworkScanner) (ip : string) (s : State World) :
  (exists results s',
      scan platform_system subprocess_run list_capacity self s = (Returned results, s'))
  /\ match ipaddress.ip_network (subnet self) with
     | Raised e =>
         scan platform_system subprocess_run list_capacity self s =
         (Returned [],
          mkState (world s) (trace s) (assets s)
                  (printed s ++ ["Scan error: " ++ str_exn e]) (cmd_stdout s))
     | Returned _ => True
     end
  /\ (exists alive s',
        _ping_host platform_system subprocess_run self ip s = (Returned alive, s'))
  /\ match subprocess_run (ping_argv platform_system self ip) (timeout self + 2)
                          (world s) with
     | (Raised e, w) =>
         _ping_host platform_system subprocess_run self ip s =
         (Returned false,
          mkState w
                  (trace s ++ [Subprocess (ping_argv platform_system self ip)
                                          (timeout self + 2) (Raised e)])
                  (assets s) (printed s) (cmd_stdout s))
     | (Returned _, _) => True
     end
  /\ (exists mac s',
        _get_mac_address platform_system subprocess_run self ip s
        = (Returned mac, s'))
  /\ match subprocess_run (if is_windows platform_system then ["arp"; "-a"; ip]
                           else ["ip"; "neigh"; "show"; ip]) 5 (world s) with
     | (Raised e, w) =>
         _get_mac_address platform_system subprocess_run self ip s =
         (Returned None,
          mkState w
                  (trace s ++ [Subprocess (if is_windows platform_system
                                           then ["arp"; "-a"; ip]
                                           else ["ip"; "neigh"; "show"; ip]) 5
                                          (Raised e)])
                  (assets s)
                  (printed s ++ ["Error getting MAC for " ++ ip ++ ": "
                                   ++ str_exn e])
                  (cmd_stdout s))
     | (Returned result, w) =>
         if is_windows platform_system then True
         else
           match re_search "lladdr " is_lower_hex ":" (lower (stdout result)) with
           | Some _ => True
           | None =>
               match subprocess_run ["arp"; "-n"; ip] 5 w with
               | (Raised e, w') =>
                   _get_mac_address platform_system subprocess_run self ip s =
                   (Returned None,
                    mkState w'
                            (trace s ++ [Subprocess ["ip"; "neigh"; "show"; ip] 5
                                                    (Returned result);
                                         Subprocess ["arp"; "-n"; ip] 5
                                                    (Raised e)])
                            (assets s)
                            (printed s ++ ["Error getting MAC for " ++ ip ++ ": "
                                             ++ str_exn e])
                            (cmd_stdout s))
               | (Returned _, _) => True
               end
           end
     end.
Proof.
  split.
  { destruct (scan_returns self s) as (out & s' & _ & E & _). now exists out, s'. }
  split.
  { destruct (ipaddress.ip_network (subnet self)) eqn:H; [exact I|].
    now apply scan_malformed. }
  split.
  { rewrite _ping_host_eq. now eexists _, _. }
  split.
  { rewrite _ping_host_eq.
    now destruct (subprocess_run _ _ (world s)) as [[r | e] w]. }
  split.
  { destruct (_get_mac_address_returns self ip s) as (mac & s' & _ & E & _).
    now exists mac, s'. }
  apply _get_mac_address_raised.
Qed.

(** C2, as the code has it.  A subnet text that [ip_network] rejects:
    [scan] prints the error and returns the empty list; no sub-process is
    run and the registry is not read.  So [scan_and_update_assets] returns
    a summary of zeros, and the [scan_network] command writes its closing
    line with zeros; neither raises. *)
Theorem malformed_subnet_scans_nothing
        (subnet : string) (timeout : Z) (s : State World) (e : exn) :
  ipaddress.ip_network subnet = Raised e ->
  let s' :=
    mkState (world s) (trace s) (assets s)
            (printed s ++ ["Scan error: " ++ str_exn e]) (cmd_stdout s) in
  scan platform_system subprocess_run list_capacity (mkScanner subnet timeout) s
  = (Returned [], s')
  /\ scan_and_update_assets platform_system subprocess_run list_capacity timezone_now
                            generate_asset_tag subnet s
     = (Returned (mkSummary 0 0 0 []), s')
  /\ scan_network.handle platform_system subprocess_run list_capacity timezone_now
                         generate_asset_tag
                         subnet timeout s
     = (Returned tt,
        mkState (world s) (trace s) (assets s)
                (printed s ++ ["Scan error: " ++ str_exn e])
                (cmd_stdout s
                   ++ [(NOTICE, "Initiating network scan on " ++ subnet ++ "...");
                       (PLAIN, "Timeout: " ++ str_int timeout ++ "s per host");
                       (PLAIN, scan_network.rule);
                       (PLAIN, scan_network.rule);
                       (SUCCESS,
                        "Scan complete: 0 hosts up, 0 assets matched, 0 missing found")])).
Proof.
  intros H s'. split; [| split].
  - now apply scan_malformed.
  - unfold scan_and_update_assets, bind.
    now rewrite (scan_malformed (mkScanner subnet 1) s e H).
  - unfold scan_network.handle. unfold bind at 1. rewrite stdout_write_eq.
    unfold bind at 1. rewrite stdout_write_eq.
    unfold bind at 1. rewrite stdout_write_eq.
    unfold bind at 1.
    rewrite (scan_malformed (mkScanner subnet timeout) _ e H).
    unfold bind, ret, stdout_write, modify. cbn [scan_network.handle_results].
    unfold ret. cbn [world trace assets printed cmd_stdout].
    rewrite <- !app_assoc. reflexivity.
Qed.

(** C9, as the code has it.  [scan] probes one host at a time: in the
    trace it adds, every probe ends before the next begins and every
    sub-process runs inside a probe, so that no two probes are ever in
    progress together; the probes follow the order of [hosts] (there is
    none when the list of the hosts cannot be built).  There is no worker
    pool. *)
Theorem scan_probes_one_host_at_a_time (self : NetworkScanner) (s : State World) :
  exists results s' tr,
    scan platform_system subprocess_run list_capacity self s = (Returned results, s')
    /\ trace s' = (trace s ++ tr)%list
    /\ strictly_sequential tr = true
    /\ (max_in_flight tr <= 1)%nat
    /\ match ipaddress.ip_network (subnet self) with
       | Returned n =>
           if ipaddress.num_hosts n <=? list_capacity
           then begun tr = map ipaddress.str (firstn 254 (ipaddress.hosts n))
           else tr = []
       | Raised _ => tr = []
       end.
Proof.
  destruct (scan_returns self s) as (out & s' & tr & E & Ht & Hs & _ & _ & H).
  exists out, s', tr. repeat split; try assumption.
  - exact (sequential_in_flight tr None 0%nat Hs).
  - destruct (ipaddress.ip_network (subnet self)) as [n | e]; [| apply H].
    destruct (ipaddress.num_hosts n <=? list_capacity); [exact H | apply H].
Qed.

(** C7, as the code has it.  For a subnet text that [ip_network] accepts
    as the network [n], and when [list] has memory for every address of
    [n.hosts()], [scan] probes, in order, the first 254 of these addresses,
    each once.  On an IPv4 block of prefix length at most 30 these hosts
    are the addresses of the block without the network and the broadcast
    address; on a block with one host bit they are both addresses of the
    block, on a block with none its single address, and on a longer IPv6
    block every address but the first. *)
Theorem scan_probes_the_first_254_hosts
        (self : NetworkScanner) (s : State World) (n : ipaddress.Network) :
  ipaddress.ip_network (subnet self) = Returned n ->
  ipaddress.num_hosts n <= list_capacity ->
  (exists results s' tr,
      scan platform_system subprocess_run list_capacity self s = (Returned results, s')
      /\ trace s' = (trace s ++ tr)%list
      /\ begun tr = map ipaddress.str (firstn 254 (ipaddress.hosts n)))
  /\ (ipaddress.version n = ipaddress.V4 -> ipaddress._prefixlen n <= 30 ->
      map ipaddress._ip (ipaddress.hosts n) = usable_host_addresses n)
  /\ (ipaddress._prefixlen n
      = ipaddress._max_prefixlen (ipaddress.version n) - 1 ->
      map ipaddress._ip (ipaddress.hosts n) = block_addresses n)
  /\ (ipaddress._prefixlen n = ipaddress._max_prefixlen (ipaddress.version n) ->
      ipaddress.hosts n = [ipaddress.network_address n])
  /\ (ipaddress.version n = ipaddress.V6 -> ipaddress._prefixlen n <= 126 ->
      map ipaddress._ip (ipaddress.hosts n) = tl (block_addresses n)).
Proof.
  intros H Hfit. pose proof (ip_network_well_formed _ _ H) as Hwf.
  split; [| split; [| split; [| split]]].
  - destruct (scan_valid self s n H Hfit)
      as (out & s' & tr & E & Ht & _ & Hb & _).
    now exists out, s', tr.
  - now apply hosts_v4_usable.
  - now apply hosts_point_to_point.
  - apply hosts_single.
  - now apply hosts_v6_all_but_first.
Qed.

End ScannerFacts.

(* ================================================================== *)
(** * Facts about the overdue notifier *)
(* ================================================================== *)

Section NotifierFacts.
Import Py tasks notifier.

Context {World : Type}.
Variable timezone_now : World -> Z * World.
Variable send_mail :
  string -> string -> string -> list string -> World -> Outcome Z * World.
Variable self_retry : exn -> World -> exn * World.
Variable EMAIL_HOST : string.
Variable DEFAULT_FROM_EMAIL : string.
Variable get_full_name : User -> string.
Variable str_datetime : Z -> string.

(** The list [notify] has built when it tests [recipients] *)
Lemma recipients_of_eq (a : AssetAssignment) :
  (if truthy (email (assigned_to a))
   then ((if truthy (email (assigned_by a))
          then [] ++ [email (assigned_by a)] else [])
           ++ [email (assigned_to a)])%list
   else if truthy (email (assigned_by a))
        then ([] ++ [email (assigned_by a)])%list else [])
  = recipients_of a.
Proof.
  unfold recipients_of.
  destruct (truthy (email (assigned_to a))), (truthy (email (assigned_by a)));
    cbn; now rewrite ?app_nil_r.
Qed.

(** The loop body returns, whatever the mail transport and the task queue
    do; it has then stored the two notifications and counted them. *)
Lemma process_assignment_returns (a : AssetAssignment) (s : State World) :
  exists s',
    process_assignment send_mail self_retry EMAIL_HOST DEFAULT_FROM_EMAIL
                       get_full_name str_datetime a s
    = (Returned tt, s')
    /\ notifications s'
       = (notifications s
            ++ notifications_for (message_of get_full_name str_datetime a) a)%list
    /\ notifications_created s' = notifications_created s + 2
    /\ assignments s' = assignments s
    /\ email_notifications s <= email_notifications s' <= email_notifications s + 1.
Proof.
  unfold process_assignment, notify, try_except, try_except_cls.
  unfold bind, create_notification, incr_notifications_created, modify, ret,
    when, gets, create_audit_log, instance_truthy.
  cbn [world assignments notifications audit_log notifications_created
       email_notifications].
  destruct (mail_configured EMAIL_HOST _).
  - unfold try_except, bind, do_send_mail, incr_email_notifications, modify.
    cbn [world assignments notifications audit_log notifications_created
         email_notifications].
    destruct (send_mail _ _ _ _ _) as [[k | exc] w].
    + eexists. split; [reflexivity|]. cbn. rewrite <- app_assoc.
      repeat split; try reflexivity; lia.
    + unfold raise_retry, raise. cbn.
      destruct (self_retry exc w) as [e w'].
      destruct (isinstance e MaxRetriesExceededError);
        (eexists; split; [reflexivity|]); cbn; rewrite <- app_assoc;
        repeat split; try reflexivity; lia.
  - eexists. split; [reflexivity|]. cbn. rewrite <- app_assoc.
    repeat split; try reflexivity; lia.
Qed.


(** The loop returns, having stored two notifications per assignment. *)
Lemma for_each_process_returns (l : list AssetAssignment) :
  forall s : State World,
  exists s',
    for_each l (process_assignment send_mail self_retry EMAIL_HOST
                                   DEFAULT_FROM_EMAIL get_full_name str_datetime) s
    = (Returned tt, s')
    /\ notifications s'
       = (notifications s
            ++ flat_map (fun a => notifications_for
                                    (message_of get_full_name str_datetime a) a) l)%list
    /\ notifications_created s'
       = notifications_created s + 2 * Z.of_nat (List.length l)
    /\ assignments s' = assignments s
    /\ email_notifications s <= email_notifications s'
       <= email_notifications s + Z.of_nat (List.length l).
Proof.
  induction l as [| a l IH]; intros s.
  - exists s. cbn. rewrite app_nil_r. repeat split; lia.
  - cbn [for_each]. unfold bind.
    destruct (process_assignment_returns a s) as (s1 & E1 & Hn1 & Hc1 & Ha1 & He1).
    rewrite E1. destruct (IH s1) as (s2 & E2 & Hn2 & Hc2 & Ha2 & He2).
    exists s2. split; [exact E2|]. cbn [flat_map List.length].
    rewrite Hn2, Hn1, Hc2, Hc1, Ha2, Ha1, <- app_assoc.
    repeat split; lia.
Qed.

Lemma tasks_now_eq (s : State World) :
  now timezone_now s =
  (Returned (fst (timezone_now (world s))),
   mkState (snd (timezone_now (world s))) (assignments s) (notifications s)
           (audit_log s) (notifications_created s) (email_notifications s)).
Proof. unfold now. destruct (timezone_now (world s)); reflexivity. Qed.

(** The task returns, in every environment. *)
Lemma check_overdue_assignments_returns (s : State World) :
  let overdue :=
    filter (is_overdue (fst (timezone_now (world s)))) (assignments s) in
  exists r s',
    check_overdue_assignments timezone_now send_mail self_retry EMAIL_HOST
                              DEFAULT_FROM_EMAIL get_full_name str_datetime s
    = (Returned r, s')
    /\ overdue_count r = Z.of_nat (List.length overdue)
    /\ r_notifications_created r = 2 * Z.of_nat (List.length overdue)
    /\ notifications s'
       = (notifications s
            ++ flat_map
                 (fun a =>
                    [mkNotification (assigned_by a)
                                    (message_of get_full_name str_datetime a)
                                    (link_of a) ALERT;
                     mkNotification (assigned_to a)
                                    (message_of get_full_name str_datetime a)
                                    (link_of a) WARNING])
                 overdue)%list.
Proof.
  intros overdue. unfold check_overdue_assignments.
  unfold bind at 1. rewrite tasks_now_eq.
  unfold bind at 1, gets at 1. cbn [assignments].
  unfold bind at 1, modify at 1.
  cbn [world assignments notifications audit_log].
  unfold bind at 1.
  match goal with
  | |- context [for_each ?l _ ?s0] =>
      destruct (for_each_process_returns l s0) as (s1 & E & Hn & Hc & _)
  end.
  fold overdue in E, Hn, Hc |- *. rewrite E.
  eexists _, s1. split; [reflexivity|]. cbn in Hn, Hc |- *.
  repeat split; [lia | exact Hn].
Qed.

(** The query of the task selects the open assignments that are past
    due. *)
Lemma is_overdue_open_and_past_due (t : Z) (rows : list AssetAssignment) :
  filter (is_overdue t) rows = filter (open_and_past_due t) rows.
Proof.
  apply filter_ext. intros a. unfold is_overdue, open_and_past_due.
  now destruct (date_due a), (date_returned a).
Qed.

(** C6.  One run of the overdue check returns.  With [overdue] the
    assignments that have no return time and a due time before the time
    of the run, in the order of the table, the run reports their number as
    [overdue_count], and the notifications it has stored are, for each of
    them in turn, one of level [ALERT] for the assigning user and one of
    level [WARNING] for the holding user, whether or not either has an
    email address and whatever the mail transport does;
    [notifications_created] is twice their number. *)
Theorem overdue_check_notifies_both_custodians (s : State World) :
  let overdue :=
    filter (open_and_past_due (fst (timezone_now (world s)))) (assignments s) in
  exists r s',
    check_overdue_assignments timezone_now send_mail self_retry EMAIL_HOST
                              DEFAULT_FROM_EMAIL get_full_name str_datetime s
    = (Returned r, s')
    /\ overdue_count r = Z.of_nat (List.length overdue)
    /\ r_notifications_created r = 2 * Z.of_nat (List.length overdue)
    /\ notifications s'
       = (notifications s
            ++ flat_map
                 (fun a =>
                    [mkNotification (assigned_by a)
                                    (message_of get_full_name str_datetime a)
                                    (link_of a) ALERT;
                     mkNotification (assigned_to a)
                                    (message_of get_full_name str_datetime a)
                                    (link_of a) WARNING])
                 overdue)%list.
Proof.
  intros overdue. unfold overdue.
  rewrite <- is_overdue_open_and_past_due.
  exact (check_overdue_assignments_returns s).
Qed.

(** X1.  When [self.retry] raises anything else (the [Retry] of a retry that
    was queued, or the original error), the handler of the loop body takes
    it: one audit record of an unexpected error, and the loop goes on. *)
Lemma other_retry_outcome_is_audited_as_unexpected
      (a : AssetAssignment) (s : State World) (exc e : exn) (w1 w2 : World) :
  mail_configured EMAIL_HOST (recipients_of a) = true ->
  send_mail (subject_of a) (message_of get_full_name str_datetime a)
            DEFAULT_FROM_EMAIL (recipients_of a) (world s)
  = (Raised exc, w1) ->
  self_retry exc w1 = (e, w2) ->
  isinstance e MaxRetriesExceededError = false ->
  exists s',
    process_assignment send_mail self_retry EMAIL_HOST DEFAULT_FROM_EMAIL
                       get_full_name str_datetime a s
    = (Returned tt, s')
    /\ email_notifications s' = email_notifications s
    /\ audit_log s'
       = (audit_log s
            ++ [audit_entry a ("Unexpected error in overdue task: "
                                 ++ str_exn e)])%list.
Proof.
  intros Hconf Hsend Hretry Hmax.
  unfold process_assignment, notify, try_except, try_except_cls.
  unfold bind, create_notification, incr_notifications_created, modify, ret,
    when, gets, create_audit_log, instance_truthy.
  cbn [world assignments notifications audit_log notifications_created
       email_notifications].
  rewrite !recipients_of_eq, Hconf.
  unfold try_except, bind, do_send_mail.
  cbn [world assignments notifications audit_log notifications_created
       email_notifications].
  rewrite Hsend. unfold raise_retry, raise.
  cbn [world assignments notifications audit_log notifications_created
       email_notifications].
  rewrite Hretry, Hmax.
  eexists. split; [reflexivity|]. cbn [audit_log email_notifications].
  split; reflexivity.
Qed.

End NotifierFacts.

(* ================================================================== *)
(** * Facts about the notifier under Celery's [retry] *)
(* ================================================================== *)

Section RetryFacts.
Import Py tasks notifier.

Context {World : Type}.
Variable timezone_now : World -> Z * World.
Variable send_mail :
  string -> string -> string -> list string -> World -> Outcome Z * World.
Variable apply_async : World -> Outcome unit * World.
Variable repr_exn : exn -> string.
Variable EMAIL_HOST : string.
Variable DEFAULT_FROM_EMAIL : string.
Variable get_full_name : User -> string.
Variable str_datetime : Z -> string.

(** What [self.retry(exc=exc)] raises is [exc] itself, a [Retry] or a
    [Reject]: it is a [MaxRetriesExceededError] only if [exc] is one. *)
Lemma retry_raises_no_MaxRetriesExceededError
      (request : celery.Request) (exc : exn) (w : World) :
  isinstance exc MaxRetriesExceededError = false ->
  isinstance (fst (celery.retry apply_async repr_exn max_retries
                                default_retry_delay request exc w))
             MaxRetriesExceededError = false.
Proof.
  intros H. unfold celery.retry.
  destruct (celery.called_directly request); [exact H|].
  destruct (max_retries <? celery.retries request + 1); [exact H|].
  destruct (celery.is_eager request); [reflexivity|].
  now destruct (apply_async w) as [[[] | e] w'].
Qed.

(** C1, as the code has it.  An overdue assignment with a recipient and a
    configured mail host, whose [send_mail] raises [exc] (an error of the
    mail transport, not a [MaxRetriesExceededError]), on any run of the
    task, the last retry included: [self.retry(exc=exc)] raises no
    [MaxRetriesExceededError], so the handler that would record the used-up
    retries is passed over and the handler of the loop body takes the
    exception.  The loop body returns; it has left [email_notifications] as
    it was and appended one audit record, of an unexpected error, and none
    that says that the retries were used up.  With the retries used up the
    record carries the text of [exc].  The loop goes on with the
    assignments that follow, and the task returns its result. *)
Theorem failed_mail_is_audited_as_an_unexpected_error
        (request : celery.Request) (a : AssetAssignment) (s : State World)
        (exc : exn) (w1 : World) :
  mail_configured EMAIL_HOST (recipients_of a) = true ->
  send_mail (subject_of a) (message_of get_full_name str_datetime a)
            DEFAULT_FROM_EMAIL (recipients_of a) (world s)
  = (Raised exc, w1) ->
  isinstance exc MaxRetriesExceededError = false ->
  let task_retry :=
    celery.retry apply_async repr_exn max_retries default_retry_delay request in
  exists s',
    process_assignment send_mail task_retry EMAIL_HOST DEFAULT_FROM_EMAIL
                       get_full_name str_datetime a s
    = (Returned tt, s')
    /\ email_notifications s' = email_notifications s
    /\ audit_log s'
       = (audit_log s
            ++ [audit_entry a ("Unexpected error in overdue task: "
                                 ++ str_exn (fst (task_retry exc w1)))])%list
    /\ filter describes_exhausted_retries
              (skipn (List.length (audit_log s)) (audit_log s')) = []
    /\ (celery.called_directly request = false ->
        max_retries <= celery.retries request ->
        task_retry exc w1 = (exc, w1))
    /\ (forall rest : list AssetAssignment,
          for_each (a :: rest)
                   (process_assignment send_mail task_retry EMAIL_HOST
                                       DEFAULT_FROM_EMAIL get_full_name
                                       str_datetime) s
          = for_each rest
                     (process_assignment send_mail task_retry EMAIL_HOST
                                         DEFAULT_FROM_EMAIL get_full_name
                                         str_datetime) s')
    /\ (forall s0 : State World,
          exists r s1,
            check_overdue_assignments timezone_now send_mail task_retry
                                      EMAIL_HOST DEFAULT_FROM_EMAIL
                                      get_full_name str_datetime s0
            = (Returned r, s1)).
Proof.
  intros Hconf Hsend Hexc task_retry.
  pose proof (retry_raises_no_MaxRetriesExceededError request exc w1 Hexc)
    as Hmax.
  fold task_retry in Hmax.
  assert (E : exists s',
    process_assignment send_mail task_retry EMAIL_HOST DEFAULT_FROM_EMAIL
                       get_full_name str_datetime a s
    = (Returned tt, s')
    /\ email_notifications s' = email_notifications s
    /\ audit_log s'
       = (audit_log s
            ++ [audit_entry a ("Unexpected error in overdue task: "
                                 ++ str_exn (fst (task_retry exc w1)))])%list).
  { unfold process_assignment, notify, try_except, try_except_cls.
    unfold bind, create_notification, incr_notifications_created, modify, ret,
      when, gets, create_audit_log, instance_truthy.
    cbn [world assignments notifications audit_log notifications_created
         email_notifications].
    rewrite !recipients_of_eq, Hconf.
    unfold try_except, bind, do_send_mail.
    cbn [world assignments notifications audit_log notifications_created
         email_notifications].
    rewrite Hsend. unfold raise_retry, raise.
    cbn [world assignments notifications audit_log notifications_created
         email_notifications].
    destruct (task_retry exc w1) as [e w2]. cbn [fst] in Hmax |- *.
    rewrite Hmax.
    eexists. split; [reflexivity|]. cbn [audit_log email_notifications].
    split; reflexivity. }
  destruct E as (s' & E & He & Ha). exists s'.
  split; [exact E|]. split; [exact He|]. split; [exact Ha|]. repeat split.
  - rewrite Ha, skipn_app, Nat.sub_diag, skipn_all. reflexivity.
  - intros Hdirect Hlast. unfold task_retry, celery.retry. rewrite Hdirect.
    now replace (max_retries <? celery.retries request + 1) with true
      by (symmetry; apply Z.ltb_lt; lia).
  - intros rest. cbn [for_each]. unfold bind. now rewrite E.
  - intros s0.
    destruct (check_overdue_assignments_returns
                timezone_now send_mail task_retry EMAIL_HOST
                DEFAULT_FROM_EMAIL get_full_name str_datetime s0)
      as (r & s1 & H & _).
    now exists r, s1.
Qed.

End RetryFacts.

(* ================================================================== *)
(** * The simulated site: instances and counterexamples *)
(* ================================================================== *)

Section SiteFacts.
Import Py models scanner obs.

Lemma site_registry_ok : registry_ok (assets site.initial).
Proof.
  split; cbn.
  - repeat constructor; cbn; intuition discriminate.
  - repeat constructor.
Defined.

(** C2, to the contrary: scanning ["not-a-subnet"] at the site returns the
    empty list, and [scan_and_update_assets] a summary of zeros; no
    exception reaches the caller. *)
Lemma not_a_subnet_is_not_an_error :
  fst (scan site.platform_system site.subprocess_run site.list_capacity
            (mkScanner "not-a-subnet" 1) site.initial)
  = Returned []
  /\ fst (scan_and_update_assets site.platform_system site.subprocess_run site.list_capacity
                                 site.timezone_now site.generate_asset_tag "not-a-subnet" site.initial)
     = Returned (mkSummary 0 0 0 [])
  /\ forall e : exn,
       fst (scan_and_update_assets site.platform_system site.subprocess_run site.list_capacity
                                 site.timezone_now site.generate_asset_tag "not-a-subnet" site.initial)
       <> Raised e.
Proof.
  repeat split; try reflexivity. intros e. vm_compute. discriminate.
Qed.

Lemma malformed_subnet_scans_nothing_at_site :
  ipaddress.ip_network "not-a-subnet" = Raised site.not_a_subnet
  /\ (let s' :=
        mkState (world site.initial) (trace site.initial) (assets site.initial)
                (printed site.initial
                   ++ ["Scan error: " ++ str_exn site.not_a_subnet])
                (cmd_stdout site.initial) in
      scan site.platform_system site.subprocess_run site.list_capacity
           (mkScanner "not-a-subnet" 1) site.initial
      = (Returned [], s')
      /\ scan_and_update_assets site.platform_system site.subprocess_run site.list_capacity
                                 site.timezone_now site.generate_asset_tag "not-a-subnet" site.initial
         = (Returned (mkSummary 0 0 0 []), s')
      /\ scan_network.handle site.platform_system site.subprocess_run site.list_capacity
                             site.timezone_now site.generate_asset_tag "not-a-subnet" 1 site.initial
         = (Returned tt,
            mkState (world site.initial) (trace site.initial)
                    (assets site.initial)
                    (printed site.initial
                       ++ ["Scan error: " ++ str_exn site.not_a_subnet])
                    (cmd_stdout site.initial
                       ++ [(NOTICE,
                            "Initiating network scan on " ++ "not-a-subnet"
                              ++ "...");
                           (PLAIN, "Timeout: " ++ str_int 1 ++ "s per host");
                           (PLAIN, scan_network.rule);
                           (PLAIN, scan_network.rule);
                           (SUCCESS,
                            "Scan complete: 0 hosts up, 0 assets matched, 0 missing found")]))).
Proof.
  split; [reflexivity|].
  exact (malformed_subnet_scans_nothing
           site.platform_system site.subprocess_run site.list_capacity site.timezone_now
           site.generate_asset_tag
           "not-a-subnet" 1 site.initial site.not_a_subnet eq_refl).
Defined.

(** C7, to the contrary: on 192.168.1.0/31 the scan probes 192.168.1.0
    and 192.168.1.1, the network and the broadcast address of the block,
    which has no usable host in the words of the specification; and on
    fd00::/64, whose hosts are more than the scanning host has memory for,
    it probes no address at all. *)
Lemma scan_differs_on_slash31_and_on_large_blocks :
  ipaddress.ip_network "fd00::/64" = Returned site.unique_local
  /\ ipaddress.num_hosts site.unique_local = 2 ^ 64 - 1
  /\ scan site.platform_system site.subprocess_run site.list_capacity
          (mkScanner "fd00::/64" 1) site.initial
     = (Returned [],
        mkState 100 [] site.registry ["Scan error: "%string] [])
  /\ ipaddress.ip_network "192.168.1.0/31" = Returned site.point_to_point
  /\ begun (trace (snd (scan site.platform_system site.subprocess_run site.list_capacity
                             (mkScanner "192.168.1.0/31" 1) site.initial)))
     = ["192.168.1.0"; "192.168.1.1"]
  /\ usable_host_addresses site.point_to_point = []
  /\ ipaddress.str (ipaddress.network_address site.point_to_point)
     = "192.168.1.0"
  /\ ipaddress.str (ipaddress._address_class site.point_to_point
                      (ipaddress.broadcast_address site.point_to_point))
     = "192.168.1.1".
Proof. repeat split; reflexivity. Qed.

Lemma scan_probes_the_first_254_hosts_at_site :
  ipaddress.ip_network "192.168.1.0/30" = Returned site.lan
  /\ ipaddress.num_hosts site.lan <= site.list_capacity
  /\ ((exists results s' tr,
          scan site.platform_system site.subprocess_run site.list_capacity
               (mkScanner "192.168.1.0/30" 1) site.initial
          = (Returned results, s')
          /\ trace s' = (trace site.initial ++ tr)%list
          /\ begun tr = map ipaddress.str (firstn 254 (ipaddress.hosts site.lan)))
      /\ (ipaddress.version site.lan = ipaddress.V4 ->
          ipaddress._prefixlen site.lan <= 30 ->
          map ipaddress._ip (ipaddress.hosts site.lan)
          = usable_host_addresses site.lan)
      /\ (ipaddress._prefixlen site.lan
          = ipaddress._max_prefixlen (ipaddress.version site.lan) - 1 ->
          map ipaddress._ip (ipaddress.hosts site.lan) = block_addresses site.lan)
      /\ (ipaddress._prefixlen site.lan
          = ipaddress._max_prefixlen (ipaddress.version site.lan) ->
          ipaddress.hosts site.lan = [ipaddress.network_address site.lan])
      /\ (ipaddress.version site.lan = ipaddress.V6 ->
          ipaddress._prefixlen site.lan <= 126 ->
          map ipaddress._ip (ipaddress.hosts site.lan)
          = tl (block_addresses site.lan))).
Proof.
  split; [reflexivity|].
  split;
    [exact (Zle_bool_imp_le (ipaddress.num_hosts site.lan) site.list_capacity
                            eq_refl)|].
  exact (scan_probes_the_first_254_hosts
           site.platform_system site.subprocess_run site.list_capacity
           (mkScanner "192.168.1.0/30" 1) site.initial site.lan eq_refl
           (Zle_bool_imp_le (ipaddress.num_hosts site.lan) site.list_capacity
                            eq_refl)).
Defined.

(** C9, to the contrary: scanning 192.168.1.0/30 at the site, where both
    hosts answer, runs the two probes one after the other; at no time are
    two probes in progress. *)
Lemma slash30_scan_runs_one_probe_at_a_time :
  trace (snd (scan site.platform_system site.subprocess_run site.list_capacity
                   (mkScanner "192.168.1.0/30" 1) site.initial))
  = [HostBegin "192.168.1.1";
     Subprocess ["ping"; "-c"; "1"; "-W"; "1"; "192.168.1.1"] 3
                (Returned (mkCompleted 0 ""));
     Subprocess ["ip"; "neigh"; "show"; "192.168.1.1"] 5
                (Returned
                   (mkCompleted 0
                      "192.168.1.1 dev eth0 lladdr 00:1a:2b:3c:4d:5e REACHABLE"));
     HostEnd "192.168.1.1";
     HostBegin "192.168.1.2";
     Subprocess ["ping"; "-c"; "1"; "-W"; "1"; "192.168.1.2"] 3
                (Returned (mkCompleted 0 ""));
     Subprocess ["ip"; "neigh"; "show"; "192.168.1.2"] 5
                (Returned
                   (mkCompleted 0
                      "192.168.1.2 dev eth0 lladdr de:ad:be:ef:00:01 REACHABLE"));
     HostEnd "192.168.1.2"]
  /\ max_in_flight
       (trace (snd (scan site.platform_system site.subprocess_run site.list_capacity
                         (mkScanner "192.168.1.0/30" 1) site.initial)))
     = 1%nat
  /\ strictly_sequential
       (trace (snd (scan site.platform_system site.subprocess_run site.list_capacity
                         (mkScanner "192.168.1.0/30" 1) site.initial)))
     = true.
Proof. repeat split; reflexivity. Qed.

(** C5, to the contrary: a pass over a host with an unknown hardware
    address and a pass over a host without one return summaries with the
    same three counts, so no count of the summary tells the unmatched host;
    and the command, having seen two unknown devices, closes with the hosts
    up, the matches and the recoveries only. *)
Lemma summary_does_not_count_unmatched_hosts :
  unmatched (assets site.initial) site.seen_stranger = true
  /\ unmatched (assets site.initial) site.seen_without_mac = false
  /\ fst (reconcile site.timezone_now site.generate_asset_tag [site.seen_stranger] site.initial)
     = Returned (mkSummary 1 0 0 [site.seen_stranger])
  /\ fst (reconcile site.timezone_now site.generate_asset_tag [site.seen_without_mac] site.initial)
     = Returned (mkSummary 1 0 0 [site.seen_without_mac])
  /\ cmd_stdout
       (snd (scan_network.handle site.platform_system site.subprocess_run site.list_capacity
                             site.timezone_now site.generate_asset_tag "192.168.1.0/30" 1
                                 site.empty_registry))
     = [(NOTICE, "Initiating network scan on 192.168.1.0/30...");
        (PLAIN, "Timeout: 1s per host");
        (PLAIN, scan_network.rule);
        (WARNING, "[UNKNOWN] Device at 192.168.1.1 - 00:1A:2B:3C:4D:5E");
        (WARNING, "[UNKNOWN] Device at 192.168.1.2 - DE:AD:BE:EF:00:01");
        (PLAIN, scan_network.rule);
        (SUCCESS, "Scan complete: 2 hosts up, 0 assets matched, 0 missing found")].
Proof. repeat split; reflexivity. Qed.

Lemma unknown_device_changes_no_asset_at_site :
  r_mac_address site.seen_stranger = Some "02:00:00:00:00:07"
  /\ truthy "02:00:00:00:00:07" = true
  /\ (forall a, In a (assets site.initial) ->
                iexact (mac_address a) "02:00:00:00:00:07" = false)
  /\ (update_asset site.timezone_now site.generate_asset_tag site.seen_stranger 0 0 site.initial
      = (Returned (site.seen_stranger, 0, 0), site.initial)
      /\ reconcile site.timezone_now site.generate_asset_tag [site.seen_stranger] site.initial
         = (Returned (mkSummary 1 0 0 [site.seen_stranger]), site.initial)
      /\ scan_network.handle_result site.timezone_now site.generate_asset_tag site.seen_stranger
                                    (scan_network.mkCounters 0 0 0) site.initial
         = (Returned (scan_network.mkCounters (0 + 1) 0 0),
            mkState (world site.initial) (trace site.initial)
                    (assets site.initial) (printed site.initial)
                    (cmd_stdout site.initial
                       ++ [(WARNING,
                            "[UNKNOWN] Device at "
                              ++ r_ip_address site.seen_stranger ++ " - "
                              ++ "02:00:00:00:00:07")]))).
Proof.
  assert (H : forall a, In a (assets site.initial) ->
                        iexact (mac_address a) "02:00:00:00:00:07" = false).
  { intros a [<- | [<- | [<- | []]]]; reflexivity. }
  split; [reflexivity|]. split; [reflexivity|]. split; [exact H|].
  exact (unknown_device_changes_no_asset
           site.timezone_now site.generate_asset_tag site.seen_stranger "02:00:00:00:00:07"
           site.initial 0 0 (scan_network.mkCounters 0 0 0)
           eq_refl eq_refl H).
Defined.

Lemma missing_asset_is_recovered_once_at_site :
  r_mac_address site.seen_laptop = Some "00:1A:2B:3C:4D:5E"
  /\ truthy "00:1A:2B:3C:4D:5E" = true
  /\ objects_get (assets site.initial) "00:1A:2B:3C:4D:5E" = Returned site.laptop
  /\ status site.laptop = MISSING
  /\ registry_ok (assets site.initial)
  /\ (let found :=
        mkAsset 1 "UTV-LAP-001" (Some "00:1A:2B:3C:4D:5E") (Some "192.168.1.1")
                AVAILABLE "Detected on network: 192.168.1.1" (Some 100) in
      let found_by_command :=
        mkAsset 1 "UTV-LAP-001" (Some "00:1A:2B:3C:4D:5E") (Some "192.168.1.1")
                AVAILABLE "Auto-detected: 192.168.1.1" (Some 100) in
      (exists result' s',
          update_asset site.timezone_now site.generate_asset_tag site.seen_laptop 0 0 site.initial
          = (Returned (result', 0 + 1, 0 + 1), s')
          /\ assets s' = save_row found (assets site.initial)
          /\ objects_get (assets s') "00:1A:2B:3C:4D:5E" = Returned found
          /\ occurs_in "192.168.1.1" (location found)
          /\ forall m2 f2, exists result2 s2,
               update_asset site.timezone_now site.generate_asset_tag site.seen_laptop m2 f2 s'
               = (Returned (result2, m2 + 1, f2), s2)
               /\ map status (assets s2) = map status (assets s'))
      /\ (exists s',
            scan_network.handle_result site.timezone_now site.generate_asset_tag site.seen_laptop
                                       (scan_network.mkCounters 0 0 0)
                                       site.initial
            = (Returned (scan_network.mkCounters 0 (0 + 1) (0 + 1)), s')
            /\ assets s' = save_row found_by_command (assets site.initial)
            /\ occurs_in "192.168.1.1" (location found_by_command))).
Proof.
  split; [reflexivity|]. split; [reflexivity|]. split; [reflexivity|].
  split; [reflexivity|]. split; [exact site_registry_ok|].
  exact (missing_asset_is_recovered_once
           site.timezone_now site.generate_asset_tag site.seen_laptop "00:1A:2B:3C:4D:5E" site.laptop
           site.initial 0 0 (scan_network.mkCounters 0 0 0)
           eq_refl eq_refl eq_refl eq_refl site_registry_ok).
Defined.

Lemma maintenance_and_retired_keep_status_at_site :
  r_mac_address site.seen_server = Some "DE:AD:BE:EF:00:01"
  /\ truthy "DE:AD:BE:EF:00:01" = true
  /\ objects_get (assets site.initial) "DE:AD:BE:EF:00:01" = Returned site.server
  /\ (status site.server = MAINTENANCE \/ status site.server = RETIRED)
  /\ registry_ok (assets site.initial)
  /\ (let seen :=
        mkAsset 2 "UTV-SRV-001" (Some "de:ad:be:ef:00:01") (Some "192.168.1.2")
                MAINTENANCE "Rack 2" (Some 100) in
      (exists result' s',
          update_asset site.timezone_now site.generate_asset_tag site.seen_server 0 0 site.initial
          = (Returned (result', 0 + 1, 0), s')
          /\ assets s' = save_row seen (assets site.initial)
          /\ objects_get (assets s') "DE:AD:BE:EF:00:01" = Returned seen
          /\ map status (assets s') = map status (assets site.initial))
      /\ (exists s',
            scan_network.handle_result site.timezone_now site.generate_asset_tag site.seen_server
                                       (scan_network.mkCounters 0 0 0)
                                       site.initial
            = (Returned (scan_network.mkCounters 0 (0 + 1) 0), s')
            /\ assets s' = save_row seen (assets site.initial))).
Proof.
  split; [reflexivity|]. split; [reflexivity|]. split; [reflexivity|].
  split; [left; reflexivity|]. split; [exact site_registry_ok|].
  exact (maintenance_and_retired_keep_status
           site.timezone_now site.generate_asset_tag site.seen_server "DE:AD:BE:EF:00:01" site.server
           site.initial 0 0 (scan_network.mkCounters 0 0 0)
           eq_refl eq_refl eq_refl (or_introl eq_refl) site_registry_ok).
Defined.

Lemma reconcile_is_idempotent_at_site :
  registry_ok (assets site.initial)
  /\ reconcile site.timezone_now site.generate_asset_tag site.pass site.initial
     = (Returned site.first_summary, site.after_first_pass)
  /\ (forall again : list ScanResult,
        again = site.pass \/ again = scanner.results site.first_summary ->
        exists second s2,
          reconcile site.timezone_now site.generate_asset_tag again site.after_first_pass
          = (Returned second, s2)
          /\ missing_found second = 0
          /\ matched second = matched site.first_summary
          /\ scanned second = scanned site.first_summary
          /\ map status (assets s2) = map status (assets site.after_first_pass)
          /\ Forall2 same_but_last_seen (assets site.after_first_pass)
                     (assets s2)).
Proof.
  split; [exact site_registry_ok|]. split; [reflexivity|].
  exact (reconcile_is_idempotent
           site.timezone_now site.generate_asset_tag site.pass site.initial site.after_first_pass
           site.first_summary site_registry_ok eq_refl).
Defined.

Lemma overdue_check_notifies_both_custodians_at_site :
  filter (notifier.open_and_past_due 100) (tasks.assignments site.office)
  = [site.loan]
  /\ tasks.email site.technician = ""%string
  /\ exists r s',
       tasks.check_overdue_assignments site.timezone_now site.send_mail
                                       site.self_retry site.EMAIL_HOST
                                       site.DEFAULT_FROM_EMAIL
                                       site.get_full_name site.str_datetime
                                       site.office
       = (Returned r, s')
       /\ tasks.overdue_count r = 1
       /\ tasks.r_notifications_created r = 2
       /\ tasks.notifications s'
          = [tasks.mkNotification
               site.admin
               (tasks.message_of site.get_full_name site.str_datetime site.loan)
               "/assignments/7/" tasks.ALERT;
             tasks.mkNotification
               site.technician
               (tasks.message_of site.get_full_name site.str_datetime site.loan)
               "/assignments/7/" tasks.WARNING].
Proof.
  split; [reflexivity|]. split; [reflexivity|].
  exact (overdue_check_notifies_both_custodians
           site.timezone_now site.send_mail site.self_retry site.EMAIL_HOST
           site.DEFAULT_FROM_EMAIL site.get_full_name site.str_datetime
           site.office).
Defined.

Lemma failed_mail_is_audited_as_an_unexpected_error_at_site :
  tasks.mail_configured site.EMAIL_HOST (notifier.recipients_of site.loan) = true
  /\ site.send_mail (tasks.subject_of site.loan)
                    (tasks.message_of site.get_full_name site.str_datetime site.loan)
                    site.DEFAULT_FROM_EMAIL (notifier.recipients_of site.loan)
                    (tasks.world site.office)
     = (Raised site.refused, 101)
  /\ isinstance site.refused MaxRetriesExceededError = false
  /\ exists s',
       tasks.process_assignment site.send_mail site.self_retry site.EMAIL_HOST
                                site.DEFAULT_FROM_EMAIL site.get_full_name
                                site.str_datetime site.loan site.office
       = (Returned tt, s')
       /\ tasks.email_notifications s' = tasks.email_notifications site.office
       /\ tasks.audit_log s'
          = (tasks.audit_log site.office
               ++ [notifier.audit_entry site.loan
                     "Unexpected error in overdue task: Connection refused"])%list
       /\ filter notifier.describes_exhausted_retries
                 (skipn (List.length (tasks.audit_log site.office))
                        (tasks.audit_log s')) = []
       /\ (celery.called_directly site.last_attempt = false ->
           tasks.max_retries <= celery.retries site.last_attempt ->
           site.self_retry site.refused 101 = (site.refused, 101))
       /\ (forall rest : list tasks.AssetAssignment,
             for_each (site.loan :: rest)
                      (tasks.process_assignment site.send_mail site.self_retry
                                                site.EMAIL_HOST
                                                site.DEFAULT_FROM_EMAIL
                                                site.get_full_name
                                                site.str_datetime) site.office
             = for_each rest
                        (tasks.process_assignment site.send_mail site.self_retry
                                                  site.EMAIL_HOST
                                                  site.DEFAULT_FROM_EMAIL
                                                  site.get_full_name
                                                  site.str_datetime) s')
       /\ (forall s0 : tasks.State site.World,
             exists r s1,
               tasks.check_overdue_assignments site.timezone_now site.send_mail
                                               site.self_retry site.EMAIL_HOST
                                               site.DEFAULT_FROM_EMAIL
                                               site.get_full_name
                                               site.str_datetime s0
               = (Returned r, s1)).
Proof.
  split; [reflexivity|]. split; [reflexivity|]. split; [reflexivity|].
  exact (failed_mail_is_audited_as_an_unexpected_error
           site.timezone_now site.send_mail site.apply_async site.repr_exn
           site.EMAIL_HOST site.DEFAULT_FROM_EMAIL site.get_full_name
           site.str_datetime site.last_attempt site.loan site.office
           site.refused 101 eq_refl eq_refl eq_refl).
Defined.

End SiteFacts.

(* ================================================================== *)
(** * Facts about what a scan reports and what it costs *)
(* ================================================================== *)

Section ShapeFacts.
Import Py models scanner obs shape.

Context {World : Type}.
Variable platform_system : string.
Variable subprocess_run : list string -> Z -> World -> Outcome CompletedProcess * World.
Variable list_capacity : Z.

Lemma length_map_string (f : ascii -> ascii) (s : string) :
  String.length (map_string f s) = String.length s.
Proof. induction s as [| c s IH]; cbn; [reflexivity | now rewrite IH]. Qed.

Lemma get_map_string (f : ascii -> ascii) (s : string) :
  forall i, String.get i (map_string f s) = option_map f (String.get i s).
Proof.
  induction s as [| c s IH]; intros i; cbn; [reflexivity|].
  destruct i; [reflexivity | apply IH].
Qed.

Lemma mac_shaped_map (f : ascii -> ascii) (d d' : ascii -> bool)
      (sep sep' : ascii) (m : string) :
  (forall c, d c = true -> d' (f c) = true) -> f sep = sep' ->
  mac_shaped d sep m = true -> mac_shaped d' sep' (map_string f m) = true.
Proof.
  intros Hd Hsep H. unfold mac_shaped in *.
  apply andb_true_iff in H as [Hlen Hall]. apply andb_true_iff. split.
  - now rewrite length_map_string.
  - rewrite forallb_forall in Hall |- *. intros i Hi. specialize (Hall i Hi).
    rewrite get_map_string.
    destruct (String.get i m) as [c |]; cbn [option_map]; [| discriminate].
    destruct (Nat.eqb (i mod 3) 2).
    + apply Ascii.eqb_eq in Hall. subst c. rewrite Hsep. apply Ascii.eqb_refl.
    + now apply Hd.
Qed.

Lemma upper_hex_of_hex (c : ascii) : is_hex c = true -> is_upper_hex (upper_ascii c) = true.
Proof.
  destruct c as [[] [] [] [] [] [] [] []]; vm_compute; intros H;
    first [reflexivity | discriminate H].
Qed.

Lemma upper_hex_of_lower_hex (c : ascii) :
  is_lower_hex c = true -> is_upper_hex (upper_ascii c) = true.
Proof.
  destruct c as [[] [] [] [] [] [] [] []]; vm_compute; intros H;
    first [reflexivity | discriminate H].
Qed.

Lemma hex_is_no_dash (c : ascii) :
  is_hex c = true -> is_hex (if Ascii.eqb c "-" then ":"%char else c) = true.
Proof.
  destruct c as [[] [] [] [] [] [] [] []]; vm_compute; intros H;
    first [reflexivity | discriminate H].
Qed.

Lemma match_here_shaped (lit : string) (d : ascii -> bool) (sep : ascii) (s g : string) :
  match_here lit d sep s = Some g -> mac_shaped d sep g = true.
Proof.
  unfold match_here. destruct (String.prefix lit s); [| discriminate].
  destruct (mac_shaped d sep _) eqn:E; [| discriminate].
  intros [= <-]. exact E.
Qed.

Lemma re_search_shaped (lit : string) (d : ascii -> bool) (sep : ascii) (s g : string) :
  re_search lit d sep s = Some g -> mac_shaped d sep g = true.
Proof.
  induction s as [| c s IH]; cbn [re_search];
    destruct (match_here lit d sep _) as [m |] eqn:E.
  - intros [= <-]. exact (match_here_shaped _ _ _ _ _ E).
  - discriminate.
  - intros [= <-]. exact (match_here_shaped _ _ _ _ _ E).
  - exact IH.
Qed.

Lemma canonical_windows (g : string) :
  mac_shaped is_hex "-" g = true -> canonical (upper (replace "-" ":" g)) = true.
Proof.
  intros H. unfold canonical, upper, replace.
  apply (mac_shaped_map upper_ascii is_hex is_upper_hex ":" ":");
    [exact upper_hex_of_hex | reflexivity |].
  apply (mac_shaped_map _ is_hex is_hex "-" ":"); [exact hex_is_no_dash | reflexivity | exact H].
Qed.

Lemma canonical_upper (d : ascii -> bool) (g : string) :
  (forall c, d c = true -> is_upper_hex (upper_ascii c) = true) ->
  mac_shaped d ":" g = true -> canonical (upper g) = true.
Proof.
  intros Hd H. unfold canonical, upper.
  now apply (mac_shaped_map upper_ascii d is_upper_hex ":" ":").
Qed.

(** Splits a conjunction and closes the parts that are immediate. *)
Ltac chain :=
  repeat match goal with |- _ /\ _ => split end;
  try first [reflexivity | lia | discriminate | exact I
            | eexists; reflexivity | now intros _].

(** [_get_mac_address] in full: it returns after one or two sub-processes
    (one on Windows), and an address it returns is canonical. *)
Lemma _get_mac_address_report (self : NetworkScanner) (ip : string) (s : State World) :
  exists mac s' tr,
    _get_mac_address platform_system subprocess_run self ip s = (Returned mac, s')
    /\ trace s' = (trace s ++ tr)%list
    /\ forallb is_subprocess tr = true
    /\ (1 <= List.length tr <= 2)%nat
    /\ (is_windows platform_system = true -> List.length tr = 1%nat)
    /\ assets s' = assets s
    /\ match mac with Some m => canonical m = true | None => True end
    /\ lookups (is_windows platform_system) ip tr.
Proof.
  unfold _get_mac_address, try_except, bind, lookups.
  destruct (is_windows platform_system).
  - rewrite run_eq.
    destruct (subprocess_run _ _ (world s)) as [[r | e] w]; cbn.
    + destruct (re_search "" is_hex "-" _) as [g |] eqn:E; cbn;
        eexists _, _, [_]; (split; [reflexivity|]); cbn; chain.
      apply canonical_windows. exact (re_search_shaped _ _ _ _ _ E).
    + eexists _, _, [_]; (split; [reflexivity|]); cbn; chain.
  - rewrite run_eq.
    destruct (subprocess_run _ _ (world s)) as [[r | e] w]; cbn.
    + destruct (re_search "lladdr " is_lower_hex ":" _) as [g |] eqn:E; cbn.
      * eexists _, _, [_]; (split; [reflexivity|]); cbn; chain.
        -- apply (canonical_upper is_lower_hex); [exact upper_hex_of_lower_hex|].
           exact (re_search_shaped _ _ _ _ _ E).
        -- exists (Returned r). now rewrite E.
      * rewrite run_eq; cbn.
        destruct (subprocess_run _ _ w) as [[r2 | e2] w2]; cbn.
        -- destruct (re_search "" is_hex ":" _) as [g |] eqn:E2; cbn;
             eexists _, _, [_; _]; (split; [reflexivity|]); cbn;
             rewrite <- app_assoc; chain;
             try (exists (Returned r); rewrite E; eexists; reflexivity).
           apply (canonical_upper is_hex); [exact upper_hex_of_hex|].
           exact (re_search_shaped _ _ _ _ _ E2).
        -- eexists _, _, [_; _]; (split; [reflexivity|]); cbn;
             rewrite <- app_assoc; chain.
           exists (Returned r); rewrite E; eexists; reflexivity.
    + eexists _, _, [_]; (split; [reflexivity|]); cbn; chain.
      exists (Raised e); reflexivity.
Qed.

Lemma answered_app (a b : list event) :
  answered (a ++ b) = (answered a ++ answered b)%list.
Proof. unfold answered. now rewrite flat_map_app. Qed.

(** No lookup is taken for a ping. *)
Lemma answered_lookups (windows : bool) (ip : string) (tr : list event) :
  lookups windows ip tr -> answered tr = [].
Proof.
  unfold lookups. destruct windows.
  - intros [o ->]. reflexivity.
  - intros [[r | e] H].
    + destruct (re_search _ _ _ _); [now subst tr|].
      destruct H as [o2 ->]. reflexivity.
    + now subst tr.
Qed.

(** [_scan_host] in full: one ping; a host that does not answer costs
    nothing more and is not reported; a host that answers is looked up and
    reported. *)
Lemma _scan_host_report (self : NetworkScanner) (ip : string) (s : State World) :
  exists result s' tr,
    _scan_host platform_system subprocess_run self ip s = (Returned result, s')
    /\ trace s' = (trace s ++ tr)%list
    /\ probe platform_system self ip tr
    /\ begun tr = [ip]
    /\ assets s' = assets s
    /\ match result with
       | None => answered tr = [] /\ subprocesses tr = 1%nat
       | Some r =>
           answered tr = [ip]
           /\ r_ip_address r = ip /\ fresh_entry r
           /\ (2 <= subprocesses tr <= 3)%nat
           /\ (is_windows platform_system = true -> subprocesses tr = 2%nat)
       end.
Proof.
  unfold _scan_host, bind at 1, emit, modify.
  unfold bind at 1. rewrite _ping_host_eq.
  set (o := fst (subprocess_run _ _ _)). set (w := snd (subprocess_run _ _ _)).
  cbn [world trace assets printed cmd_stdout].
  assert (Hping : forall rest,
             answered (HostBegin ip
                         :: Subprocess (ping_argv platform_system self ip)
                                       (timeout self + 2) o
                         :: rest ++ [HostEnd ip])
             = ((if succeeded o then [ip] else []) ++ answered rest)%list).
  { intros rest. unfold answered at 1. cbn [flat_map app].
    unfold ping_argv at 1 2. cbn [hd last]. cbn [String.eqb Ascii.eqb Bool.eqb andb].
    rewrite flat_map_app. cbn [flat_map]. rewrite !app_nil_r. reflexivity. }
  assert (Hsub : forall rest,
             forallb is_subprocess rest = true ->
             subprocesses (HostBegin ip
                             :: Subprocess (ping_argv platform_system self ip)
                                           (timeout self + 2) o
                             :: rest ++ [HostEnd ip])
             = S (List.length rest)
             /\ begun (HostBegin ip
                         :: Subprocess (ping_argv platform_system self ip)
                                       (timeout self + 2) o
                         :: rest ++ [HostEnd ip])
                = [ip]).
  { intros rest Hrest. split.
    - unfold subprocesses. cbn [filter is_subprocess List.length].
      rewrite filter_app, length_app. cbn [filter is_subprocess List.length].
      rewrite filter_all by now apply forallb_forall. lia.
    - cbn [begun flat_map app]. fold (begun (rest ++ [HostEnd ip])).
      rewrite begun_app, (begun_subprocesses rest Hrest). reflexivity. }
  change (match o with
          | Returned result => (returncode result =? 0)%Z
          | Raised _ => false
          end) with (succeeded o).
  destruct (succeeded o) eqn:Ho.
  - unfold bind at 1. unfold bind at 1.
    match goal with
    | |- context [_get_mac_address _ _ self ip ?st] =>
        destruct (_get_mac_address_report self ip st)
          as (mac & s1 & tr & E & Htr & Hall & Hlen & Hwin & Has & Hmac & Hlook)
    end.
    rewrite E. cbn in Htr, Has |- *.
    eexists _, _, _. split; [reflexivity|]. cbn.
    rewrite Htr, Has. rewrite <- !app_assoc. cbn.
    destruct (Hsub tr Hall) as [Hn Hb].
    split; [reflexivity|]. split.
    { exists o, tr. split; [reflexivity|]. now rewrite Ho. }
    split; [exact Hb|]. split; [reflexivity|].
    rewrite Hping, (answered_lookups _ _ _ Hlook), Hn.
    split; [reflexivity|]. split; [reflexivity|].
    split; [now repeat split|]. split; [lia|].
    intros H. now rewrite (Hwin H).
  - unfold bind, ret. cbn.
    eexists _, _, _. split; [reflexivity|]. cbn.
    rewrite <- !app_assoc. cbn.
    destruct (Hsub [] eq_refl) as [Hn Hb]. cbn [app] in Hn, Hb.
    split; [reflexivity|]. split.
    { exists o, []. split; [reflexivity|]. now rewrite Ho. }
    split; [exact Hb|]. split; [reflexivity|].
    pose proof (Hping []) as Hp. cbn [app] in Hp. rewrite Hp, Hn.
    now split.
Qed.

Lemma subsequence_nil_l (ys : list string) : subsequence [] ys = true.
Proof. now destruct ys. Qed.

Lemma subsequence_tl (x : string) (xs ys : list string) :
  subsequence (x :: xs) ys = true -> subsequence xs ys = true.
Proof.
  revert x xs. induction ys as [| y ys IH]; intros x xs H; [discriminate|].
  cbn in H. destruct xs as [| x' xs]; [reflexivity|].
  cbn. destruct (String.eqb x y).
  - destruct (String.eqb x' y); [exact (IH _ _ H) | exact H].
  - pose proof (IH _ _ H) as H1.
    destruct (String.eqb x' y); [exact (IH _ _ H1) | exact H1].
Qed.

Lemma subsequence_skip (y : string) (xs ys : list string) :
  subsequence xs ys = true -> subsequence xs (y :: ys) = true.
Proof.
  intros H. destruct xs as [| x xs]; [reflexivity|].
  cbn. destruct (String.eqb x y); [exact (subsequence_tl _ _ _ H) | exact H].
Qed.

Lemma subsequence_take (x : string) (xs ys : list string) :
  subsequence xs ys = true -> subsequence (x :: xs) (x :: ys) = true.
Proof. intros H. cbn. now rewrite String.eqb_refl. Qed.

Lemma subprocesses_app (a b : list event) :
  subprocesses (a ++ b) = (subprocesses a + subprocesses b)%nat.
Proof. unfold subprocesses. now rewrite filter_app, length_app. Qed.

Lemma subprocesses_all (tr : list event) :
  forallb is_subprocess tr = true -> subprocesses tr = List.length tr.
Proof.
  unfold subprocesses. intros H. f_equal. apply filter_all.
  now apply forallb_forall.
Qed.

(** The loop of [scan] in full. *)
Lemma scan_hosts_report (self : NetworkScanner) (hosts : list ipaddress.Address) :
  forall (results : list ScanResult) (s : State World),
  exists news s' tr segments,
    scan_hosts platform_system subprocess_run self hosts results s
    = (Returned (results ++ news)%list, s')
    /\ trace s' = (trace s ++ tr)%list
    /\ tr = concat segments
    /\ Forall2 (probe platform_system self) (map ipaddress.str hosts) segments
    /\ begun tr = map ipaddress.str hosts
    /\ assets s' = assets s
    /\ Forall fresh_entry news
    /\ map r_ip_address news = answered tr
    /\ subsequence (answered tr) (map ipaddress.str hosts) = true
    /\ (List.length hosts + List.length news <= subprocesses tr
        <= List.length hosts + 2 * List.length news)%nat
    /\ (is_windows platform_system = true ->
        subprocesses tr = (List.length hosts + List.length news)%nat).
Proof.
  induction hosts as [| host rest IH]; intros results s; cbn [scan_hosts].
  - exists [], s, [], []. cbn. rewrite !app_nil_r. repeat split; auto.
  - unfold bind.
    destruct (_scan_host_report self (ipaddress.str host) s)
      as (r & s1 & tr1 & E & Htr1 & Hprobe & Hb1 & Has & Hr).
    rewrite E.
    match goal with
    | |- context [scan_hosts _ _ self rest ?acc s1] =>
        destruct (IH acc s1)
          as (news & s2 & tr2 & segments & E2 & Htr2 & Hcat & Hsegs & Hb & Has2
              & Hfresh & Hans & Hseq & Hcount & Hwin)
    end.
    rewrite E2.
    assert (Hbeg : begun (tr1 ++ tr2)
                   = ipaddress.str host :: map ipaddress.str rest).
    { now rewrite begun_app, Hb1, Hb. }
    destruct r as [r |].
    + destruct Hr as (Ha1 & Hip & Hf & Hlen & Hw).
      exists (r :: news), s2, (tr1 ++ tr2)%list, (tr1 :: segments).
      split; [now rewrite <- app_assoc|].
      split; [rewrite Htr2, Htr1; now rewrite <- !app_assoc|].
      split; [cbn [concat]; now rewrite Hcat|].
      split; [cbn [map]; now constructor|].
      split; [exact Hbeg|]. split; [congruence|].
      split; [now constructor|].
      rewrite answered_app, Ha1, subprocesses_app. cbn [app map List.length].
      split; [now rewrite Hip, Hans|].
      split; [rewrite <- Hans in Hseq |- *; now apply subsequence_take|].
      split; [lia|].
      intros H. rewrite (Hw H), (Hwin H). lia.
    + destruct Hr as (Ha1 & Hn1).
      exists news, s2, (tr1 ++ tr2)%list, (tr1 :: segments).
      split; [reflexivity|].
      split; [rewrite Htr2, Htr1; now rewrite <- !app_assoc|].
      split; [cbn [concat]; now rewrite Hcat|].
      split; [cbn [map]; now constructor|].
      split; [exact Hbeg|]. split; [congruence|].
      split; [exact Hfresh|].
      rewrite answered_app, Ha1, subprocesses_app, Hn1. cbn [app map List.length].
      split; [exact Hans|].
      split; [now apply subsequence_skip|].
      split; [lia|].
      intros H. rewrite (Hwin H). lia.
Qed.

Lemma subsequence_length (xs ys : list string) :
  subsequence xs ys = true -> (List.length xs <= List.length ys)%nat.
Proof.
  revert xs. induction ys as [| y ys IH]; intros [| x xs] H; cbn in *;
    try lia; try discriminate.
  destruct (String.eqb x y).
  - specialize (IH _ H). lia.
  - specialize (IH _ H). cbn in IH. lia.
Qed.

(** [scan] in full. *)
Lemma scan_segments (self : NetworkScanner) (s : State World) :
  exists out s' tr segments,
    scan platform_system subprocess_run list_capacity self s = (Returned out, s')
    /\ trace s' = (trace s ++ tr)%list
    /\ assets s' = assets s
    /\ Forall fresh_entry out
    /\ tr = concat segments
    /\ Forall2 (probe platform_system self) (begun tr) segments
    /\ map r_ip_address out = answered tr
    /\ subsequence (answered tr) (begun tr) = true
    /\ (List.length (begun tr) <= 254)%nat
    /\ (List.length (begun tr) + List.length out <= subprocesses tr
        <= List.length (begun tr) + 2 * List.length out)%nat
    /\ (is_windows platform_system = true ->
        subprocesses tr = (List.length (begun tr) + List.length out)%nat).
Proof.
  assert (Hnone : forall line,
             exists out s' tr segments,
               (Returned [],
                mkState (world s) (trace s) (assets s) (printed s ++ [line])
                        (cmd_stdout s))
               = (Returned out, s')
               /\ trace s' = (trace s ++ tr)%list
               /\ assets s' = assets s
               /\ Forall fresh_entry out
               /\ tr = concat segments
               /\ Forall2 (probe platform_system self) (begun tr) segments
               /\ map r_ip_address out = answered tr
               /\ subsequence (answered tr) (begun tr) = true
               /\ (List.length (begun tr) <= 254)%nat
               /\ (List.length (begun tr) + List.length out <= subprocesses tr
                   <= List.length (begun tr) + 2 * List.length out)%nat
               /\ (is_windows platform_system = true ->
                   subprocesses tr
                   = (List.length (begun tr) + List.length out)%nat)).
  { intros line. eexists [], _, [], []. cbn. rewrite app_nil_r.
    repeat split; auto; lia. }
  destruct (ipaddress.ip_network (subnet self)) as [n | e] eqn:H.
  - destruct (ipaddress.num_hosts n <=? list_capacity) eqn:Hfit.
    + unfold scan, try_except, bind at 1, lift. rewrite H.
      unfold bind at 1, list_of. rewrite Hfit.
      destruct (scan_hosts_report self (firstn 254 (ipaddress.hosts n)) [] s)
        as (out & s' & tr & segments & E & Htr & Hcat & Hsegs & Hb & Has & Hf
            & Hans & Hseq & Hc & Hw).
      rewrite E. cbn [app]. exists out, s', tr, segments.
      rewrite Hb, length_map. repeat split; auto; try lia.
      rewrite length_firstn. lia.
    + apply Z.leb_gt in Hfit.
      rewrite (scan_too_large platform_system subprocess_run list_capacity
                              self s n H Hfit).
      apply Hnone.
  - rewrite (scan_malformed platform_system subprocess_run list_capacity
                            self s e H).
    apply Hnone.
Qed.

Lemma scan_report (self : NetworkScanner) (s : State World) :
  exists out s' tr,
    scan platform_system subprocess_run list_capacity self s = (Returned out, s')
    /\ trace s' = (trace s ++ tr)%list
    /\ assets s' = assets s
    /\ Forall fresh_entry out
    /\ subsequence (map r_ip_address out) (begun tr) = true
    /\ (List.length (begun tr) <= 254)%nat
    /\ (List.length (begun tr) + List.length out <= subprocesses tr
        <= List.length (begun tr) + 2 * List.length out)%nat
    /\ (is_windows platform_system = true ->
        subprocesses tr = (List.length (begun tr) + List.length out)%nat).
Proof.
  destruct (scan_segments self s)
    as (out & s' & tr & _ & E & Htr & Has & Hf & _ & _ & Hans & Hseq & Hb
        & Hc & Hw).
  exists out, s', tr. rewrite Hans. auto 10.
Qed.

(** X2.  Whatever the network answers, [scan] returns a list of at most 254
    entries: one for each probed address whose ping returned with exit
    code 0 and none for any other, in the order of probing.  Each entry is
    marked alive, names no asset yet, and its hardware address, when one
    was found, is six pairs of upper-case hexadecimal digits joined by
    colons. *)
Theorem scan_reports_fresh_canonical_entries (self : NetworkScanner) (s : State World) :
  exists out s' tr,
    scan platform_system subprocess_run list_capacity self s = (Returned out, s')
    /\ trace s' = (trace s ++ tr)%list
    /\ map r_ip_address out = answered tr
    /\ subsequence (answered tr) (begun tr) = true
    /\ Forall fresh_entry out
    /\ (List.length out <= List.length (begun tr) <= 254)%nat.
Proof.
  destruct (scan_segments self s)
    as (out & s' & tr & _ & E & Htr & _ & Hf & _ & _ & Hans & Hseq & Hb & _).
  exists out, s', tr. repeat split; auto.
  apply subsequence_length in Hseq.
  now rewrite <- Hans, length_map in Hseq.
Qed.

(** X3.  The cost of a scan in sub-processes.  The trace of a scan is made
    of one segment for each probed address, in order: one ping and, when
    the ping returned with exit code 0 and only then, one neighbour-table
    lookup, or two when the first returned without an address on a
    platform other than Windows.  So a scan runs one sub-process for every
    probed address and one or two more for every address that answered,
    exactly one more on Windows, and at most 762 in all. *)
Theorem scan_runs_one_to_three_subprocesses_per_host
        (self : NetworkScanner) (s : State World) :
  exists out s' tr segments,
    scan platform_system subprocess_run list_capacity self s = (Returned out, s')
    /\ trace s' = (trace s ++ tr)%list
    /\ tr = concat segments
    /\ Forall2 (probe platform_system self) (begun tr) segments
    /\ (List.length (begun tr) + List.length (answered tr) <= subprocesses tr
        <= List.length (begun tr) + 2 * List.length (answered tr))%nat
    /\ (subprocesses tr <= 3 * 254)%nat
    /\ (is_windows platform_system = true ->
        subprocesses tr
        = (List.length (begun tr) + List.length (answered tr))%nat).
Proof.
  destruct (scan_segments self s)
    as (out & s' & tr & segments & E & Htr & _ & _ & Hcat & Hsegs & Hans & Hseq
        & Hb & Hc & Hw).
  exists out, s', tr, segments.
  assert (Hlen : List.length (answered tr) = List.length out).
  { now rewrite <- Hans, length_map. }
  apply subsequence_length in Hseq. rewrite Hlen in *.
  repeat split; auto; lia.
Qed.

End ShapeFacts.

Section CoverageFacts.
Import Py models scanner obs shape.

Context {World : Type}.
Variable platform_system : string.
Variable subprocess_run : list string -> Z -> World -> Outcome CompletedProcess * World.
Variable list_capacity : Z.

Lemma length_range (lo hi : Z) : List.length (range lo hi) = Z.to_nat (hi - lo).
Proof. unfold range. now rewrite length_map, length_seq. Qed.

Lemma length_hosts_v4 (n : ipaddress.Network) :
  well_formed n -> ipaddress.version n = ipaddress.V4 ->
  ipaddress._prefixlen n <= 30 ->
  Z.of_nat (List.length (ipaddress.hosts n)) = 2 ^ (32 - ipaddress._prefixlen n) - 2.
Proof.
  intros Hwf Hv Hp.
  rewrite <- (length_map ipaddress._ip), (hosts_v4_usable n Hwf Hv Hp).
  unfold usable_host_addresses, block_addresses. rewrite Hv.
  cbn [ipaddress._max_prefixlen].
  destruct Hwf as [[Hp0 _] _].
  assert (4 <= 2 ^ (32 - ipaddress._prefixlen n)).
  { change 4 with (2 ^ 2). apply Z.pow_le_mono_r; lia. }
  set (first := ipaddress._ip (ipaddress.network_address n)).
  rewrite (range_without_ends first (first + 2 ^ (32 - ipaddress._prefixlen n)))
    by lia.
  rewrite length_range. lia.
Qed.

(** [num_hosts] counts what [hosts] lists. *)
Lemma num_hosts_length (n : ipaddress.Network) :
  Z.of_nat (List.length (ipaddress.hosts n)) = ipaddress.num_hosts n.
Proof.
  unfold ipaddress.hosts, ipaddress.num_hosts.
  destruct (ipaddress._prefixlen n =? _);
    [rewrite length_map, length_range; lia|].
  destruct (ipaddress._prefixlen n =? _); [reflexivity|].
  destruct (ipaddress.version n); rewrite length_map, length_range; lia.
Qed.

(** X4.  On an IPv4 block of prefix length [p] at most 30, which has
    [2^(32-p) - 2] hosts: when [list] has memory for all of them, a scan
    probes the first 254 in order, that is [min(254, 2^(32-p) - 2)]
    addresses, and from prefix length 24 on these are all the hosts of the
    block.  When it has not, the list of the hosts is never built: no
    address is probed, the scan prints an error without text and returns
    the empty list. *)
Theorem scan_covers_an_ipv4_block_from_prefix_24_on
        (self : NetworkScanner) (s : State World) (n : ipaddress.Network) :
  ipaddress.ip_network (subnet self) = Returned n ->
  ipaddress.version n = ipaddress.V4 ->
  ipaddress._prefixlen n <= 30 ->
  Z.of_nat (List.length (ipaddress.hosts n))
  = 2 ^ (32 - ipaddress._prefixlen n) - 2
  /\ exists results s' tr,
       scan platform_system subprocess_run list_capacity self s
       = (Returned results, s')
       /\ trace s' = (trace s ++ tr)%list
       /\ if 2 ^ (32 - ipaddress._prefixlen n) - 2 <=? list_capacity then
            begun tr = map ipaddress.str (firstn 254 (ipaddress.hosts n))
            /\ Z.of_nat (List.length (begun tr))
               = Z.min 254 (2 ^ (32 - ipaddress._prefixlen n) - 2)
            /\ (24 <= ipaddress._prefixlen n ->
                begun tr = map ipaddress.str (ipaddress.hosts n))
          else
            tr = [] /\ results = []
            /\ printed s' = (printed s ++ ["Scan error: "])%list.
Proof.
  intros H Hv Hp. pose proof (ip_network_well_formed _ _ H) as Hwf.
  pose proof (length_hosts_v4 n Hwf Hv Hp) as Hlen.
  split; [exact Hlen|].
  pose proof (num_hosts_length n) as Hnum. rewrite Hlen in Hnum.
  rewrite Hnum.
  destruct (ipaddress.num_hosts n <=? list_capacity) eqn:Hfit.
  - apply Z.leb_le in Hfit.
    destruct (scan_valid platform_system subprocess_run list_capacity
                         self s n H Hfit)
      as (out & s' & tr & E & Ht & _ & Hb & _).
    exists out, s', tr. split; [exact E|]. split; [exact Ht|].
    split; [exact Hb|]. split.
    + rewrite Hb, length_map, length_firstn. lia.
    + intros H24. rewrite Hb. f_equal. apply firstn_all2.
      assert (2 ^ (32 - ipaddress._prefixlen n) <= 2 ^ 8)
        by (apply Z.pow_le_mono_r; lia).
      change (2 ^ 8) with 256 in *. lia.
  - apply Z.leb_gt in Hfit.
    rewrite (scan_too_large platform_system subprocess_run list_capacity
                            self s n H Hfit).
    eexists _, _, []. split; [reflexivity|]. cbn. rewrite app_nil_r.
    repeat split.
Qed.

End CoverageFacts.

(* ================================================================== *)
(** * Facts about a pass over the registry *)
(* ================================================================== *)

Section PassFacts.
Import Py models scanner obs shape registry.

Context {World : Type}.
Variable platform_system : string.
Variable subprocess_run : list string -> Z -> World -> Outcome CompletedProcess * World.
Variable list_capacity : Z.
Variable timezone_now : World -> Z * World.
Variable generate_asset_tag : Asset -> World -> string * World.

(** ** The counters *)

Lemma update_asset_counts (r : ScanResult) (m f : Z) (s : State World) r' m' f' s' :
  update_asset timezone_now generate_asset_tag r m f s = (Returned (r', m', f'), s') ->
  (m' = m /\ f' = f) \/ (m' = m + 1 /\ (f' = f \/ f' = f + 1)).
Proof.
  rewrite update_asset_general.
  destruct (filter (matches r) (assets s)) as [| a [| b l]]; intros [= <- <- <- <-].
  - now left.
  - right. destruct (is_missing a); auto.
Qed.

Lemma update_assets_counts (results : list ScanResult) :
  forall (m f : Z) (s : State World) results' m' f' s',
    update_assets timezone_now generate_asset_tag results m f s
    = (Returned (results', m', f'), s') ->
    List.length results' = List.length results
    /\ 0 <= f' - f <= m' - m
    /\ m' - m <= Z.of_nat (List.length results).
Proof.
  induction results as [| r rest IH]; intros m f s results' m' f' s' H.
  - cbn in H. injection H as <- <- <- <-. cbn. repeat split; lia.
  - cbn [update_assets] in H. unfold bind at 1 in H.
    destruct (update_asset timezone_now generate_asset_tag r m f s)
      as [[[[r1 m1] f1] | e] s1] eqn:E1; [| discriminate].
    unfold bind at 1 in H.
    destruct (update_assets timezone_now generate_asset_tag rest m1 f1 s1)
      as [[[[rest' m2] f2] | e] s2] eqn:E2; [| discriminate].
    cbn in H. injection H as <- <- <- <-.
    apply IH in E2. apply update_asset_counts in E1.
    cbn [List.length]. rewrite Nat2Z.inj_succ. repeat split; lia.
Qed.

(** X5.  The numbers [scan_and_update_assets] reports are ordered: no more
    recoveries than matches, no more matches than hosts that answered, and
    no more of those than the 254 addresses a scan probes; [scanned] is the
    length of the list of results. *)
Theorem summary_counters_are_ordered
        (subnet : string) (s s' : State World) (summary : Summary) :
  scan_and_update_assets platform_system subprocess_run list_capacity timezone_now
                         generate_asset_tag subnet s
  = (Returned summary, s') ->
  0 <= missing_found summary <= matched summary
  /\ matched summary <= scanned summary <= 254
  /\ scanned summary = Z.of_nat (List.length (results summary)).
Proof.
  unfold scan_and_update_assets, bind at 1.
  destruct (scan_report platform_system subprocess_run list_capacity (mkScanner subnet 1) s)
    as (out & s1 & tr & E & _ & _ & _ & Hseq & Hb & _).
  rewrite E. apply subsequence_length in Hseq. rewrite length_map in Hseq.
  unfold reconcile, bind.
  destruct (update_assets timezone_now generate_asset_tag out 0 0 s1)
    as [[[[res m] f] | e] s2] eqn:E2; [| discriminate].
  intros [= <- <-]. cbn.
  apply update_assets_counts in E2. lia.
Qed.

(** ** A hardware address that several rows carry *)

Lemma update_assets_app (pre post : list ScanResult) :
  forall (m f : Z) (s : State World),
    update_assets timezone_now generate_asset_tag (pre ++ post) m f s
    = match update_assets timezone_now generate_asset_tag pre m f s with
      | (Returned (pre', m1, f1), s1) =>
          match update_assets timezone_now generate_asset_tag post m1 f1 s1 with
          | (Returned (post', m2, f2), s2) =>
              (Returned ((pre' ++ post')%list, m2, f2), s2)
          | (Raised e, s2) => (Raised e, s2)
          end
      | (Raised e, s1) => (Raised e, s1)
      end.
Proof.
  induction pre as [| r pre IH]; intros m f s; cbn [app update_assets].
  - unfold ret.
    destruct (update_assets _ _ post m f s) as [[[[post' m2] f2] | e] s2];
      reflexivity.
  - unfold bind.
    destruct (update_asset timezone_now generate_asset_tag r m f s)
      as [[[[r1 m1] f1] | e] s1]; [| reflexivity].
    rewrite IH.
    destruct (update_assets _ _ pre m1 f1 s1) as [[[[pre' m2] f2] | e] s2];
      [| reflexivity].
    unfold ret.
    destruct (update_assets _ _ post m2 f2 s2) as [[[[post' m3] f3] | e] s3];
      reflexivity.
Qed.

Lemma handle_results_app (pre post : list ScanResult) :
  forall (c : scan_network.Counters) (s : State World),
    scan_network.handle_results timezone_now generate_asset_tag (pre ++ post) c s
    = match scan_network.handle_results timezone_now generate_asset_tag pre c s with
      | (Returned c1, s1) =>
          scan_network.handle_results timezone_now generate_asset_tag post c1 s1
      | (Raised e, s1) => (Raised e, s1)
      end.
Proof.
  induction pre as [| r pre IH]; intros c s; cbn [app scan_network.handle_results].
  - reflexivity.
  - unfold bind.
    destruct (scan_network.handle_result timezone_now generate_asset_tag r c s)
      as [[c1 | e] s1]; [apply IH | reflexivity].
Qed.

(** X6.  A result whose hardware address two or more rows carry aborts the
    pass: [scan_and_update_assets] and the [scan_network] command raise
    [MultipleObjectsReturned] out of their loop.  What the results before it
    made the pass write stays written, and the results after it are not
    looked at. *)
Theorem hardware_address_on_several_rows_aborts_the_pass
        (pre post : list ScanResult) (r : ScanResult)
        (s s1 : State World) out (c c1 : scan_network.Counters) (t t1 : State World) :
  update_assets timezone_now generate_asset_tag pre 0 0 s = (Returned out, s1) ->
  (2 <= List.length (filter (matches r) (assets s1)))%nat ->
  scan_network.handle_results timezone_now generate_asset_tag pre c t
  = (Returned c1, t1) ->
  (2 <= List.length (filter (matches r) (assets t1)))%nat ->
  reconcile timezone_now generate_asset_tag (pre ++ r :: post) s
  = (Raised several_rows, s1)
  /\ scan_network.handle_results timezone_now generate_asset_tag
                                 (pre ++ r :: post) c t
     = (Raised several_rows, t1).
Proof.
  intros E Hs1 Ec Ht1. split.
  - unfold reconcile, bind. rewrite update_assets_app, E.
    destruct out as [[pre' m1] f1]. cbn [update_assets]. unfold bind at 1.
    rewrite update_asset_general.
    destruct (filter (matches r) (assets s1)) as [| a [| b l]]; cbn in Hs1;
      try lia.
    reflexivity.
  - rewrite handle_results_app, Ec. cbn [scan_network.handle_results].
    unfold bind. rewrite handle_result_general.
    destruct (filter (matches r) (assets t1)) as [| a [| b l]]; cbn in Ht1;
      try lia.
    reflexivity.
Qed.

(** ** What a pass may do to the table *)

Lemma only_recovered_refl (a : Asset) : only_recovered a a.
Proof. unfold only_recovered. auto. Qed.

Lemma only_recovered_trans (a b c : Asset) :
  only_recovered a b -> only_recovered b c -> only_recovered a c.
Proof.
  unfold only_recovered.
  intros (Hi & Hm & Ht & Hs) (Hi' & Hm' & Ht' & Hs').
  split; [congruence|]. split; [congruence|]. split.
  - destruct Ht as [Ht | Ht]; [| now right].
    destruct Ht' as [Ht' | Ht']; [left | right]; congruence.
  - destruct Hs as [Hs | [Hs1 Hs2]], Hs' as [Hs' | [Hs1' Hs2']].
    + left. congruence.
    + right. split; congruence.
    + right. split; congruence.
    + rewrite Hs2 in Hs1'. discriminate.
Qed.

Lemma Forall2_trans {A} (R : A -> A -> Prop) (l1 l2 l3 : list A) :
  (forall a b c, R a b -> R b c -> R a c) ->
  Forall2 R l1 l2 -> Forall2 R l2 l3 -> Forall2 R l1 l3.
Proof.
  intros HR H. revert l3. induction H as [| a b l1 l2 Hab H IH]; intros l3 H3.
  - inversion H3. constructor.
  - inversion H3; subst. constructor; eauto.
Qed.

Lemma Forall2_map_r_In {A} (R : A -> A -> Prop) (g : A -> A) (l : list A) :
  (forall a, In a l -> R a (g a)) -> Forall2 R l (map g l).
Proof.
  induction l as [| a l IH]; intros H; cbn; constructor.
  - apply H. now left.
  - apply IH. intros b Hb. apply H. now right.
Qed.

Lemma save_row_Forall2 (R : Asset -> Asset -> Prop) (rows : list Asset)
      (asset asset' : Asset) :
  NoDup (map id rows) -> In asset rows -> id asset' = id asset ->
  (forall a, R a a) -> R asset asset' ->
  Forall2 R rows (save_row asset' rows).
Proof.
  intros Hnd Hin Hid Hrefl HR. unfold save_row.
  apply Forall2_map_r_In. intros a Ha.
  destruct (id a =? id asset') eqn:E; [| apply Hrefl].
  apply Z.eqb_eq in E.
  assert (a = asset) by (apply (NoDup_map_inj id rows); congruence).
  now subst a.
Qed.

Lemma map_id_save_row (asset : Asset) (rows : list Asset) :
  map id (save_row asset rows) = map id rows.
Proof.
  unfold save_row. rewrite map_map. apply map_ext. intros a.
  destruct (id a =? id asset) eqn:E; [| reflexivity].
  apply Z.eqb_eq in E. congruence.
Qed.

Lemma only_recovered_saved (t : Z) (ip : string) (a : Asset) (w : World) :
  only_recovered a (saved_as generate_asset_tag (touched t ip a) w)
  /\ only_recovered a (saved_as generate_asset_tag (touched_by_command t ip a) w).
Proof.
  unfold only_recovered, saved_as, touched, touched_by_command, is_missing.
  destruct (status a) eqn:Hs; cbn; rewrite ?Hs;
    destruct (truthy (asset_tag a)) eqn:Ht; cbn; rewrite ?Hs; auto 10.
Qed.

Lemma id_saved_as (asset : Asset) (w : World) :
  id (saved_as generate_asset_tag asset w) = id asset.
Proof. unfold saved_as. now destruct (truthy (asset_tag asset)). Qed.

Lemma id_touched_by_command (t : Z) (ip : string) (a : Asset) :
  id (touched_by_command t ip a) = id a.
Proof. unfold touched_by_command. now destruct (is_missing a). Qed.

Lemma update_asset_only_recovers (r : ScanResult) (m f : Z) (s : State World) o s' :
  NoDup (map id (assets s)) ->
  update_asset timezone_now generate_asset_tag r m f s = (o, s') ->
  Forall2 only_recovered (assets s) (assets s')
  /\ map id (assets s') = map id (assets s).
Proof.
  intros Hnd. rewrite update_asset_general.
  destruct (filter (matches r) (assets s)) as [| a [| b l]] eqn:Hf;
    intros [= <- <-]; cbn [assets].
  - split; [apply Forall2_same, only_recovered_refl | reflexivity].
  - split; [| apply map_id_save_row].
    apply filter_singleton_In in Hf as [Hin _].
    apply (save_row_Forall2 only_recovered _ a); auto.
    + rewrite id_saved_as. apply touched_keys.
    + apply only_recovered_refl.
    + apply only_recovered_saved.
  - split; [apply Forall2_same, only_recovered_refl | reflexivity].
Qed.

Lemma handle_result_only_recovers (r : ScanResult) (c : scan_network.Counters)
      (s : State World) o s' :
  NoDup (map id (assets s)) ->
  scan_network.handle_result timezone_now generate_asset_tag r c s = (o, s') ->
  Forall2 only_recovered (assets s) (assets s')
  /\ map id (assets s') = map id (assets s).
Proof.
  intros Hnd. rewrite handle_result_general.
  destruct (filter (matches r) (assets s)) as [| a [| b l]] eqn:Hf.
  - destruct (truthy_opt (r_mac_address r)); intros [= <- <-]; cbn [assets];
      (split; [apply Forall2_same, only_recovered_refl | reflexivity]).
  - intros [= <- <-]; cbn [assets]. split; [| apply map_id_save_row].
    apply filter_singleton_In in Hf as [Hin _].
    apply (save_row_Forall2 only_recovered _ a); auto.
    + rewrite id_saved_as. apply id_touched_by_command.
    + apply only_recovered_refl.
    + apply only_recovered_saved.
  - intros [= <- <-].
    split; [apply Forall2_same, only_recovered_refl | reflexivity].
Qed.

Lemma update_assets_only_recovers (results : list ScanResult) :
  forall (m f : Z) (s : State World) o s',
    NoDup (map id (assets s)) ->
    update_assets timezone_now generate_asset_tag results m f s = (o, s') ->
    Forall2 only_recovered (assets s) (assets s').
Proof.
  induction results as [| r rest IH]; intros m f s o s' Hnd H.
  - cbn in H. injection H as <- <-. apply Forall2_same, only_recovered_refl.
  - cbn [update_assets] in H. unfold bind at 1 in H.
    destruct (update_asset timezone_now generate_asset_tag r m f s)
      as [[[[r1 m1] f1] | e] s1] eqn:E1;
      destruct (update_asset_only_recovers _ _ _ _ _ _ Hnd E1) as [H1 Hid].
    + unfold bind at 1 in H.
      destruct (update_assets timezone_now generate_asset_tag rest m1 f1 s1)
        as [[[[rest' m2] f2] | e] s2] eqn:E2;
        (apply IH in E2; [| now rewrite Hid]);
        cbn in H; injection H as <- <-;
        exact (Forall2_trans _ _ _ _ only_recovered_trans H1 E2).
    + injection H as <- <-. exact H1.
Qed.

Lemma handle_results_only_recovers (results : list ScanResult) :
  forall (c : scan_network.Counters) (s : State World) o s',
    NoDup (map id (assets s)) ->
    scan_network.handle_results timezone_now generate_asset_tag results c s
    = (o, s') ->
    Forall2 only_recovered (assets s) (assets s').
Proof.
  induction results as [| r rest IH]; intros c s o s' Hnd H.
  - cbn in H. injection H as <- <-. apply Forall2_same, only_recovered_refl.
  - cbn [scan_network.handle_results] in H. unfold bind at 1 in H.
    destruct (scan_network.handle_result timezone_now generate_asset_tag r c s)
      as [[c1 | e] s1] eqn:E1;
      destruct (handle_result_only_recovers _ _ _ _ _ Hnd E1) as [H1 Hid].
    + apply IH in H; [| now rewrite Hid].
      exact (Forall2_trans _ _ _ _ only_recovered_trans H1 H).
    + injection H as <- <-. exact H1.
Qed.

(** X7.  On a table with distinct primary keys, [scan_and_update_assets]
    and the [scan_network] command, whether they return or raise, leave
    the table with the same rows in the same order, each with its primary
    key and hardware address; a tag changes only on a row that had none;
    and the only change of status is from [MISSING] to [AVAILABLE]. *)
Theorem a_pass_only_recovers
        (subnet : string) (timeout : Z) (s : State World) :
  NoDup (map id (assets s)) ->
  Forall2 only_recovered (assets s)
          (assets (snd (scan_and_update_assets platform_system subprocess_run list_capacity
                          timezone_now generate_asset_tag subnet s)))
  /\ Forall2 only_recovered (assets s)
             (assets (snd (scan_network.handle platform_system subprocess_run list_capacity
                             timezone_now generate_asset_tag subnet timeout s))).
Proof.
  intros Hnd. split.
  - unfold scan_and_update_assets, bind at 1.
    destruct (scan_report platform_system subprocess_run list_capacity (mkScanner subnet 1) s)
      as (out & s1 & tr & E & _ & Has & _).
    rewrite E. unfold reconcile, bind.
    destruct (update_assets timezone_now generate_asset_tag out 0 0 s1)
      as [o s2] eqn:E2.
    apply update_assets_only_recovers in E2; [| now rewrite Has].
    rewrite Has in E2. now destruct o as [[[res m] f] | e].
  - unfold scan_network.handle.
    unfold bind at 1. rewrite stdout_write_eq.
    unfold bind at 1. rewrite stdout_write_eq.
    unfold bind at 1. rewrite stdout_write_eq.
    unfold bind at 1.
    match goal with
    | |- context [scan _ _ _ ?sc ?st] =>
        destruct (scan_report platform_system subprocess_run list_capacity sc st)
          as (out & s1 & tr & E & _ & Has & _)
    end.
    rewrite E. cbn [assets] in Has. unfold bind at 1.
    destruct (scan_network.handle_results timezone_now generate_asset_tag out _ s1)
      as [o s2] eqn:E2.
    apply handle_results_only_recovers in E2; [| now rewrite Has].
    rewrite Has in E2. destruct o as [c | e]; [| exact E2].
    unfold bind. rewrite !stdout_write_eq. exact E2.
Qed.

End PassFacts.

Section AgreementFacts.
Import Py models scanner obs shape registry.

Context {World : Type}.
Variable timezone_now : World -> Z * World.
Variable generate_asset_tag : Asset -> World -> string * World.

Lemma same_but_location_refl (a : Asset) : same_but_location a a.
Proof. unfold same_but_location. auto 10. Qed.

Lemma matches_same_but_location (r : ScanResult) (a a' : Asset) :
  same_but_location a a' -> matches r a' = matches r a.
Proof.
  intros (_ & _ & Hm & _). unfold matches. now rewrite Hm.
Qed.

Lemma filter_same_but_location (r : ScanResult) (rows rows' : list Asset) :
  Forall2 same_but_location rows rows' ->
  Forall2 same_but_location (filter (matches r) rows) (filter (matches r) rows').
Proof.
  induction 1 as [| a a' rows rows' Ha H IH]; cbn; [constructor|].
  rewrite (matches_same_but_location r a a' Ha).
  destruct (matches r a); [now constructor | exact IH].
Qed.

Lemma save_row_same_but_location (asset asset' : Asset) (rows rows' : list Asset) :
  same_but_location asset asset' ->
  Forall2 same_but_location rows rows' ->
  Forall2 same_but_location (save_row asset rows) (save_row asset' rows').
Proof.
  intros Ha. induction 1 as [| a a' rows rows' Haa H IH]; cbn; constructor;
    [| exact IH].
  destruct Ha as (Hi & Ha'), Haa as (Hi' & Haa').
  rewrite Hi, Hi'. destruct (id a =? id asset); split; assumption.
Qed.

Lemma touched_same_but_location (t : Z) (ip : string) (a a' : Asset) :
  same_but_location a a' ->
  same_but_location (touched t ip a) (touched_by_command t ip a')
  /\ is_missing a' = is_missing a.
Proof.
  intros (Hi & Ht & Hm & Hip & Hs & Hl).
  unfold touched, touched_by_command, is_missing. rewrite Hs.
  destruct (status_eqb (status a) MISSING); cbn; repeat split; assumption.
Qed.

Lemma tagged_save_row (asset : Asset) (rows : list Asset) :
  truthy (asset_tag asset) = true -> tagged rows -> tagged (save_row asset rows).
Proof.
  intros Ht H. unfold tagged, save_row in *. rewrite Forall_map.
  eapply Forall_impl; [| exact H]. intros a Ha. cbn.
  now destruct (id a =? id asset).
Qed.

Lemma tagged_In (rows : list Asset) (a : Asset) :
  tagged rows -> In a rows -> truthy (asset_tag a) = true.
Proof. unfold tagged. rewrite Forall_forall. auto. Qed.

Lemma asset_tag_touched_by_command (t : Z) (ip : string) (a : Asset) :
  asset_tag (touched_by_command t ip a) = asset_tag a.
Proof. unfold touched_by_command. now destruct (is_missing a). Qed.

(** The results of a pass that carry a hardware address *)
Lemma with_address_cons (r : ScanResult) (rest : list ScanResult) :
  with_address (r :: rest)
  = (if truthy_opt (r_mac_address r) then 1 else 0) + with_address rest.
Proof.
  unfold with_address. cbn [filter].
  destruct (truthy_opt (r_mac_address r)); cbn [List.length]; lia.
Qed.

Lemma filter_matches_truthy (r : ScanResult) (rows : list Asset) (a : Asset) (l : list Asset) :
  filter (matches r) rows = a :: l -> truthy_opt (r_mac_address r) = true.
Proof.
  intros H.
  assert (Hin : In a (filter (matches r) rows)) by (rewrite H; now left).
  apply filter_In in Hin as [_ Hm]. unfold matches in Hm.
  destruct (r_mac_address r) as [mac |]; [| discriminate].
  now apply andb_true_iff in Hm as [Hm _].
Qed.

Lemma passes_agree (results : list ScanResult) :
  forall (m f : Z) (c : scan_network.Counters) (s t : State World),
    tagged (assets s) -> tagged (assets t) ->
    Forall2 same_but_location (assets s) (assets t) ->
    world t = world s ->
    match update_assets timezone_now generate_asset_tag results m f s,
          scan_network.handle_results timezone_now generate_asset_tag results c t
    with
    | (Returned (_, m', f'), s1), (Returned c', t1) =>
        m' - m = scan_network.matched_count c' - scan_network.matched_count c
        /\ f' - f = scan_network.missing_found c' - scan_network.missing_found c
        /\ (m' - m) + (scan_network.found_count c' - scan_network.found_count c)
           = with_address results
        /\ Forall2 same_but_location (assets s1) (assets t1)
        /\ world t1 = world s1
    | (Raised e, s1), (Raised e', t1) =>
        e' = e /\ Forall2 same_but_location (assets s1) (assets t1)
        /\ world t1 = world s1
    | _, _ => False
    end.
Proof.
  induction results as [| r rest IH]; intros m f c s t Hs Ht HF Hw.
  - cbn. unfold with_address. cbn. repeat split; auto; lia.
  - cbn [update_assets scan_network.handle_results]. unfold bind.
    rewrite (update_asset_eq timezone_now generate_asset_tag r m f s Hs).
    rewrite (handle_result_eq timezone_now generate_asset_tag r c t Ht).
    pose proof (filter_same_but_location r _ _ HF) as Hf.
    rewrite with_address_cons.
    set (known := with_address rest) in *.
    destruct (filter (matches r) (assets s)) as [| a [| b l]] eqn:Ea;
      inversion Hf as [| a' a2 l1 l2 Ha Hl Ea1 Ea2]; subst.
    + destruct (truthy_opt (r_mac_address r)).
      * match goal with
        | |- context [scan_network.handle_results _ _ rest ?c1 ?t1] =>
            specialize (IH m f c1 s t1 Hs Ht HF Hw)
        end.
        destruct (update_assets _ _ rest m f s) as [[[[rest' m2] f2] | e] s2];
          destruct (scan_network.handle_results _ _ rest _ _) as [[c2 | e2] t2];
          cbn [scan_network.found_count scan_network.matched_count
               scan_network.missing_found ret] in IH |- *;
          try exact IH.
        destruct IH as (? & ? & ? & ? & ?). repeat split; auto; lia.
      * specialize (IH m f c s t Hs Ht HF Hw).
        destruct (update_assets _ _ rest m f s) as [[[[rest' m2] f2] | e] s2];
          destruct (scan_network.handle_results _ _ rest _ _) as [[c2 | e2] t2];
          cbn [ret] in IH |- *; exact IH.
    + inversion Hl; subst.
      rewrite (filter_matches_truthy r _ _ _ Ea).
      destruct (touched_same_but_location (fst (timezone_now (world s)))
                  (r_ip_address r) a a2 Ha) as [Hto Hmiss].
      rewrite Hw, Hmiss.
      assert (Hina : In a (assets s)).
      { apply (filter_singleton_In (matches r)). exact Ea. }
      assert (Hina2 : In a2 (assets t)).
      { apply (filter_singleton_In (matches r)). now symmetry. }
      match goal with
      | |- context [update_assets _ _ rest ?m1 ?f1 ?s1] =>
          match goal with
          | |- context [scan_network.handle_results _ _ rest ?c1 ?t1] =>
              specialize (IH m1 f1 c1 s1 t1)
          end
      end.
      cbn [world assets] in IH.
      assert (IH' := IH
        (tagged_save_row _ _
           (eq_trans (f_equal truthy (proj1 (proj2 (touched_keys _ _ a))))
                     (tagged_In _ _ Hs Hina)) Hs)
        (tagged_save_row _ _
           (eq_trans (f_equal truthy (asset_tag_touched_by_command _ _ a2))
                     (tagged_In _ _ Ht Hina2)) Ht)
        (save_row_same_but_location _ _ _ _ Hto HF) eq_refl).
      clear IH.
      destruct (update_assets _ _ rest _ _ _) as [[[[rest' m2] f2] | e] s2];
        destruct (scan_network.handle_results _ _ rest _ _) as [[c2 | e2] t2];
        cbn [scan_network.found_count scan_network.matched_count
             scan_network.missing_found ret] in IH' |- *;
        try exact IH'.
      destruct IH' as (? & ? & ? & ? & ?).
      destruct (is_missing a); repeat split; auto; lia.
    + inversion Hl; subst. repeat split; auto.
Qed.

(** X8.  Fed the same scan results on the same table (every row with its
    tag), the loop of [scan_and_update_assets] and the loop of the
    [scan_network] command do the same: both return or both raise the same
    error, they count the same matches and the same recoveries, and they
    leave tables that differ at most in the [location] text of the rows
    they recovered.  The command's [found_count] is the number of results
    that carry a hardware address and match no row. *)
Theorem library_and_command_agree
        (results : list ScanResult) (s : State World) :
  tagged (assets s) ->
  match reconcile timezone_now generate_asset_tag results s,
        scan_network.handle_results timezone_now generate_asset_tag results
                                    (scan_network.mkCounters 0 0 0) s
  with
  | (Returned summary, s1), (Returned c, s2) =>
      matched summary = scan_network.matched_count c
      /\ missing_found summary = scan_network.missing_found c
      /\ matched summary + scan_network.found_count c = with_address results
      /\ Forall2 same_but_location (assets s1) (assets s2)
  | (Raised e, s1), (Raised e', s2) =>
      e' = e /\ Forall2 same_but_location (assets s1) (assets s2)
  | _, _ => False
  end.
Proof.
  intros Hs. unfold reconcile, bind.
  pose proof (passes_agree results 0 0 (scan_network.mkCounters 0 0 0) s s Hs Hs
                (Forall2_same _ _ same_but_location_refl) eq_refl) as H.
  destruct (update_assets _ _ results 0 0 s) as [[[[res m] f] | e] s1];
    destruct (scan_network.handle_results _ _ results _ s) as [[c | e2] s2];
    cbn in H |- *; try exact H.
  - destruct H as (? & ? & ? & ? & ?). repeat split; auto; lia.
  - destruct H as (? & ? & ?). auto.
Qed.

End AgreementFacts.

Section FlagFacts.
Import Py models scanner obs shape registry flags.

Context {World : Type}.
Variable platform_system : string.
Variable subprocess_run : list string -> Z -> World -> Outcome CompletedProcess * World.
Variable list_capacity : Z.
Variable timezone_now : World -> Z * World.
Variable generate_asset_tag : Asset -> World -> string * World.

Lemma update_asset_flags (r : ScanResult) (m f : Z) (s : State World) r' m' f' s' :
  update_asset timezone_now generate_asset_tag r m f s = (Returned (r', m', f'), s') ->
  fresh_entry r ->
  map id (assets s') = map id (assets s)
  /\ well_flagged (assets s) r'
  /\ m' = m + (if r_asset_found r' then 1 else 0).
Proof.
  rewrite update_asset_general. intros H (_ & Hfound & Hid & Htag & _).
  destruct (filter (matches r) (assets s)) as [| a [| b l]] eqn:Hf;
    [| | discriminate]; injection H as <- <- <- <-.
  - unfold well_flagged. rewrite Hfound. repeat split; auto; lia.
  - cbn [assets]. split; [apply map_id_save_row|].
    unfold well_flagged, marked. cbn [r_asset_found r_asset_id r_asset_tag].
    split; [| reflexivity]. split; [| now eexists].
    eexists. split; [reflexivity|].
    rewrite id_saved_as. destruct (touched_keys (fst (timezone_now (world s)))
                                     (r_ip_address r) a) as [-> _].
    apply in_map. now apply (filter_singleton_In (matches r)).
Qed.

Lemma well_flagged_ids (rows rows' : list Asset) (r : ScanResult) :
  map id rows' = map id rows -> well_flagged rows' r -> well_flagged rows r.
Proof. unfold well_flagged. intros ->. auto. Qed.

Lemma update_assets_flags (results : list ScanResult) :
  forall (m f : Z) (s : State World) results' m' f' s',
    update_assets timezone_now generate_asset_tag results m f s
    = (Returned (results', m', f'), s') ->
    Forall fresh_entry results ->
    map id (assets s') = map id (assets s)
    /\ Forall (well_flagged (assets s)) results'
    /\ m' = m + flagged results'.
Proof.
  induction results as [| r rest IH]; intros m f s results' m' f' s' H Hfresh.
  - cbn in H. injection H as <- <- <- <-. unfold flagged. cbn.
    repeat split; auto; lia.
  - cbn [update_assets] in H. unfold bind at 1 in H.
    destruct (update_asset timezone_now generate_asset_tag r m f s)
      as [[[[r1 m1] f1] | e] s1] eqn:E1; [| discriminate].
    unfold bind at 1 in H.
    destruct (update_assets timezone_now generate_asset_tag rest m1 f1 s1)
      as [[[[rest' m2] f2] | e] s2] eqn:E2; [| discriminate].
    cbn in H. injection H as <- <- <- <-.
    inversion Hfresh as [| ? ? Hr Hrest]; subst.
    destruct (update_asset_flags _ _ _ _ _ _ _ _ E1 Hr) as (Hid1 & Hw1 & Hm1).
    destruct (IH _ _ _ _ _ _ _ E2 Hrest) as (Hid2 & Hw2 & Hm2).
    split; [congruence|]. split.
    + constructor; [exact Hw1|].
      eapply Forall_impl; [| exact Hw2]. intros x. now apply well_flagged_ids.
    + unfold flagged in *. cbn [filter].
      destruct (r_asset_found r1); cbn [List.length]; lia.
Qed.

(** X9.  In what [scan_and_update_assets] returns, [matched] counts the
    entries of [results] that are flagged [asset_found]; a flagged entry
    names the primary key of a row of the registry and a tag, and an entry
    that is not flagged names neither. *)
Theorem summary_flags_the_matched_results
        (subnet : string) (s s' : State World) (summary : Summary) :
  scan_and_update_assets platform_system subprocess_run list_capacity timezone_now
                         generate_asset_tag subnet s
  = (Returned summary, s') ->
  matched summary = flagged (results summary)
  /\ Forall (well_flagged (assets s)) (results summary).
Proof.
  unfold scan_and_update_assets, bind at 1.
  destruct (scan_report platform_system subprocess_run list_capacity (mkScanner subnet 1) s)
    as (out & s1 & tr & E & _ & Has & Hfresh & _).
  rewrite E. unfold reconcile, bind.
  destruct (update_assets timezone_now generate_asset_tag out 0 0 s1)
    as [[[[res m] f] | e] s2] eqn:E2; [| discriminate].
  intros [= <- <-]. cbn [matched results].
  destruct (update_assets_flags _ _ _ _ _ _ _ _ E2 Hfresh) as (_ & Hw & ->).
  rewrite Has in Hw. split; [lia | exact Hw].
Qed.

End FlagFacts.

(* ================================================================== *)
(** * Facts about the validators and the manual scan *)
(* ================================================================== *)

Section FormFacts.
Import Py models scanner obs shape registry forms.

Context {World : Type}.
Variable platform_system : string.
Variable subprocess_run : list string -> Z -> World -> Outcome CompletedProcess * World.
Variable list_capacity : Z.

Lemma substring_all (s : string) : substring 0 (String.length s) s = s.
Proof. induction s as [| c s IH]; cbn; [reflexivity | now rewrite IH]. Qed.

Lemma substring_none (n : nat) (s : string) : substring n 0 s = "".
Proof.
  revert s. induction n as [| n IH]; intros [| c s]; cbn; try reflexivity.
  apply IH.
Qed.

Lemma hex_of_upper_hex (c : ascii) : is_upper_hex c = true -> is_hex c = true.
Proof.
  destruct c as [[] [] [] [] [] [] [] []]; vm_compute; intros H;
    first [reflexivity | discriminate H].
Qed.

Lemma mac_shaped_six_pairs (sep : ascii) (m : string) :
  (sep = ":" \/ sep = "-")%char -> mac_shaped is_hex sep m = true ->
  six_pairs m = true.
Proof.
  intros Hsep H. unfold mac_shaped, six_pairs in *.
  apply andb_true_iff in H as [Hlen Hall]. rewrite Hlen. cbn [andb].
  rewrite forallb_forall in Hall |- *. intros i Hi. specialize (Hall i Hi).
  destruct (String.get i m) as [c |]; [| discriminate].
  destruct (Nat.eqb (i mod 3) 2); [| exact Hall].
  apply Ascii.eqb_eq in Hall. subst c.
  destruct Hsep as [-> | ->]; reflexivity.
Qed.

Lemma mac_shaped_weaken (d d' : ascii -> bool) (sep : ascii) (m : string) :
  (forall c, d c = true -> d' c = true) ->
  mac_shaped d sep m = true -> mac_shaped d' sep m = true.
Proof.
  intros Hd H. unfold mac_shaped in *.
  apply andb_true_iff in H as [Hlen Hall]. rewrite Hlen. cbn [andb].
  rewrite forallb_forall in Hall |- *. intros i Hi. specialize (Hall i Hi).
  destruct (String.get i m) as [c |]; [| discriminate].
  destruct (Nat.eqb (i mod 3) 2); [exact Hall | now apply Hd].
Qed.

Lemma mac_shaped_length (d : ascii -> bool) (sep : ascii) (m : string) :
  mac_shaped d sep m = true -> String.length m = 17%nat.
Proof.
  unfold mac_shaped. intros H. apply andb_true_iff in H as [Hlen _].
  now apply Nat.eqb_eq.
Qed.

Lemma mac_shaped_separator (d : ascii -> bool) (sep : ascii) (m : string) :
  mac_shaped d sep m = true -> String.get 2 m = Some sep.
Proof.
  unfold mac_shaped. intros H. apply andb_true_iff in H as [_ Hall].
  rewrite forallb_forall in Hall.
  assert (Hi : In 2%nat (seq 0 17)) by (apply in_seq; lia).
  specialize (Hall _ Hi). cbn beta in Hall.
  destruct (String.get 2 m) as [c |]; [| discriminate].
  change (Nat.eqb (2 mod 3) 2) with true in Hall. cbn iota in Hall.
  apply Ascii.eqb_eq in Hall. now subst.
Qed.

(** A text of six pairs passes the pattern of the form. *)
Lemma re_match_mac_six_pairs (m : string) :
  String.length m = 17%nat -> six_pairs m = true -> re_match_mac m = true.
Proof.
  intros Hlen H. unfold re_match_mac.
  rewrite <- Hlen at 1. rewrite substring_all, H, Hlen, Nat.sub_diag.
  now rewrite substring_none.
Qed.

Lemma clean_mac_address_shaped (sep : ascii) (m : string) :
  (sep = ":" \/ sep = "-")%char -> mac_shaped is_hex sep m = true ->
  clean_mac_address (Some m) = Clean (Some m).
Proof.
  intros Hsep H. unfold clean_mac_address.
  pose proof (mac_shaped_length _ _ _ H) as Hlen.
  rewrite (re_match_mac_six_pairs m Hlen (mac_shaped_six_pairs sep m Hsep H)).
  cbn. now destruct m.
Qed.

Lemma clean_mac_address_fresh (r : ScanResult) :
  fresh_entry r -> clean_mac_address (r_mac_address r) = Clean (r_mac_address r).
Proof.
  intros (_ & _ & _ & _ & H). destruct (r_mac_address r) as [m |]; [| reflexivity].
  apply (clean_mac_address_shaped ":"); [now left|].
  exact (mac_shaped_weaken _ _ _ _ hex_of_upper_hex H).
Qed.

(** X10.  Every hardware address that a scan reports, on any platform and
    whatever the neighbour tables print, is one that
    [AssetForm.clean_mac_address] accepts unchanged: what a scan finds can
    be typed into the asset form as it is. *)
Theorem scanned_addresses_pass_the_asset_form
        (self : NetworkScanner) (s : State World) :
  exists out s',
    scan platform_system subprocess_run list_capacity self s = (Returned out, s')
    /\ Forall (fun r => clean_mac_address (r_mac_address r)
                        = Clean (r_mac_address r)) out.
Proof.
  destruct (scan_report platform_system subprocess_run list_capacity self s)
    as (out & s' & tr & E & _ & _ & Hf & _).
  exists out, s'. split; [exact E|].
  eapply Forall_impl; [| exact Hf]. exact clean_mac_address_fresh.
Qed.

Lemma get_upper (m : string) (i : nat) :
  String.get i (upper m) = option_map upper_ascii (String.get i m).
Proof. apply get_map_string. Qed.

Lemma dashed_never_matches (m : string) (a : Asset) (r : ScanResult) :
  mac_shaped is_hex "-" m = true -> mac_address a = Some m ->
  fresh_entry r -> matches r a = false.
Proof.
  intros Hm Ha (_ & _ & _ & _ & Hr). unfold matches.
  destruct (r_mac_address r) as [x |]; [| reflexivity].
  rewrite Ha. unfold iexact.
  destruct (String.eqb (upper m) (upper x)) eqn:E; [| apply andb_false_r].
  apply String.eqb_eq in E.
  assert (H2 : String.get 2 (upper m) = String.get 2 (upper x)) by now rewrite E.
  rewrite !get_upper, (mac_shaped_separator _ _ _ Hm),
    (mac_shaped_separator _ _ _ Hr) in H2.
  discriminate H2.
Qed.

(** X11.  A hardware address written with dashes (as Windows prints it) is
    accepted by [AssetForm.clean_mac_address] as it is, but a scan reports
    addresses with colons only and [iexact] compares the texts: an asset
    stored with such an address is matched by no result of any scan. *)
Theorem dashed_address_is_accepted_but_never_matched
        (m : string) (a : Asset) :
  mac_shaped is_hex "-" m = true ->
  mac_address a = Some m ->
  clean_mac_address (Some m) = Clean (Some m)
  /\ forall (self : NetworkScanner) (s : State World),
       exists out s',
         scan platform_system subprocess_run list_capacity self s = (Returned out, s')
         /\ Forall (fun r => matches r a = false) out.
Proof.
  intros Hm Ha. split.
  - apply (clean_mac_address_shaped "-"); [now right | exact Hm].
  - intros self s.
    destruct (scan_report platform_system subprocess_run list_capacity self s)
      as (out & s' & tr & E & _ & _ & Hf & _).
    exists out, s'. split; [exact E|].
    eapply Forall_impl; [| exact Hf].
    intros r Hr. exact (dashed_never_matches m a r Hm Ha Hr).
Qed.

End FormFacts.

Section ViewFacts.
Import Py models scanner obs shape registry forms views.

Context {World : Type}.
Variable platform_system : string.
Variable subprocess_run : list string -> Z -> World -> Outcome CompletedProcess * World.
Variable list_capacity : Z.
Variable timezone_now : World -> Z * World.
Variable generate_asset_tag : Asset -> World -> string * World.
Variable subnet_field_clean : option string -> Cleaned string.
Variable timeout_field_clean : option string -> Cleaned Z.

Lemma on_net_eq {A} (m : M (scanner.State World) A) (v : views.State World) :
  on_net m v
  = (fst (m (net v)), views.mkState (snd (m (net v))) (messages v) (audit_log v)).
Proof. unfold on_net. now destruct (m (net v)). Qed.

(** One iteration of the loop of the view, by the rows that carry the
    hardware address of the result. *)
Lemma note_result_general (result : ScanResult) (v : views.State World) :
  note_result timezone_now generate_asset_tag result v =
  match filter (matches result) (assets (net v)) with
  | [] => (Returned tt, v)
  | [asset] =>
      let s := net v in
      let seen := touched_by_view (fst (timezone_now (world s)))
                                  (r_ip_address result) asset in
      let w := snd (timezone_now (world s)) in
      (Returned tt,
       views.mkState
         (scanner.mkState (world_after_save generate_asset_tag seen w) (trace s)
            (save_row (saved_as generate_asset_tag seen w) (assets s))
            (printed s) (cmd_stdout s))
         (messages v
            ++ if is_missing asset
               then [(warning,
                      ("Found missing asset " ++ asset_tag asset
                         ++ " on network!")%string)]
               else [])
         (audit_log v))
  | _ :: _ :: _ => (Raised several_rows, v)
  end.
Proof.
  unfold note_result.
  destruct (r_mac_address result) as [mac |] eqn:Hm.
  - destruct (truthy mac) eqn:Ht.
    + unfold try_except_cls, try_except, bind at 1. rewrite on_net_eq.
      unfold get_asset, objects_get. cbn [fst snd].
      rewrite (filter_matches result mac (assets (net v)) Hm Ht).
      destruct (filter (matches result) (assets (net v))) as [| a [| b l]].
      * cbn. now destruct v.
      * unfold bind at 1. rewrite on_net_eq, scanner_now_eq. cbn [fst snd net].
        cbn [status set_network_last_seen set_ip_address].
        unfold touched_by_view, is_missing.
        destruct (status_eqb (status a) MISSING).
        -- unfold bind at 1. unfold bind at 1. unfold add_message, modify, ret at 1.
           unfold bind. rewrite on_net_eq, save_eq.
           cbn. reflexivity.
        -- unfold bind at 1, ret at 1. unfold bind. rewrite on_net_eq, save_eq.
           cbn. now rewrite app_nil_r.
      * cbn. now destruct v.
    + rewrite (filter_none (matches result)); [reflexivity|].
      intros a _. unfold matches. now rewrite Hm, Ht.
  - rewrite (filter_none (matches result)); [reflexivity|].
    intros a _. unfold matches. now rewrite Hm.
Qed.

Lemma for_each_note_result_keeps (results : list ScanResult) :
  forall (v : views.State World) o v',
    for_each results (note_result timezone_now generate_asset_tag) v = (o, v') ->
    audit_log v' = audit_log v
    /\ trace (net v') = trace (net v)
    /\ printed (net v') = printed (net v).
Proof.
  induction results as [| r rest IH]; intros v o v' H.
  - cbn in H. now injection H as <- <-.
  - cbn [for_each] in H. unfold bind in H.
    rewrite note_result_general in H.
    destruct (filter (matches r) (assets (net v))) as [| a [| b l]].
    + exact (IH _ _ _ H).
    + cbv zeta in H. apply IH in H. exact H.
    + now injection H as <- <-.
Qed.

(** The view up to the point where it has read the profile. *)
Lemma network_scan_view_eq (request : HttpRequest) (v : views.State World) :
  network_scan_view platform_system subprocess_run list_capacity timezone_now
                    generate_asset_tag subnet_field_clean timeout_field_clean
                    request v
  = match profile request with
    | None => (Raised (Exn DoesNotExist "User has no profile."), v)
    | Some p =>
        if is_admin p then
          if String.eqb (method request) "POST" then
            match full_clean subnet_field_clean timeout_field_clean
                             (POST request) with
            | Raised e => (Raised e, v)
            | Returned (Valid subnet timeout) =>
                match scan platform_system subprocess_run list_capacity
                           (mkScanner subnet timeout) (net v) with
                | (Raised e, s1) =>
                    (Raised e, views.mkState s1 (messages v) (audit_log v))
                | (Returned scan_results, s1) =>
                    match for_each scan_results
                                   (note_result timezone_now generate_asset_tag)
                                   (views.mkState s1 (messages v) (audit_log v))
                    with
                    | (Raised e, v2) => (Raised e, v2)
                    | (Returned _, v2) =>
                        let found :=
                          str_int (Z.of_nat (List.length scan_results)) in
                        (Returned (render "asset_management/network_scan.html"
                                          (Valid subnet timeout)
                                          (Some scan_results)),
                         views.mkState
                           (net v2)
                           (messages v2
                              ++ [(success,
                                   ("Network scan completed. Found " ++ found
                                      ++ " devices.")%string)])
                           (audit_log v2
                              ++ [mkAuditLog (user request) "SCAN"
                                    ("Network scan performed on " ++ subnet
                                       ++ ". Found " ++ found ++ " devices.")%string
                                    None None (REMOTE_ADDR request)]))
                    end
                end
            | Returned form =>
                (Returned (render "asset_management/network_scan.html" form None),
                 v)
            end
          else
            (Returned (render "asset_management/network_scan.html" Unbound None),
             v)
        else
          (Returned (redirect "dashboard" None),
           views.mkState (net v)
             (messages v ++ [(error, "Permission denied. Admin access required.")])
             (audit_log v))
    end.
Proof.
  unfold network_scan_view.
  destruct (profile request) as [p |]; [| reflexivity].
  unfold bind at 1, ret at 1. destruct (is_admin p); cbn [negb]; [| reflexivity].
  destruct (String.eqb (method request) "POST"); [| reflexivity].
  unfold bind at 1. unfold bind at 1, lift.
  destruct (full_clean _ _ _) as [[| errors | subnet timeout] | e];
    try reflexivity.
  unfold bind at 1. rewrite on_net_eq.
  destruct (scan _ _ _ _) as [[scan_results | e] s1]; cbn [fst snd];
    [| reflexivity].
  unfold bind at 1.
  destruct (for_each _ _ _) as [[[] | e] v2]; reflexivity.
Qed.

(** X12.  The manual scan runs only for an administrator who posts a form
    that validates.  For any other request (a user whose profile is not
    [ADMIN] or who has none, a method other than [POST], a form with an
    error) the view runs no sub-process, changes no row, writes no audit
    record and shows no scan results. *)
Theorem web_scan_needs_an_administrator_and_a_valid_form
        (request : HttpRequest) (v : views.State World) :
  (forall p, profile request = Some p -> is_admin p = false)
  \/ method request <> "POST"
  \/ (forall subnet timeout,
        full_clean subnet_field_clean timeout_field_clean (POST request)
        <> Returned (Valid subnet timeout)) ->
  let out :=
    network_scan_view platform_system subprocess_run list_capacity timezone_now
                      generate_asset_tag subnet_field_clean timeout_field_clean
                      request v in
  net (snd out) = net v
  /\ audit_log (snd out) = audit_log v
  /\ forall template form results,
       fst out <> Returned (render template form (Some results)).
Proof.
  intros H out. subst out. rewrite network_scan_view_eq.
  destruct (profile request) as [p |]; [| repeat split; discriminate].
  destruct (is_admin p) eqn:Hp; [| repeat split; discriminate].
  destruct H as [H | H]; [specialize (H p eq_refl); congruence|].
  destruct (String.eqb (method request) "POST") eqn:Hm;
    [| repeat split; discriminate].
  apply String.eqb_eq in Hm.
  destruct H as [H | H]; [contradiction|].
  destruct (full_clean _ _ _) as [[| errors | subnet timeout] | e];
    try (repeat split; discriminate).
  now specialize (H subnet timeout).
Qed.

Lemma ip_network_raises_ValueError (text : string) (e : exn) :
  ipaddress.ip_network text = Raised e -> isinstance e ValueError = true.
Proof.
  unfold ipaddress.ip_network.
  destruct (ipaddress.IPNetwork ipaddress.V4 text); [discriminate|].
  destruct (ipaddress.IPNetwork ipaddress.V6 text); [discriminate|].
  now intros [= <-].
Qed.

(** X13.  On the web path a malformed subnet is refused before any probing.
    [clean_subnet] receives the posted subnet as the field has cleaned it
    (a [CharField] strips the text and refuses an empty or overlong one
    itself).  When an administrator posts a form whose subnet the field
    cleans to a text that [ip_network] rejects, [clean_subnet] turns the
    error into a validation error of the field [subnet], and the view
    shows the form again without having scanned, written or logged
    anything. *)
Theorem web_scan_rejects_a_malformed_subnet
        (request : HttpRequest) (v : views.State World)
        (p : UserProfile) (text : string) (e : exn) :
  profile request = Some p -> is_admin p = true ->
  method request = "POST" ->
  subnet_field_clean (POST request "subnet") = Clean text ->
  ipaddress.ip_network text = Raised e ->
  exists errors,
    network_scan_view platform_system subprocess_run list_capacity timezone_now
                      generate_asset_tag subnet_field_clean timeout_field_clean
                      request v
    = (Returned
         (render "asset_management/network_scan.html"
            (Invalid
               (("subnet",
                 "Invalid subnet format. Use CIDR notation (e.g., 192.168.1.0/24)")
                  :: errors))
            None),
       v).
Proof.
  intros Hprofile Hadmin Hmethod Hfield Hnet.
  rewrite network_scan_view_eq, Hprofile, Hadmin, Hmethod, String.eqb_refl.
  unfold full_clean, clean_subnet. rewrite Hfield, Hnet.
  rewrite (ip_network_raises_ValueError text e Hnet).
  destruct (timeout_field_clean _); eexists; reflexivity.
Qed.

(** X14.  One iteration of the loop of the view on a result whose hardware
    address [objects.get] resolves: the row is saved with the time of the
    scan and the observed address, a [MISSING] row as [AVAILABLE] with a
    warning queued for the user; the [location] of the row is kept in
    either case (the command-line paths overwrite it), and nothing is
    written to the audit log. *)
Theorem web_scan_recovers_without_relocating
        (result : ScanResult) (mac : string) (asset : Asset)
        (v : views.State World) :
  r_mac_address result = Some mac ->
  truthy mac = true ->
  objects_get (assets (net v)) mac = Returned asset ->
  truthy (asset_tag asset) = true ->
  let seen :=
    mkAsset (id asset) (asset_tag asset) (mac_address asset)
            (Some (r_ip_address result))
            (if is_missing asset then AVAILABLE else status asset)
            (location asset)
            (Some (fst (timezone_now (world (net v))))) in
  exists v',
    note_result timezone_now generate_asset_tag result v = (Returned tt, v')
    /\ assets (net v') = save_row seen (assets (net v))
    /\ messages v'
       = (messages v
            ++ if is_missing asset
               then [(warning,
                      ("Found missing asset " ++ asset_tag asset
                         ++ " on network!")%string)]
               else [])%list
    /\ audit_log v' = audit_log v.
Proof.
  intros Hm Ht Hget Htag seen. rewrite note_result_general.
  rewrite (objects_get_matches result mac _ asset Hm Ht Hget). cbv zeta.
  eexists. split; [reflexivity|]. cbn [net assets messages views.audit_log].
  split; [| split; reflexivity].
  f_equal. unfold saved_as, touched_by_view, seen.
  destruct (is_missing asset); cbn; now rewrite Htag.
Qed.

(** X15.  A manual scan that an administrator starts with a valid form: the
    scan returns entries that name no asset, and the view shows them as
    they are, whatever the loop matched.  If the loop returns, the view
    writes exactly one audit record, of action [SCAN], by the requesting
    user and from the peer address, and queues a success message; both
    give the number of hosts that answered.  If the loop raises, the error
    leaves the view and no audit record is written. *)
Theorem web_scan_is_audited_with_the_host_count
        (request : HttpRequest) (v : views.State World)
        (p : UserProfile) (subnet : string) (timeout : Z) :
  profile request = Some p -> is_admin p = true ->
  method request = "POST" ->
  full_clean subnet_field_clean timeout_field_clean (POST request)
  = Returned (Valid subnet timeout) ->
  exists scan_results s1,
    scan platform_system subprocess_run list_capacity (mkScanner subnet timeout) (net v)
    = (Returned scan_results, s1)
    /\ Forall fresh_entry scan_results
    /\ let found := str_int (Z.of_nat (List.length scan_results)) in
       match for_each scan_results (note_result timezone_now generate_asset_tag)
                      (views.mkState s1 (messages v) (audit_log v)) with
       | (Returned _, v2) =>
           network_scan_view platform_system subprocess_run list_capacity timezone_now
                             generate_asset_tag subnet_field_clean
                             timeout_field_clean request v
           = (Returned (render "asset_management/network_scan.html"
                               (Valid subnet timeout) (Some scan_results)),
              views.mkState
                (net v2)
                (messages v2
                   ++ [(success,
                        ("Network scan completed. Found " ++ found
                           ++ " devices.")%string)])
                (audit_log v
                   ++ [mkAuditLog (user request) "SCAN"
                         ("Network scan performed on " ++ subnet ++ ". Found "
                            ++ found ++ " devices.")%string
                         None None (REMOTE_ADDR request)]))
       | (Raised e, v2) =>
           network_scan_view platform_system subprocess_run list_capacity timezone_now
                             generate_asset_tag subnet_field_clean
                             timeout_field_clean request v
           = (Raised e, v2)
           /\ audit_log v2 = audit_log v
       end.
Proof.
  intros Hprofile Hadmin Hmethod Hform.
  rewrite network_scan_view_eq, Hprofile, Hadmin, Hmethod, String.eqb_refl, Hform.
  destruct (scan_report platform_system subprocess_run list_capacity
              (mkScanner subnet timeout) (net v))
    as (out & s1 & tr & E & _ & _ & Hf & _).
  rewrite E. exists out, s1. split; [reflexivity|]. split; [exact Hf|].
  cbv zeta.
  destruct (for_each _ _ _) as [[[] | e] v2] eqn:E2;
    apply for_each_note_result_keeps in E2 as (Ha & _);
    cbn [views.audit_log] in Ha.
  - now rewrite Ha.
  - split; [reflexivity | exact Ha].
Qed.

End ViewFacts.

(* ================================================================== *)
(** * Facts about the QR label and its lookup *)
(* ================================================================== *)

Section LabelFacts.
Import Py models scanner forms views label.

Context {World : Type}.

Lemma split_field (sep : ascii) (x y : string) :
  contains sep x = false ->
  split sep (x ++ String sep y) = x :: split sep y.
Proof.
  induction x as [| c x IH]; cbn; intros H.
  - now rewrite Ascii.eqb_refl.
  - apply orb_false_iff in H as [Hc Hx]. rewrite Ascii.eqb_sym, Hc.
    now rewrite (IH Hx).
Qed.

Lemma append_empty_r (s : string) : (s ++ "")%string = s.
Proof. induction s as [| c s IH]; cbn; [reflexivity | now rewrite IH]. Qed.

Lemma prefix_append (p s : string) : String.prefix p (p ++ s) = true.
Proof.
  induction p as [| c p IH]; cbn; [now destruct s|].
  destruct (ascii_dec c c); [exact IH | contradiction].
Qed.

Lemma split_last_field (sep : ascii) (x : string) :
  contains sep x = false -> split sep x = [x].
Proof.
  induction x as [| c x IH]; cbn; intros H; [reflexivity|].
  apply orb_false_iff in H as [Hc Hx]. rewrite Ascii.eqb_sym, Hc.
  now rewrite (IH Hx).
Qed.

(** What the view does once it has read the field to look up. *)
Lemma qr_lookup_eq (request : HttpRequest) (v : views.State World) :
  qr_lookup request v
  = if String.eqb (method request) "POST" then
      let parts :=
        split "|" match POST request "qr_data" with
                  | Some text => text
                  | None => ""
                  end in
      if (2 <=? List.length parts)%nat then
        match filter (fun a => String.eqb (asset_tag a) (nth 1 parts ""))
                     (assets (net v)) with
        | [] =>
            (Returned (redirect "qr_scanner" None),
             views.mkState (net v)
               (messages v
                  ++ [(error, ("Asset " ++ nth 1 parts "" ++ " not found")%string)])
               (audit_log v))
        | [asset] => (Returned (redirect "asset_detail" (Some (id asset))), v)
        | _ :: _ :: _ =>
            (Returned (redirect "qr_scanner" None),
             views.mkState (net v)
               (messages v ++ [(error, "Error reading QR code")])
               (audit_log v))
        end
      else
        (Returned (redirect "qr_scanner" None),
         views.mkState (net v)
           (messages v ++ [(error, "Invalid QR code format")])
           (audit_log v))
    else (Returned (redirect "qr_scanner" None), v).
Proof.
  unfold qr_lookup.
  destruct (String.eqb (method request) "POST"); [| reflexivity].
  cbv zeta.
  destruct (2 <=? List.length _)%nat; [| reflexivity].
  unfold bind at 1, try_except, try_except_cls, try_except, bind at 1.
  rewrite on_net_eq. cbn [fst snd]. unfold get_by_tag.
  destruct (filter _ (assets (net v))) as [| a [| b l]]; cbn;
    try reflexivity.
  now destruct v.
Qed.

(** X16.  The QR label round trip: the text that [generate_qr_code] encodes
    for an asset, posted to [qr_lookup], leads to the page of that asset,
    whatever its serial number, provided the tag contains no bar and the
    registry holds the asset under its tag; the view changes nothing. *)
Theorem qr_label_leads_back_to_its_asset
        (request : HttpRequest) (v : views.State World)
        (asset : Asset) (serial_number : option string) :
  method request = "POST" ->
  POST request "qr_data" = Some (qr_data (asset_tag asset) serial_number) ->
  contains "|" (asset_tag asset) = false ->
  get_by_tag (assets (net v)) (asset_tag asset) = Returned asset ->
  qr_lookup request v
  = (Returned (redirect "asset_detail" (Some (id asset))), v).
Proof.
  intros Hmethod Hdata Hbar Hget.
  rewrite qr_lookup_eq, Hmethod, String.eqb_refl, Hdata. cbv zeta.
  unfold qr_data.
  change ("AMATS|" ++ asset_tag asset ++ "|" ++ ?r)%string
    with ("AMATS" ++ String "|" (asset_tag asset ++ String "|" r))%string.
  rewrite (split_field "|" "AMATS") by reflexivity.
  rewrite (split_field "|" (asset_tag asset)) by exact Hbar.
  cbn [List.length Nat.leb nth].
  unfold get_by_tag in Hget.
  destruct (filter _ (assets (net v))) as [| a [| b l]]; try discriminate.
  now injection Hget as ->.
Qed.

(** X17.  [qr_lookup] reads the field between the first and the second bar
    and nothing else: the first field need not be [AMATS], and whatever
    follows the second field is ignored.  So the label of an asset whose
    tag contains a bar is looked up under the part of the tag before the
    bar. *)
Theorem qr_lookup_reads_the_second_field_only
        (request : HttpRequest) (v : views.State World)
        (first second rest : string) :
  method request = "POST" ->
  POST request "qr_data" = Some (first ++ "|" ++ second ++ rest)%string ->
  contains "|" first = false ->
  contains "|" second = false ->
  rest = "" \/ String.prefix "|" rest = true ->
  qr_lookup request v
  = match get_by_tag (assets (net v)) second with
    | Returned asset => (Returned (redirect "asset_detail" (Some (id asset))), v)
    | Raised e =>
        (Returned (redirect "qr_scanner" None),
         views.mkState (net v)
           (messages v
              ++ [(error,
                   if isinstance e DoesNotExist
                   then ("Asset " ++ second ++ " not found")%string
                   else "Error reading QR code")])
           (audit_log v))
    end.
Proof.
  intros Hmethod Hdata Hfirst Hsecond Hrest.
  rewrite qr_lookup_eq, Hmethod, String.eqb_refl, Hdata. cbv zeta.
  change (first ++ "|" ++ second ++ rest)%string
    with (first ++ String "|" (second ++ rest))%string.
  rewrite (split_field "|" first) by exact Hfirst.
  assert (Hs : exists tail, split "|" (second ++ rest) = second :: tail).
  { destruct Hrest as [-> | Hrest].
    - exists []. rewrite append_empty_r. now apply split_last_field.
    - destruct rest as [| c rest]; [discriminate|].
      cbn [String.prefix] in Hrest.
      destruct (ascii_dec "|" c) as [<- |]; [| discriminate].
      eexists. now apply split_field. }
  destruct Hs as [tail ->]. cbn [List.length Nat.leb nth].
  unfold get_by_tag.
  destruct (filter _ (assets (net v))) as [| a [| b l]]; reflexivity.
Qed.

End LabelFacts.

(* ================================================================== *)
(** * Facts about the generation of tags *)
(* ================================================================== *)

Section TaggingFacts.
Import Py models tagging.

Context {World : Type}.
Variable slugify : string -> string.
Variable random_randint : Z -> Z -> World -> Z * World.
Variable uuid4_hex : World -> string * World.

Lemma draw_spec (n : nat) (abbrev : string) (rows : list Asset) :
  forall w : World,
    match draw random_randint n "UTV" abbrev rows w with
    | (Returned (Some tag), w') =>
        in_use rows tag = false
        /\ exists pre post,
             fst (candidates random_randint n abbrev w) = (pre ++ tag :: post)%list
             /\ forallb (in_use rows) pre = true
    | (Returned None, w') =>
        forallb (in_use rows) (fst (candidates random_randint n abbrev w)) = true
        /\ w' = snd (candidates random_randint n abbrev w)
        /\ List.length (fst (candidates random_randint n abbrev w)) = n
    | (Raised _, _) => False
    end.
Proof.
  induction n as [| n IH]; intros w; cbn [draw candidates].
  - cbn. auto.
  - destruct (random_randint 0 9999 w) as [k w1].
    specialize (IH w1).
    destruct (candidates random_randint n abbrev w1) as [rest w2] eqn:Ec.
    cbn [fst snd] in IH |- *.
    destruct (in_use rows ("UTV" ++ "-" ++ abbrev ++ "-" ++ format_04d k)) eqn:Eu;
      cbn [negb].
    + destruct (draw random_randint n "UTV" abbrev rows w1) as [[[tag |] | e] w'].
      * destruct IH as (Hfree & pre & post & Hc & Hpre). split; [exact Hfree|].
        exists (("UTV" ++ "-" ++ abbrev ++ "-" ++ format_04d k)%string :: pre), post.
        rewrite Hc. split; [reflexivity|]. cbn [forallb]. now rewrite Eu.
      * destruct IH as (Hall & Hw & Hlen). cbn [forallb List.length].
        rewrite Eu, Hall, Hlen. auto.
      * exact IH.
    + split; [exact Eu|]. exists [], rest. split; reflexivity.
Qed.

Lemma append_assoc (a b c : string) : ((a ++ b) ++ c)%string = (a ++ b ++ c)%string.
Proof. induction a as [| x a IH]; cbn; [reflexivity | now rewrite IH]. Qed.

Lemma tag_prefix (abbrev tail : string) :
  String.prefix ("UTV-" ++ abbrev ++ "-") ("UTV-" ++ abbrev ++ "-" ++ tail) = true.
Proof.
  replace ("UTV-" ++ abbrev ++ "-" ++ tail)%string
    with (("UTV-" ++ abbrev ++ "-") ++ tail)%string.
  - apply prefix_append.
  - now rewrite !append_assoc.
Qed.

Lemma candidates_prefix (n : nat) (abbrev : string) :
  forall (w : World) (tag : string),
    In tag (fst (candidates random_randint n abbrev w)) ->
    String.prefix ("UTV-" ++ abbrev ++ "-") tag = true.
Proof.
  induction n as [| n IH]; intros w tag Hin; cbn [candidates] in Hin.
  - destruct Hin.
  - destruct (random_randint 0 9999 w) as [k w1].
    destruct (candidates random_randint n abbrev w1) as [rest w2] eqn:Ec.
    cbn [fst] in Hin. destruct Hin as [<- | Hin].
    + apply tag_prefix.
    + apply (IH w1). now rewrite Ec.
Qed.

(** X18.  [_generate_asset_tag] returns a tag that begins with [UTV-], the
    abbreviation of the category ([OTH] without one) and a dash.  The tag
    is the first of at most ten random candidates that no row carries, so
    it is not in use; only when ten candidates in a row are in use does
    the function fall back on six characters of a UUID, and that tag it
    does not check. *)
Theorem generated_tag_is_unused_or_the_fallback
        (category : option string) (rows : list Asset) (w : World) :
  let abbrev := cat_abbrev slugify category in
  let drawn := fst (candidates random_randint 10 abbrev w) in
  exists tag w',
    _generate_asset_tag slugify random_randint uuid4_hex category rows w
    = (Returned tag, w')
    /\ String.prefix ("UTV-" ++ abbrev ++ "-") tag = true
    /\ ((in_use rows tag = false
         /\ exists pre post,
              drawn = (pre ++ tag :: post)%list
              /\ forallb (in_use rows) pre = true)
        \/ (forallb (in_use rows) drawn = true
            /\ List.length drawn = 10%nat
            /\ tag = ("UTV-" ++ abbrev ++ "-"
                        ++ upper (take 6 (fst (uuid4_hex
                             (snd (candidates random_randint 10 abbrev w))))))%string)).
Proof.
  intros abbrev drawn. unfold _generate_asset_tag. fold abbrev. unfold bind.
  pose proof (draw_spec 10 abbrev rows w) as H.
  destruct (draw random_randint 10 "UTV" abbrev rows w) as [[[tag |] | e] w'];
    [| | contradiction].
  - destruct H as (Hfree & pre & post & Hc & Hpre).
    exists tag, w'. split; [reflexivity|]. split.
    + apply (candidates_prefix 10 abbrev w). unfold drawn in Hc. rewrite Hc.
      apply in_elt.
    + left. split; [exact Hfree|]. now exists pre, post.
  - destruct H as (Hall & -> & Hlen).
    destruct (uuid4_hex _) as [hex w1] eqn:Eh.
    eexists _, _. split; [reflexivity|]. split.
    + change ("UTV" ++ "-" ++ abbrev ++ "-" ++ upper (take 6 hex))%string
        with ("UTV-" ++ abbrev ++ "-" ++ upper (take 6 hex))%string.
      apply tag_prefix.
    + right. repeat split; auto.
Qed.

End TaggingFacts.

(* ================================================================== *)
(** * Facts about the output of the command *)
(* ================================================================== *)

Section ConsoleFacts.
Import Py models scanner obs shape registry console.

Context {World : Type}.
Variable platform_system : string.
Variable subprocess_run : list string -> Z -> World -> Outcome CompletedProcess * World.
Variable list_capacity : Z.
Variable timezone_now : World -> Z * World.
Variable generate_asset_tag : Asset -> World -> string * World.

(** The loop of the command writes one line for each result that carries
    a hardware address. *)
Lemma handle_results_lines (results : list ScanResult) :
  forall (c c' : scan_network.Counters) (s s' : State World),
    scan_network.handle_results timezone_now generate_asset_tag results c s
    = (Returned c', s') ->
    exists lines,
      cmd_stdout s' = (cmd_stdout s ++ lines)%list
      /\ Z.of_nat (List.length lines) = with_address results
      /\ forallb device_line lines = true
      /\ trace s' = trace s /\ printed s' = printed s.
Proof.
  induction results as [| r rest IH]; intros c c' s s' H.
  - cbn in H. injection H as <- <-. exists []. rewrite app_nil_r.
    unfold with_address. cbn. auto.
  - cbn [scan_network.handle_results] in H. unfold bind in H.
    rewrite handle_result_general in H. rewrite with_address_cons.
    destruct (filter (matches r) (assets s)) as [| a [| b l]] eqn:Ef.
    + destruct (truthy_opt (r_mac_address r)).
      * apply IH in H as (lines & Hl & Hn & Hd & Ht & Hp).
        cbn [cmd_stdout trace printed] in Hl, Ht, Hp.
        eexists (_ :: lines). rewrite Hl, <- app_assoc. cbn [app].
        split; [reflexivity|]. cbn [List.length forallb].
        rewrite Nat2Z.inj_succ, Hd. repeat split; auto; try lia.
        unfold device_line. cbn [fst snd]. now rewrite prefix_append.
      * apply IH in H as (lines & Hl & Hn & Hd & Ht & Hp).
        exists lines. repeat split; auto; lia.
    + rewrite (filter_matches_truthy r _ _ _ Ef).
      apply IH in H as (lines & Hl & Hn & Hd & Ht & Hp).
      cbn [cmd_stdout trace printed] in Hl, Ht, Hp.
      eexists (_ :: lines). rewrite Hl, <- app_assoc. cbn [app].
      split; [reflexivity|]. cbn [List.length forallb].
      rewrite Nat2Z.inj_succ, Hd.
      repeat split; auto; try lia.
      unfold device_line.
      destruct (is_missing a); cbn [fst snd]; now rewrite prefix_append.
    + discriminate.
Qed.

(** The command, by what the scan and the loop return. *)
Lemma handle_eq (subnet : string) (timeout : Z) (s : State World) :
  scan_network.handle platform_system subprocess_run list_capacity timezone_now
                      generate_asset_tag subnet timeout s
  = match scan platform_system subprocess_run list_capacity (mkScanner subnet timeout)
               (mkState (world s) (trace s) (assets s) (printed s)
                        (cmd_stdout s ++ header subnet timeout)) with
    | (Returned results, s1) =>
        match scan_network.handle_results timezone_now generate_asset_tag results
                                          (scan_network.mkCounters 0 0 0) s1 with
        | (Returned c, s2) =>
            (Returned tt,
             mkState (world s2) (trace s2) (assets s2) (printed s2)
                     (cmd_stdout s2
                        ++ [(PLAIN, scan_network.rule);
                            (SUCCESS,
                             scan_network.summary_line
                               (Z.of_nat (List.length results)) c)]))
        | (Raised e, s2) => (Raised e, s2)
        end
    | (Raised e, s1) => (Raised e, s1)
    end.
Proof.
  unfold scan_network.handle.
  unfold bind at 1. rewrite stdout_write_eq.
  unfold bind at 1. rewrite stdout_write_eq.
  unfold bind at 1. rewrite stdout_write_eq.
  cbn [world trace assets printed cmd_stdout]. rewrite <- !app_assoc.
  cbn [app]. fold (header subnet timeout).
  unfold bind at 1.
  destruct (scan _ _ _ _) as [[results | e] s1]; [| reflexivity].
  unfold bind at 1.
  destruct (scan_network.handle_results _ _ results _ s1) as [[c | e] s2];
    [| reflexivity].
  unfold bind. rewrite !stdout_write_eq.
  cbn [world trace assets printed cmd_stdout].
  now rewrite <- !app_assoc.
Qed.

(** X19.  What the [scan_network] command writes: three opening lines, then
    one line for each host that answered with a hardware address (a
    recovered asset, a detected asset or an unknown device; a host without
    a hardware address gets none), then a rule and the closing line with
    the number of hosts that answered and the counters of the loop.  When
    the loop raises, the error leaves the command and no closing line is
    written. *)
Theorem scan_network_writes_one_line_per_addressed_host
        (subnet : string) (timeout : Z) (s : State World) :
  let opened :=
    mkState (world s) (trace s) (assets s) (printed s)
            (cmd_stdout s ++ header subnet timeout) in
  exists results s1,
    scan platform_system subprocess_run list_capacity (mkScanner subnet timeout) opened
    = (Returned results, s1)
    /\ match scan_network.handle_results timezone_now generate_asset_tag results
                                         (scan_network.mkCounters 0 0 0) s1 with
       | (Returned c, s2) =>
           exists lines,
             scan_network.handle platform_system subprocess_run list_capacity timezone_now
                                 generate_asset_tag subnet timeout s
             = (Returned tt,
                mkState (world s2) (trace s2) (assets s2) (printed s2)
                        (cmd_stdout s ++ header subnet timeout ++ lines
                           ++ [(PLAIN, scan_network.rule);
                               (SUCCESS,
                                scan_network.summary_line
                                  (Z.of_nat (List.length results)) c)]))
             /\ Z.of_nat (List.length lines) = with_address results
             /\ forallb device_line lines = true
       | (Raised e, s2) =>
           scan_network.handle platform_system subprocess_run list_capacity timezone_now
                               generate_asset_tag subnet timeout s
           = (Raised e, s2)
       end.
Proof.
  intros opened. rewrite handle_eq. fold opened.
  destruct (scan_returns platform_system subprocess_run list_capacity
              (mkScanner subnet timeout) opened)
    as (results & s1 & tr & E & _ & _ & _ & Hout & _).
  exists results, s1. split; [exact E|]. rewrite E.
  destruct (scan_network.handle_results _ _ results _ s1) as [[c | e] s2] eqn:E2;
    [| reflexivity].
  apply handle_results_lines in E2 as (lines & Hl & Hn & Hd & _).
  exists lines. split; [| split; assumption].
  rewrite Hl, Hout. unfold opened. cbn [cmd_stdout].
  now rewrite <- !app_assoc.
Qed.

End ConsoleFacts.

(* ================================================================== *)
(** * Facts about the audit trail of the notifier *)
(* ================================================================== *)

Section LedgerFacts.
Import Py tasks notifier ledger.

Context {World : Type}.
Variable timezone_now : World -> Z * World.
Variable send_mail :
  string -> string -> string -> list string -> World -> Outcome Z * World.
Variable self_retry : exn -> World -> exn * World.
Variable EMAIL_HOST : string.
Variable DEFAULT_FROM_EMAIL : string.
Variable get_full_name : User -> string.
Variable str_datetime : Z -> string.

(** The loop body, by what the mail transport and the task queue answer. *)
Lemma process_assignment_eq (a : AssetAssignment) (s : State World) :
  let noted (w : World) (log : list AuditLog) (sent : Z) :=
    mkState w (assignments s)
            (notifications s
               ++ notifications_for (message_of get_full_name str_datetime a) a)
            (audit_log s ++ log) (notifications_created s + 2)
            (email_notifications s + sent) in
  process_assignment send_mail self_retry EMAIL_HOST DEFAULT_FROM_EMAIL
                     get_full_name str_datetime a s
  = (Returned tt,
     if mail_configured EMAIL_HOST (recipients_of a) then
       match send_mail (subject_of a) (message_of get_full_name str_datetime a)
                       DEFAULT_FROM_EMAIL (recipients_of a) (world s) with
       | (Returned _, w) =>
           noted w [created_entry (notifications_created s + 2) a] 1
       | (Raised exc, w) =>
           if isinstance (fst (self_retry exc w)) MaxRetriesExceededError then
             noted (snd (self_retry exc w))
                   [audit_entry a ("Failed to send overdue email after retries: "
                                     ++ str_exn exc);
                    created_entry (notifications_created s + 2) a] 0
           else
             noted (snd (self_retry exc w))
                   [audit_entry a ("Unexpected error in overdue task: "
                                     ++ str_exn (fst (self_retry exc w)))] 0
       end
     else noted (world s) [created_entry (notifications_created s + 2) a] 0).
Proof.
  intros noted. subst noted.
  unfold process_assignment, notify, try_except, try_except_cls.
  unfold bind, create_notification, incr_notifications_created, modify, ret,
    when, gets, create_audit_log, instance_truthy.
  cbn [world assignments notifications audit_log notifications_created
       email_notifications].
  rewrite !recipients_of_eq.
  unfold created_entry, audit_entry, notifications_for.
  replace (notifications_created s + 1 + 1) with (notifications_created s + 2) by lia.
  destruct (mail_configured EMAIL_HOST (recipients_of a)).
  - unfold try_except, bind, do_send_mail, incr_email_notifications, modify.
    cbn [world assignments notifications audit_log notifications_created
         email_notifications].
    destruct (send_mail _ _ _ _ _) as [[k | exc] w].
    + cbn. now rewrite <- !app_assoc.
    + unfold raise_retry, raise. cbn.
      destruct (self_retry exc w) as [e w']. cbn [fst snd].
      destruct (isinstance e MaxRetriesExceededError); cbn;
        now rewrite <- !app_assoc, ?Z.add_0_r.
  - cbn. now rewrite <- !app_assoc, ?Z.add_0_r.
Qed.

Lemma about_audit_entry (a : AssetAssignment) (d : string) : about a (audit_entry a d).
Proof. unfold about, audit_entry. cbn. auto. Qed.

(** The loop body leaves one or two records about its assignment. *)
Lemma process_assignment_audits (a : AssetAssignment) (s : State World) :
  exists s' g,
    process_assignment send_mail self_retry EMAIL_HOST DEFAULT_FROM_EMAIL
                       get_full_name str_datetime a s
    = (Returned tt, s')
    /\ audit_log s' = (audit_log s ++ g)%list
    /\ (List.length g = 1 \/ List.length g = 2)%nat
    /\ Forall (about a) g.
Proof.
  rewrite process_assignment_eq.
  destruct (mail_configured EMAIL_HOST (recipients_of a)).
  - destruct (send_mail _ _ _ _ _) as [[k | exc] w].
    + eexists _, _. split; [reflexivity|]. cbn. split; [reflexivity|].
      split; [now left|]. repeat constructor; apply about_audit_entry.
    + destruct (isinstance _ _); eexists _, _; (split; [reflexivity|]); cbn;
        (split; [reflexivity|]); (split; [auto|]);
        repeat constructor; apply about_audit_entry.
  - eexists _, _. split; [reflexivity|]. cbn. split; [reflexivity|].
    split; [now left|]. repeat constructor; apply about_audit_entry.
Qed.

Lemma for_each_process_audits (l : list AssetAssignment) :
  forall s : State World,
  exists s' groups,
    for_each l (process_assignment send_mail self_retry EMAIL_HOST
                                   DEFAULT_FROM_EMAIL get_full_name str_datetime) s
    = (Returned tt, s')
    /\ audit_log s' = (audit_log s ++ concat groups)%list
    /\ Forall2 (fun a g => (List.length g = 1 \/ List.length g = 2)%nat
                           /\ Forall (about a) g) l groups.
Proof.
  induction l as [| a l IH]; intros s.
  - exists s, []. cbn. rewrite app_nil_r. repeat split. constructor.
  - cbn [for_each]. unfold bind.
    destruct (process_assignment_audits a s) as (s1 & g & E1 & Ha1 & Hlen & Hab).
    rewrite E1. destruct (IH s1) as (s2 & groups & E2 & Ha2 & HF).
    exists s2, (g :: groups). split; [exact E2|]. cbn [concat].
    rewrite Ha2, Ha1, <- app_assoc. split; [reflexivity|].
    constructor; [now split | exact HF].
Qed.

(** The start of the task: the clock is read, the overdue assignments are
    selected and the counters are set to zero. *)
Lemma check_overdue_assignments_eq (s : State World) :
  check_overdue_assignments timezone_now send_mail self_retry EMAIL_HOST
                            DEFAULT_FROM_EMAIL get_full_name str_datetime s
  = let overdue :=
      filter (is_overdue (fst (timezone_now (world s)))) (assignments s) in
    match for_each overdue
                   (process_assignment send_mail self_retry EMAIL_HOST
                                       DEFAULT_FROM_EMAIL get_full_name
                                       str_datetime)
                   (mkState (snd (timezone_now (world s))) (assignments s)
                            (notifications s) (audit_log s) 0 0) with
    | (Returned _, s') =>
        (Returned (mkResult (Z.of_nat (List.length overdue))
                            (notifications_created s') (email_notifications s')),
         s')
    | (Raised e, s') => (Raised e, s')
    end.
Proof.
  unfold check_overdue_assignments.
  unfold bind at 1. rewrite tasks_now_eq.
  unfold bind at 1, gets at 1. cbn [assignments].
  unfold bind at 1, modify at 1.
  cbn [world assignments notifications audit_log].
  unfold bind at 1. cbv zeta.
  destruct (for_each _ _ _) as [[[] | e] s']; reflexivity.
Qed.

(** X20.  In every environment the task leaves a trail: for each overdue
    assignment, in turn, one or two new audit records that name it, after
    the records that were there; it changes no assignment, and it counts
    at most one email per overdue assignment. *)
Theorem every_overdue_assignment_is_audited (s : State World) :
  let overdue :=
    filter (is_overdue (fst (timezone_now (world s)))) (assignments s) in
  exists r s' groups,
    check_overdue_assignments timezone_now send_mail self_retry EMAIL_HOST
                              DEFAULT_FROM_EMAIL get_full_name str_datetime s
    = (Returned r, s')
    /\ audit_log s' = (audit_log s ++ concat groups)%list
    /\ Forall2 (fun a g => (List.length g = 1 \/ List.length g = 2)%nat
                           /\ Forall (about a) g) overdue groups
    /\ assignments s' = assignments s
    /\ 0 <= r_email_notifications r <= overdue_count r.
Proof.
  intros overdue. rewrite check_overdue_assignments_eq. cbv zeta. fold overdue.
  match goal with
  | |- context [for_each overdue ?body ?s0] =>
      destruct (for_each_process_audits overdue s0) as (s1 & groups & E & Ha & HF);
      destruct (for_each_process_returns send_mail self_retry EMAIL_HOST
                  DEFAULT_FROM_EMAIL get_full_name str_datetime overdue s0)
        as (s1' & E' & _ & _ & Has & He)
  end.
  rewrite E in E'. injection E' as <-. rewrite E.
  eexists _, s1, groups. split; [reflexivity|]. cbn in Ha, Has, He |- *.
  repeat split; auto; lia.
Qed.

(** ** No mail to send *)

Lemma for_each_process_unconfigured (l : list AssetAssignment) :
  forall s : State World,
    Forall (fun a => mail_configured EMAIL_HOST (recipients_of a) = false) l ->
    for_each l (process_assignment send_mail self_retry EMAIL_HOST
                                   DEFAULT_FROM_EMAIL get_full_name str_datetime) s
    = (Returned tt,
       mkState (world s) (assignments s)
               (notifications s
                  ++ flat_map (fun a => notifications_for
                                          (message_of get_full_name str_datetime a) a) l)
               (audit_log s ++ created_entries (notifications_created s) l)
               (notifications_created s + 2 * Z.of_nat (List.length l))
               (email_notifications s)).
Proof.
  induction l as [| a l IH]; intros s H.
  - cbn. unfold ret. rewrite !app_nil_r, Z.add_0_r. now destruct s.
  - inversion H as [| ? ? Ha Hl]; subst. cbn [for_each]. unfold bind.
    rewrite process_assignment_eq. cbv zeta. rewrite Ha.
    rewrite (IH _ Hl).
    cbn [world assignments notifications audit_log notifications_created
         email_notifications flat_map created_entries List.length].
    rewrite <- !app_assoc, Z.add_0_r. cbn [app].
    do 2 f_equal. lia.
Qed.

(** X21.  When no overdue assignment has mail to send (no mail host is
    configured, or neither of its users has an email address), the task
    attempts no mail: apart from reading the clock it leaves the world as
    it was, it reports no email, and the audit log grows by one record per
    overdue assignment, each giving the running total of notifications
    (two for the first assignment, four for the second, and so on). *)
Theorem no_mail_is_attempted_without_host_or_recipient (s : State World) :
  let overdue :=
    filter (is_overdue (fst (timezone_now (world s)))) (assignments s) in
  Forall (fun a => mail_configured EMAIL_HOST (recipients_of a) = false) overdue ->
  exists r s',
    check_overdue_assignments timezone_now send_mail self_retry EMAIL_HOST
                              DEFAULT_FROM_EMAIL get_full_name str_datetime s
    = (Returned r, s')
    /\ r_email_notifications r = 0
    /\ world s' = snd (timezone_now (world s))
    /\ audit_log s' = (audit_log s ++ created_entries 0 overdue)%list.
Proof.
  intros overdue H. rewrite check_overdue_assignments_eq. cbv zeta. fold overdue.
  rewrite (for_each_process_unconfigured overdue _ H).
  eexists _, _. split; [reflexivity|]. cbn. auto.
Qed.

(** ** Mail that is accepted *)

Lemma for_each_process_delivered (l : list AssetAssignment) :
  truthy EMAIL_HOST = true ->
  (forall subject message sender recipients w,
      exists k w', send_mail subject message sender recipients w = (Returned k, w')) ->
  forall s : State World,
  exists s',
    for_each l (process_assignment send_mail self_retry EMAIL_HOST
                                   DEFAULT_FROM_EMAIL get_full_name str_datetime) s
    = (Returned tt, s')
    /\ audit_log s'
       = (audit_log s ++ created_entries (notifications_created s) l)%list
    /\ notifications_created s' = notifications_created s + 2 * Z.of_nat (List.length l)
    /\ email_notifications s'
       = email_notifications s
         + Z.of_nat (List.length (filter has_recipient l)).
Proof.
  intros Hhost Hsend. induction l as [| a l IH]; intros s.
  - exists s. cbn. rewrite app_nil_r. repeat split; lia.
  - cbn [for_each]. unfold bind. rewrite process_assignment_eq. cbv zeta.
    assert (Hc : mail_configured EMAIL_HOST (recipients_of a) = has_recipient a).
    { unfold mail_configured, has_recipient.
      destruct (recipients_of a); [reflexivity | exact Hhost]. }
    rewrite Hc. cbn [filter created_entries List.length].
    destruct (has_recipient a).
    + destruct (Hsend (subject_of a) (message_of get_full_name str_datetime a)
                      DEFAULT_FROM_EMAIL (recipients_of a) (world s))
        as (k & w & E).
      rewrite E.
      match goal with
      | |- context [for_each l _ ?s1] =>
          destruct (IH s1) as (s2 & E2 & Ha & Hn & He)
      end.
      exists s2. split; [exact E2|].
      cbn [audit_log notifications_created email_notifications] in Ha, Hn, He.
      rewrite Ha, Hn, He, <- app_assoc. cbn [List.length].
      repeat split; lia.
    + match goal with
      | |- context [for_each l _ ?s1] =>
          destruct (IH s1) as (s2 & E2 & Ha & Hn & He)
      end.
      exists s2. split; [exact E2|].
      cbn [audit_log notifications_created email_notifications] in Ha, Hn, He.
      rewrite Ha, Hn, He, <- app_assoc.
      repeat split; lia.
Qed.

(** X22.  With a mail host configured and a transport that accepts every
    message, the task sends one message per overdue assignment that has a
    recipient, whatever the number of its recipients: [email_notifications]
    is the number of those assignments, and the audit log grows by exactly
    one record per overdue assignment, none of them a failure. *)
Theorem accepted_mail_is_counted_per_assignment (s : State World) :
  let overdue :=
    filter (is_overdue (fst (timezone_now (world s)))) (assignments s) in
  truthy EMAIL_HOST = true ->
  (forall subject message sender recipients w,
      exists k w', send_mail subject message sender recipients w = (Returned k, w')) ->
  exists r s',
    check_overdue_assignments timezone_now send_mail self_retry EMAIL_HOST
                              DEFAULT_FROM_EMAIL get_full_name str_datetime s
    = (Returned r, s')
    /\ r_email_notifications r
       = Z.of_nat (List.length (filter has_recipient overdue))
    /\ audit_log s' = (audit_log s ++ created_entries 0 overdue)%list.
Proof.
  intros overdue Hhost Hsend. rewrite check_overdue_assignments_eq. cbv zeta.
  fold overdue.
  match goal with
  | |- context [for_each overdue _ ?s0] =>
      destruct (for_each_process_delivered overdue Hhost Hsend s0)
        as (s1 & E & Ha & _ & He)
  end.
  rewrite E. eexists _, _. split; [reflexivity|]. cbn in Ha, He |- *.
  split; [lia | exact Ha].
Qed.

End LedgerFacts.

Section RepeatFacts.
Import Py tasks notifier ledger.

Context {World : Type}.
Variable timezone_now : World -> Z * World.
Variable send_mail :
  string -> string -> string -> list string -> World -> Outcome Z * World.
Variable self_retry : exn -> World -> exn * World.
Variable EMAIL_HOST : string.
Variable DEFAULT_FROM_EMAIL : string.
Variable get_full_name : User -> string.
Variable str_datetime : Z -> string.

Lemma is_overdue_later (t t' : Z) (a : AssetAssignment) :
  t <= t' -> is_overdue t a = true -> is_overdue t' a = true.
Proof.
  unfold is_overdue. destruct (date_due a), (date_returned a); try discriminate.
  intros Ht H. apply Z.ltb_lt in H. apply Z.ltb_lt. lia.
Qed.

(** One run of the task, in full as far as the notifications go. *)
Lemma check_overdue_assignments_run (s : State World) :
  let overdue :=
    filter (is_overdue (fst (timezone_now (world s)))) (assignments s) in
  exists r s',
    check_overdue_assignments timezone_now send_mail self_retry EMAIL_HOST
                              DEFAULT_FROM_EMAIL get_full_name str_datetime s
    = (Returned r, s')
    /\ assignments s' = assignments s
    /\ notifications s'
       = (notifications s
            ++ flat_map (fun a => notifications_for
                                    (message_of get_full_name str_datetime a) a)
                        overdue)%list.
Proof.
  intros overdue. rewrite check_overdue_assignments_eq. cbv zeta. fold overdue.
  match goal with
  | |- context [for_each overdue _ ?s0] =>
      destruct (for_each_process_returns send_mail self_retry EMAIL_HOST
                  DEFAULT_FROM_EMAIL get_full_name str_datetime overdue s0)
        as (s1 & E & Hn & _ & Ha & _)
  end.
  rewrite E. eexists _, s1. split; [reflexivity|]. cbn in Hn, Ha. auto.
Qed.

(** X23.  The task keeps no record of what it has notified: a second run
    stores two notifications again for every assignment that is overdue
    at its time, on top of those of the first run.  If the clock has not
    gone back, every assignment that the first run notified is notified
    again. *)
Theorem every_run_notifies_again (s : State World) :
  exists r1 s1 r2 s2,
    check_overdue_assignments timezone_now send_mail self_retry EMAIL_HOST
                              DEFAULT_FROM_EMAIL get_full_name str_datetime s
    = (Returned r1, s1)
    /\ check_overdue_assignments timezone_now send_mail self_retry EMAIL_HOST
                                 DEFAULT_FROM_EMAIL get_full_name str_datetime s1
       = (Returned r2, s2)
    /\ let t1 := fst (timezone_now (world s)) in
       let t2 := fst (timezone_now (world s1)) in
       let notes l :=
         flat_map (fun a => notifications_for
                              (message_of get_full_name str_datetime a) a) l in
       notifications s2
       = (notifications s
            ++ notes (filter (is_overdue t1) (assignments s))
            ++ notes (filter (is_overdue t2) (assignments s)))%list
       /\ (t1 <= t2 ->
           forall a, In a (filter (is_overdue t1) (assignments s)) ->
                     In a (filter (is_overdue t2) (assignments s))).
Proof.
  destruct (check_overdue_assignments_run s) as (r1 & s1 & E1 & Ha1 & Hn1).
  destruct (check_overdue_assignments_run s1) as (r2 & s2 & E2 & Ha2 & Hn2).
  exists r1, s1, r2, s2. split; [exact E1|]. split; [exact E2|]. cbv zeta.
  split.
  - rewrite Hn2, Hn1, Ha1, <- app_assoc. reflexivity.
  - intros Ht a Ha. apply filter_In in Ha as [Hin Ho]. apply filter_In.
    split; [exact Hin|]. exact (is_overdue_later _ _ a Ht Ho).
Qed.

End RepeatFacts.

(* ================================================================== *)
(** * The simulated site: further instances *)
(* ================================================================== *)

Section StudioFacts.
Import Py models scanner obs shape registry ledger flags.

(** C4, to the contrary: the result [seen_camera] carries the hardware
    address of the camera that is [MISSING], and of another camera too.
    The pass of [scan_and_update_assets] and that of the [scan_network]
    command raise [MultipleObjectsReturned] on it: the camera stays
    [MISSING] where it was, and nothing is counted. *)
Lemma shared_address_leaves_the_missing_asset_missing :
  In studio.camera_b (assets studio.crowded)
  /\ status studio.camera_b = MISSING
  /\ matches studio.seen_camera studio.camera_b = true
  /\ reconcile site.timezone_now site.generate_asset_tag
               [studio.seen_camera] studio.crowded
     = (Raised several_rows, studio.crowded)
  /\ scan_network.handle_results site.timezone_now site.generate_asset_tag
                                 [studio.seen_camera]
                                 (scan_network.mkCounters 0 0 0) studio.crowded
     = (Raised several_rows, studio.crowded).
Proof.
  split; [right; right; left; reflexivity|]. repeat split; reflexivity.
Qed.

(** C8, to the contrary: the result [seen_recorder] carries the hardware
    address of the recorder under maintenance, and of another recorder
    too.  Both passes raise [MultipleObjectsReturned] on it: the time at
    which the recorder was last seen and its network address stay as they
    were. *)
Lemma shared_address_leaves_the_asset_under_maintenance_unseen :
  In studio.recorder_a (assets studio.workshop)
  /\ status studio.recorder_a = MAINTENANCE
  /\ matches studio.seen_recorder studio.recorder_a = true
  /\ network_last_seen studio.recorder_a = Some 5
  /\ ip_address studio.recorder_a = Some "10.0.0.5"%string
  /\ r_ip_address studio.seen_recorder = "192.168.1.10"%string
  /\ reconcile site.timezone_now site.generate_asset_tag
               [studio.seen_recorder] studio.workshop
     = (Raised several_rows, studio.workshop)
  /\ scan_network.handle_results site.timezone_now site.generate_asset_tag
                                 [studio.seen_recorder]
                                 (scan_network.mkCounters 0 0 0) studio.workshop
     = (Raised several_rows, studio.workshop).
Proof.
  split; [left; reflexivity|]. repeat split; reflexivity.
Qed.

Lemma summary_counters_are_ordered_at_site :
  scan_and_update_assets site.platform_system site.subprocess_run site.list_capacity
                         site.timezone_now site.generate_asset_tag
                         "192.168.1.0/30" site.initial
  = (Returned studio.lan_summary, studio.after_lan_scan)
  /\ 0 <= missing_found studio.lan_summary <= matched studio.lan_summary
  /\ matched studio.lan_summary <= scanned studio.lan_summary <= 254
  /\ scanned studio.lan_summary
     = Z.of_nat (List.length (results studio.lan_summary)).
Proof.
  split; [reflexivity|].
  exact (summary_counters_are_ordered
           site.platform_system site.subprocess_run site.list_capacity site.timezone_now
           site.generate_asset_tag "192.168.1.0/30" site.initial
           studio.after_lan_scan studio.lan_summary eq_refl).
Defined.

Lemma summary_flags_the_matched_results_at_site :
  scan_and_update_assets site.platform_system site.subprocess_run site.list_capacity
                         site.timezone_now site.generate_asset_tag
                         "192.168.1.0/30" site.initial
  = (Returned studio.lan_summary, studio.after_lan_scan)
  /\ matched studio.lan_summary = flagged (results studio.lan_summary)
  /\ Forall (well_flagged (assets site.initial)) (results studio.lan_summary).
Proof.
  split; [reflexivity|].
  exact (summary_flags_the_matched_results
           site.platform_system site.subprocess_run site.list_capacity site.timezone_now
           site.generate_asset_tag "192.168.1.0/30" site.initial
           studio.after_lan_scan studio.lan_summary eq_refl).
Defined.

Lemma hardware_address_on_several_rows_aborts_the_pass_at_site :
  update_assets site.timezone_now site.generate_asset_tag [site.seen_laptop] 0 0
                studio.crowded
  = (Returned studio.past_laptop, studio.crowded_past_laptop)
  /\ (2 <= List.length (filter (matches studio.seen_camera)
                               (assets studio.crowded_past_laptop)))%nat
  /\ scan_network.handle_results site.timezone_now site.generate_asset_tag
                                 [site.seen_laptop]
                                 (scan_network.mkCounters 0 0 0) studio.crowded
     = (Returned studio.command_past_laptop,
        studio.crowded_past_laptop_by_command)
  /\ (2 <= List.length (filter (matches studio.seen_camera)
                               (assets studio.crowded_past_laptop_by_command)))%nat
  /\ reconcile site.timezone_now site.generate_asset_tag
               ([site.seen_laptop] ++ studio.seen_camera :: [site.seen_server])
               studio.crowded
     = (Raised several_rows, studio.crowded_past_laptop)
  /\ scan_network.handle_results
       site.timezone_now site.generate_asset_tag
       ([site.seen_laptop] ++ studio.seen_camera :: [site.seen_server])
       (scan_network.mkCounters 0 0 0) studio.crowded
     = (Raised several_rows, studio.crowded_past_laptop_by_command).
Proof.
  split; [reflexivity|]. split; [exact (le_n 2)|]. split; [reflexivity|].
  split; [exact (le_n 2)|].
  exact (hardware_address_on_several_rows_aborts_the_pass
           site.timezone_now site.generate_asset_tag
           [site.seen_laptop] [site.seen_server] studio.seen_camera
           studio.crowded studio.crowded_past_laptop studio.past_laptop
           (scan_network.mkCounters 0 0 0) studio.command_past_laptop
           studio.crowded studio.crowded_past_laptop_by_command
           eq_refl (le_n 2) eq_refl (le_n 2)).
Defined.

Lemma a_pass_only_recovers_at_site :
  NoDup (map id (assets site.initial))
  /\ Forall2 only_recovered (assets site.initial)
             (assets (snd (scan_and_update_assets
                             site.platform_system site.subprocess_run site.list_capacity
                             site.timezone_now site.generate_asset_tag
                             "192.168.1.0/30" site.initial)))
  /\ Forall2 only_recovered (assets site.initial)
             (assets (snd (scan_network.handle
                             site.platform_system site.subprocess_run site.list_capacity
                             site.timezone_now site.generate_asset_tag
                             "192.168.1.0/30" 1 site.initial))).
Proof.
  split; [exact (proj1 site_registry_ok)|].
  exact (a_pass_only_recovers
           site.platform_system site.subprocess_run site.list_capacity site.timezone_now
           site.generate_asset_tag "192.168.1.0/30" 1 site.initial
           (proj1 site_registry_ok)).
Defined.

Lemma library_and_command_agree_at_site :
  tagged (assets site.initial)
  /\ match reconcile site.timezone_now site.generate_asset_tag site.pass
                     site.initial,
           scan_network.handle_results site.timezone_now site.generate_asset_tag
                                       site.pass (scan_network.mkCounters 0 0 0)
                                       site.initial
     with
     | (Returned summary, s1), (Returned c, s2) =>
         matched summary = scan_network.matched_count c
         /\ missing_found summary = scan_network.missing_found c
         /\ matched summary + scan_network.found_count c = with_address site.pass
         /\ Forall2 same_but_location (assets s1) (assets s2)
     | (Raised e, s1), (Raised e', s2) =>
         e' = e /\ Forall2 same_but_location (assets s1) (assets s2)
     | _, _ => False
     end.
Proof.
  split; [exact (proj2 site_registry_ok)|].
  exact (library_and_command_agree
           site.timezone_now site.generate_asset_tag site.pass site.initial
           (proj2 site_registry_ok)).
Defined.

Lemma no_mail_is_attempted_without_host_or_recipient_at_site :
  Forall (fun a => tasks.mail_configured "" (notifier.recipients_of a) = false)
         (filter (tasks.is_overdue (fst (site.timezone_now (tasks.world site.office))))
                 (tasks.assignments site.office))
  /\ exists r s',
       tasks.check_overdue_assignments site.timezone_now site.send_mail
                                       site.self_retry ""
                                       site.DEFAULT_FROM_EMAIL
                                       site.get_full_name site.str_datetime
                                       site.office
       = (Returned r, s')
       /\ tasks.r_email_notifications r = 0
       /\ tasks.world s' = snd (site.timezone_now (tasks.world site.office))
       /\ tasks.audit_log s'
          = (tasks.audit_log site.office
               ++ created_entries 0
                    (filter (tasks.is_overdue
                               (fst (site.timezone_now (tasks.world site.office))))
                            (tasks.assignments site.office)))%list.
Proof.
  assert (H : Forall (fun a => tasks.mail_configured "" (notifier.recipients_of a)
                               = false)
                     (filter (tasks.is_overdue
                                (fst (site.timezone_now (tasks.world site.office))))
                             (tasks.assignments site.office))).
  { repeat constructor. }
  split; [exact H|].
  exact (no_mail_is_attempted_without_host_or_recipient
           site.timezone_now site.send_mail site.self_retry ""
           site.DEFAULT_FROM_EMAIL site.get_full_name site.str_datetime
           site.office H).
Defined.

Lemma accepted_mail_is_counted_per_assignment_at_site :
  truthy site.EMAIL_HOST = true
  /\ (forall subject message sender recipients w,
        exists k w',
          studio.accepting_mail subject message sender recipients w
          = (Returned k, w'))
  /\ exists r s',
       tasks.check_overdue_assignments site.timezone_now studio.accepting_mail
                                       site.self_retry site.EMAIL_HOST
                                       site.DEFAULT_FROM_EMAIL
                                       site.get_full_name site.str_datetime
                                       site.office
       = (Returned r, s')
       /\ tasks.r_email_notifications r
          = Z.of_nat
              (List.length
                 (filter has_recipient
                    (filter (tasks.is_overdue
                               (fst (site.timezone_now (tasks.world site.office))))
                            (tasks.assignments site.office))))
       /\ tasks.audit_log s'
          = (tasks.audit_log site.office
               ++ created_entries 0
                    (filter (tasks.is_overdue
                               (fst (site.timezone_now (tasks.world site.office))))
                            (tasks.assignments site.office)))%list.
Proof.
  assert (H : forall subject message sender recipients w,
             exists k w',
               studio.accepting_mail subject message sender recipients w
               = (Returned k, w')).
  { intros. eexists _, _. reflexivity. }
  split; [reflexivity|]. split; [exact H|].
  exact (accepted_mail_is_counted_per_assignment
           site.timezone_now studio.accepting_mail site.self_retry
           site.EMAIL_HOST site.DEFAULT_FROM_EMAIL site.get_full_name
           site.str_datetime site.office eq_refl H).
Defined.

Lemma other_retry_outcome_is_audited_as_unexpected_at_site :
  tasks.mail_configured site.EMAIL_HOST (notifier.recipients_of site.loan) = true
  /\ site.send_mail (tasks.subject_of site.loan)
                    (tasks.message_of site.get_full_name site.str_datetime site.loan)
                    site.DEFAULT_FROM_EMAIL (notifier.recipients_of site.loan)
                    (tasks.world site.office)
     = (Raised site.refused, 101)
  /\ studio.queued_retry site.refused 101 = (studio.queued, 102)
  /\ isinstance studio.queued MaxRetriesExceededError = false
  /\ exists s',
       tasks.process_assignment site.send_mail studio.queued_retry
                                site.EMAIL_HOST site.DEFAULT_FROM_EMAIL
                                site.get_full_name site.str_datetime
                                site.loan site.office
       = (Returned tt, s')
       /\ tasks.email_notifications s' = tasks.email_notifications site.office
       /\ tasks.audit_log s'
          = (tasks.audit_log site.office
               ++ [notifier.audit_entry site.loan
                     ("Unexpected error in overdue task: "
                        ++ str_exn studio.queued)])%list.
Proof.
  split; [reflexivity|]. split; [reflexivity|]. split; [reflexivity|].
  split; [reflexivity|].
  exact (other_retry_outcome_is_audited_as_unexpected
           site.send_mail studio.queued_retry site.EMAIL_HOST
           site.DEFAULT_FROM_EMAIL site.get_full_name site.str_datetime
           site.loan site.office site.refused studio.queued 101 102
           eq_refl eq_refl eq_refl eq_refl).
Defined.

Lemma dashed_address_is_accepted_but_never_matched_at_site :
  mac_shaped is_hex "-" "00-1A-2B-3C-4D-5E" = true
  /\ mac_address studio.mixer = Some "00-1A-2B-3C-4D-5E"%string
  /\ forms.clean_mac_address (Some "00-1A-2B-3C-4D-5E"%string)
     = forms.Clean (Some "00-1A-2B-3C-4D-5E"%string)
  /\ forall (self : NetworkScanner) (s : scanner.State site.World),
       exists out s',
         scan site.platform_system site.subprocess_run site.list_capacity self s = (Returned out, s')
         /\ Forall (fun r => matches r studio.mixer = false) out.
Proof.
  split; [reflexivity|]. split; [reflexivity|].
  exact (dashed_address_is_accepted_but_never_matched
           site.platform_system site.subprocess_run site.list_capacity
           "00-1A-2B-3C-4D-5E" studio.mixer eq_refl eq_refl).
Defined.

Lemma scan_covers_an_ipv4_block_from_prefix_24_on_at_site :
  (ipaddress.ip_network "192.168.1.0/30" = Returned site.lan
   /\ ipaddress.version site.lan = ipaddress.V4
   /\ ipaddress._prefixlen site.lan <= 30
   /\ Z.of_nat (List.length (ipaddress.hosts site.lan))
      = 2 ^ (32 - ipaddress._prefixlen site.lan) - 2
   /\ exists results s' tr,
        scan site.platform_system site.subprocess_run site.list_capacity
             (mkScanner "192.168.1.0/30" 1) site.initial
        = (Returned results, s')
        /\ trace s' = (trace site.initial ++ tr)%list
        /\ begun tr = map ipaddress.str (firstn 254 (ipaddress.hosts site.lan))
        /\ Z.of_nat (List.length (begun tr))
           = Z.min 254 (2 ^ (32 - ipaddress._prefixlen site.lan) - 2)
        /\ (24 <= ipaddress._prefixlen site.lan ->
            begun tr = map ipaddress.str (ipaddress.hosts site.lan)))
  /\ (ipaddress.ip_network "16.0.0.0/4" = Returned studio.wide
      /\ ipaddress.version studio.wide = ipaddress.V4
      /\ ipaddress._prefixlen studio.wide <= 30
      /\ Z.of_nat (List.length (ipaddress.hosts studio.wide))
         = 2 ^ (32 - ipaddress._prefixlen studio.wide) - 2
      /\ exists results s' tr,
           scan site.platform_system site.subprocess_run site.list_capacity
                (mkScanner "16.0.0.0/4" 1) site.initial
           = (Returned results, s')
           /\ trace s' = (trace site.initial ++ tr)%list
           /\ tr = [] /\ results = []
           /\ printed s' = (printed site.initial ++ ["Scan error: "%string])%list).
Proof.
  split.
  - split; [reflexivity|]. split; [reflexivity|].
    split; [exact (Zle_bool_imp_le 30 30 eq_refl)|].
    exact (scan_covers_an_ipv4_block_from_prefix_24_on
             site.platform_system site.subprocess_run site.list_capacity
             (mkScanner "192.168.1.0/30" 1) site.initial site.lan
             eq_refl eq_refl (Zle_bool_imp_le 30 30 eq_refl)).
  - split; [reflexivity|]. split; [reflexivity|].
    split; [exact (Zle_bool_imp_le 4 30 eq_refl)|].
    exact (scan_covers_an_ipv4_block_from_prefix_24_on
             site.platform_system site.subprocess_run site.list_capacity
             (mkScanner "16.0.0.0/4" 1) site.initial studio.wide
             eq_refl eq_refl (Zle_bool_imp_le 4 30 eq_refl)).
Defined.

End StudioFacts.

Section DeskFacts.
Import Py models scanner obs shape registry forms views.

Lemma web_scan_needs_an_administrator_and_a_valid_form_at_site :
  ((forall p, profile studio.by_technician = Some p -> is_admin p = false)
   \/ method studio.by_technician <> "POST"%string
   \/ (forall subnet timeout,
         full_clean studio.subnet_field_clean studio.timeout_field_clean
                    (POST studio.by_technician)
         <> Returned (Valid subnet timeout)))
  /\ (let out :=
        network_scan_view site.platform_system site.subprocess_run site.list_capacity
                          site.timezone_now site.generate_asset_tag
                          studio.subnet_field_clean studio.timeout_field_clean
                          studio.by_technician studio.desk in
      net (snd out) = net studio.desk
      /\ views.audit_log (snd out) = views.audit_log studio.desk
      /\ forall template form results,
           fst out <> Returned (render template form (Some results))).
Proof.
  assert (H : forall p, profile studio.by_technician = Some p -> is_admin p = false).
  { intros p [= <-]. reflexivity. }
  split; [left; exact H|].
  exact (web_scan_needs_an_administrator_and_a_valid_form
           site.platform_system site.subprocess_run site.list_capacity site.timezone_now
           site.generate_asset_tag studio.subnet_field_clean
           studio.timeout_field_clean studio.by_technician studio.desk
           (or_introl H)).
Defined.

Lemma web_scan_rejects_a_malformed_subnet_at_site :
  profile studio.bad_subnet = Some (mkProfile "ADMIN")
  /\ is_admin (mkProfile "ADMIN") = true
  /\ method studio.bad_subnet = "POST"%string
  /\ POST studio.bad_subnet "subnet" = Some "  not-a-subnet "%string
  /\ studio.subnet_field_clean (POST studio.bad_subnet "subnet")
     = Clean "not-a-subnet"%string
  /\ ipaddress.ip_network "not-a-subnet" = Raised site.not_a_subnet
  /\ exists errors,
       network_scan_view site.platform_system site.subprocess_run site.list_capacity
                         site.timezone_now site.generate_asset_tag
                         studio.subnet_field_clean studio.timeout_field_clean
                         studio.bad_subnet studio.desk
       = (Returned
            (render "asset_management/network_scan.html"
               (Invalid
                  (("subnet"%string,
                    "Invalid subnet format. Use CIDR notation (e.g., 192.168.1.0/24)"%string)
                     :: errors))
               None),
          studio.desk).
Proof.
  split; [reflexivity|]. split; [reflexivity|]. split; [reflexivity|].
  split; [reflexivity|]. split; [reflexivity|]. split; [reflexivity|].
  exact (web_scan_rejects_a_malformed_subnet
           site.platform_system site.subprocess_run site.list_capacity site.timezone_now
           site.generate_asset_tag studio.subnet_field_clean
           studio.timeout_field_clean studio.bad_subnet studio.desk
           (mkProfile "ADMIN") "not-a-subnet" site.not_a_subnet
           eq_refl eq_refl eq_refl eq_refl eq_refl).
Defined.

Lemma web_scan_recovers_without_relocating_at_site :
  r_mac_address site.seen_laptop = Some "00:1A:2B:3C:4D:5E"%string
  /\ truthy "00:1A:2B:3C:4D:5E" = true
  /\ objects_get (assets (net studio.desk)) "00:1A:2B:3C:4D:5E"
     = Returned site.laptop
  /\ truthy (asset_tag site.laptop) = true
  /\ exists v',
       note_result site.timezone_now site.generate_asset_tag site.seen_laptop
                   studio.desk
       = (Returned tt, v')
       /\ assets (net v')
          = save_row
              (mkAsset (id site.laptop) (asset_tag site.laptop)
                       (mac_address site.laptop)
                       (Some (r_ip_address site.seen_laptop))
                       (if is_missing site.laptop then AVAILABLE
                        else status site.laptop)
                       (location site.laptop)
                       (Some (fst (site.timezone_now (world (net studio.desk))))))
              (assets (net studio.desk))
       /\ messages v'
          = (messages studio.desk
               ++ if is_missing site.laptop
                  then [(warning,
                         ("Found missing asset " ++ asset_tag site.laptop
                            ++ " on network!")%string)]
                  else [])%list
       /\ views.audit_log v' = views.audit_log studio.desk.
Proof.
  split; [reflexivity|]. split; [reflexivity|]. split; [reflexivity|].
  split; [reflexivity|].
  exact (web_scan_recovers_without_relocating
           site.timezone_now site.generate_asset_tag site.seen_laptop
           "00:1A:2B:3C:4D:5E" site.laptop studio.desk
           eq_refl eq_refl eq_refl eq_refl).
Defined.

Lemma web_scan_is_audited_with_the_host_count_at_site :
  profile studio.scan_lan = Some (mkProfile "ADMIN")
  /\ is_admin (mkProfile "ADMIN") = true
  /\ method studio.scan_lan = "POST"%string
  /\ full_clean studio.subnet_field_clean studio.timeout_field_clean
                (POST studio.scan_lan)
     = Returned (Valid "192.168.1.0/30" 1)
  /\ exists scan_results s1,
       scan site.platform_system site.subprocess_run site.list_capacity
            (mkScanner "192.168.1.0/30" 1) (net studio.desk)
       = (Returned scan_results, s1)
       /\ Forall fresh_entry scan_results
       /\ let found := str_int (Z.of_nat (List.length scan_results)) in
          match for_each scan_results
                         (note_result site.timezone_now site.generate_asset_tag)
                         (views.mkState s1 (messages studio.desk)
                                        (views.audit_log studio.desk)) with
          | (Returned _, v2) =>
              network_scan_view site.platform_system site.subprocess_run site.list_capacity
                                site.timezone_now site.generate_asset_tag
                                studio.subnet_field_clean
                                studio.timeout_field_clean
                                studio.scan_lan studio.desk
              = (Returned (render "asset_management/network_scan.html"
                                  (Valid "192.168.1.0/30" 1) (Some scan_results)),
                 views.mkState
                   (net v2)
                   (messages v2
                      ++ [(success,
                           ("Network scan completed. Found " ++ found
                              ++ " devices.")%string)])
                   (views.audit_log studio.desk
                      ++ [mkAuditLog (user studio.scan_lan) "SCAN"
                            ("Network scan performed on " ++ "192.168.1.0/30"
                               ++ ". Found " ++ found ++ " devices.")%string
                            None None (REMOTE_ADDR studio.scan_lan)]))
          | (Raised e, v2) =>
              network_scan_view site.platform_system site.subprocess_run site.list_capacity
                                site.timezone_now site.generate_asset_tag
                                studio.subnet_field_clean
                                studio.timeout_field_clean
                                studio.scan_lan studio.desk
              = (Raised e, v2)
              /\ views.audit_log v2 = views.audit_log studio.desk
          end.
Proof.
  split; [reflexivity|]. split; [reflexivity|]. split; [reflexivity|].
  split; [reflexivity|].
  exact (web_scan_is_audited_with_the_host_count
           site.platform_system site.subprocess_run site.list_capacity site.timezone_now
           site.generate_asset_tag studio.subnet_field_clean
           studio.timeout_field_clean studio.scan_lan studio.desk
           (mkProfile "ADMIN") "192.168.1.0/30" 1
           eq_refl eq_refl eq_refl eq_refl).
Defined.

Lemma qr_label_leads_back_to_its_asset_at_site :
  method studio.laptop_label = "POST"%string
  /\ POST studio.laptop_label "qr_data"
     = Some (label.qr_data (asset_tag site.laptop) (Some "SN-0042"%string))
  /\ contains "|" (asset_tag site.laptop) = false
  /\ get_by_tag (assets (net studio.desk)) (asset_tag site.laptop)
     = Returned site.laptop
  /\ qr_lookup studio.laptop_label studio.desk
     = (Returned (redirect "asset_detail" (Some (id site.laptop))), studio.desk).
Proof.
  split; [reflexivity|]. split; [reflexivity|]. split; [reflexivity|].
  split; [reflexivity|].
  exact (qr_label_leads_back_to_its_asset
           studio.laptop_label studio.desk site.laptop (Some "SN-0042"%string)
           eq_refl eq_refl eq_refl eq_refl).
Defined.

Lemma qr_lookup_reads_the_second_field_only_at_site :
  method studio.foreign_label = "POST"%string
  /\ POST studio.foreign_label "qr_data"
     = Some ("WIFI" ++ "|" ++ "UTV-SRV-001" ++ "|anything|else")%string
  /\ contains "|" "WIFI" = false
  /\ contains "|" "UTV-SRV-001" = false
  /\ ("|anything|else"%string = ""%string
      \/ String.prefix "|" "|anything|else" = true)
  /\ qr_lookup studio.foreign_label studio.desk
     = match get_by_tag (assets (net studio.desk)) "UTV-SRV-001" with
       | Returned asset =>
           (Returned (redirect "asset_detail" (Some (id asset))), studio.desk)
       | Raised e =>
           (Returned (redirect "qr_scanner" None),
            views.mkState (net studio.desk)
              (messages studio.desk
                 ++ [(error,
                      if isinstance e DoesNotExist
                      then ("Asset " ++ "UTV-SRV-001" ++ " not found")%string
                      else "Error reading QR code"%string)])
              (views.audit_log studio.desk))
       end.
Proof.
  split; [reflexivity|]. split; [reflexivity|]. split; [reflexivity|].
  split; [reflexivity|]. split; [right; reflexivity|].
  exact (qr_lookup_reads_the_second_field_only
           studio.foreign_label studio.desk "WIFI" "UTV-SRV-001" "|anything|else"
           eq_refl eq_refl eq_refl eq_refl (or_intror eq_refl)).
Defined.

End DeskFacts.
